(** * Fingerprint template codec and matching engine

    A shallow embedding of [server-py/services/fingerprint_processor.py]
    and [server-py/services/matcher.py].

    - Python floats are IEEE-754 binary64 values, represented by the
      Standard Library's [spec_float] with [prec = 53], [emax = 1024];
      every operation rounds to nearest-even as the hardware does.
    - Python values that travel through JSON are the inductive [pyval].
    - [json], [base64] and [bytes.decode] are modelled by executable
      functions that follow CPython's pure-Python/C implementations.
    - An exception is the [Raised] outcome, a [while] loop that has not
      finished within the given number of iterations is [Hang]. *)

From Stdlib Require Import ZArith NArith List String Ascii Bool Lia Arith.
From Stdlib Require Import DecimalString DecimalPos Sorted Permutation.
From Stdlib Require Import Floats.SpecFloat.
Import ListNotations.

Local Open Scope Z_scope.

(* ===================================================================== *)
(** * Binary64 arithmetic *)
(* ===================================================================== *)

Module Float64.

Definition prec : Z := 53.
Definition emax : Z := 1024.

Definition float := spec_float.

Definition add : float -> float -> float := SFadd prec emax.
Definition sub : float -> float -> float := SFsub prec emax.
Definition mul : float -> float -> float := SFmul prec emax.
Definition div : float -> float -> float := SFdiv prec emax.
Definition sqrt : float -> float := SFsqrt prec emax.
Definition abs : float -> float := SFabs.
Definition ltb : float -> float -> bool := SFltb.
Definition leb : float -> float -> bool := SFleb.
Definition eqb : float -> float -> bool := SFeqb.

(** [x > y] and [x >= y] as Python evaluates them. *)
Definition gtb (x y : float) : bool := ltb y x.
Definition geb (x y : float) : bool := leb y x.

(** [float(n)] for a Python int, and int operands promoted to float. *)
Definition of_Z (n : Z) : float := binary_normalize prec emax n 0 false.

(** [a / b] on two Python ints (true division): the exact quotient,
    rounded once.  [b = 0] raises and is handled by the callers. *)
Definition int_truediv (a b : Z) : float :=
  match a, b with
  | Z0, _ => S754_zero (b <? 0)
  | Zpos p, Zpos q => div (S754_finite false p 0) (S754_finite false q 0)
  | Zpos p, Zneg q => div (S754_finite false p 0) (S754_finite true q 0)
  | Zneg p, Zpos q => div (S754_finite true p 0) (S754_finite false q 0)
  | Zneg p, Zneg q => div (S754_finite true p 0) (S754_finite true q 0)
  | _, Z0 => S754_nan
  end.

(** The float denoted by the decimal literal [digits * 10^exp10],
    correctly rounded, as [float(str)] computes it. *)
Definition of_decimal (neg : bool) (digits : Z) (exp10 : Z) : float :=
  match digits with
  | Z0 => S754_zero neg
  | Zpos m =>
      if 0 <=? exp10
      then binary_round prec emax neg (m * Z.to_pos (10 ^ exp10)) 0
      else div (S754_finite neg m 0)
               (S754_finite false (Z.to_pos (10 ^ (- exp10))) 0)
  | Zneg _ => S754_nan
  end.

Definition zero : float := S754_zero false.
Definition one : float := Eval vm_compute in of_Z 1.
Definition infinity : float := S754_infinity false.

(** Literals of the source. *)
Definition f0_7 : float := Eval vm_compute in of_decimal false 7 (-1).
Definition f0_6 : float := Eval vm_compute in of_decimal false 6 (-1).
Definition f0_5 : float := Eval vm_compute in of_decimal false 5 (-1).
Definition f0_4 : float := Eval vm_compute in of_decimal false 4 (-1).
Definition f0_3 : float := Eval vm_compute in of_decimal false 3 (-1).
Definition f0_25 : float := Eval vm_compute in of_decimal false 25 (-2).
Definition f0_2 : float := Eval vm_compute in of_decimal false 2 (-1).
Definition f0_1 : float := Eval vm_compute in of_decimal false 1 (-1).
Definition f0_05 : float := Eval vm_compute in of_decimal false 5 (-2).
Definition f20 : float := Eval vm_compute in of_Z 20.
Definition f30 : float := Eval vm_compute in of_Z 30.

(** [np.pi], the double nearest to pi: 0x1.921fb54442d18p+1. *)
Definition pi : float := Eval vm_compute in of_decimal false 3141592653589793 (-15).
Definition two_pi : float := Eval vm_compute in mul (of_Z 2) pi.

(** Python's built-in [max(a, b)] and [min(a, b)] on two arguments:
    the first argument is kept unless the second compares strictly
    greater (resp. smaller). *)
Definition pymax (a b : float) : float := if gtb b a then b else a.
Definition pymin (a b : float) : float := if ltb b a then b else a.

Definition is_nan (x : float) : bool :=
  match x with S754_nan => true | _ => false end.

Definition is_finite (x : float) : bool :=
  match x with S754_zero _ | S754_finite _ _ _ => true | _ => false end.

End Float64.

(* ===================================================================== *)
(** * Python values *)
(* ===================================================================== *)

#[local] Set Warnings "-register-all".

(** The values that [json.loads] builds and [json.dumps] accepts.  A
    [str] is held as the bytes of its UTF-8 encoding; a [dict] is the
    list of its items in insertion order. *)
Inductive pyval : Type :=
| PNone
| PBool (b : bool)
| PInt (n : Z)
| PFloat (f : Float64.float)
| PStr (s : string)
| PList (l : list pyval)
| PTuple (l : list pyval)
| PDict (d : list (string * pyval)).

Module Py.

(** [bool(v)]: what [if v:] and [not v] test. *)
Definition truthy (v : pyval) : bool :=
  match v with
  | PNone => false
  | PBool b => b
  | PInt n => negb (n =? 0)
  | PFloat f => negb (Float64.eqb f Float64.zero)
  | PStr s => negb (String.eqb s EmptyString)
  | PList l | PTuple l => match l with [] => false | _ => true end
  | PDict d => match d with [] => false | _ => true end
  end.

Fixpoint lookup (key : string) (d : list (string * pyval)) : option pyval :=
  match d with
  | [] => None
  | (k, v) :: rest => if String.eqb k key then Some v else lookup key rest
  end.

(** [d.get(key, default)] on a dict. *)
Definition get (d : list (string * pyval)) (key : string) (default : pyval) : pyval :=
  match lookup key d with Some v => v | None => default end.

(** [d[key] = v]: an existing key keeps its position. *)
Fixpoint setitem (d : list (string * pyval)) (key : string) (v : pyval)
  : list (string * pyval) :=
  match d with
  | [] => [(key, v)]
  | (k, w) :: rest =>
      if String.eqb k key then (k, v) :: rest else (k, w) :: setitem rest key v
  end.

End Py.

(* ===================================================================== *)
(** * base64 *)
(* ===================================================================== *)

Module Base64.

Local Open Scope N_scope.

Definition code (c : ascii) : N := N_of_ascii c.
Definition chr (n : N) : ascii := ascii_of_N n.

(** The standard alphabet: index to character. *)
Definition table_b2a (n : N) : ascii :=
  if n <? 26 then chr (65 + n)
  else if n <? 52 then chr (97 + (n - 26))
  else if n <? 62 then chr (48 + (n - 52))
  else if n =? 62 then "+"%char
  else "/"%char.

(** Character to index; [None] for a character outside the alphabet. *)
Definition table_a2b (c : ascii) : option N :=
  let n := code c in
  if (65 <=? n) && (n <=? 90) then Some (n - 65)
  else if (97 <=? n) && (n <=? 122) then Some (n - 97 + 26)
  else if (48 <=? n) && (n <=? 57) then Some (n - 48 + 52)
  else if n =? 43 then Some 62
  else if n =? 47 then Some 63
  else None.

(** [base64.b64encode]: three bytes become four characters, the tail
    is padded with ['=']. *)
Fixpoint b64encode (s : string) : string :=
  match s with
  | EmptyString => EmptyString
  | String a EmptyString =>
      let a := code a in
      String (table_b2a (N.shiftr a 2))
     (String (table_b2a (N.shiftl (N.land a 3) 4))
     (String "="%char (String "="%char EmptyString)))
  | String a (String b EmptyString) =>
      let a := code a in let b := code b in
      String (table_b2a (N.shiftr a 2))
     (String (table_b2a (N.lor (N.shiftl (N.land a 3) 4) (N.shiftr b 4)))
     (String (table_b2a (N.shiftl (N.land b 15) 2))
     (String "="%char EmptyString)))
  | String a (String b (String c rest)) =>
      let a := code a in let b := code b in let c := code c in
      String (table_b2a (N.shiftr a 2))
     (String (table_b2a (N.lor (N.shiftl (N.land a 3) 4) (N.shiftr b 4)))
     (String (table_b2a (N.lor (N.shiftl (N.land b 15) 2) (N.shiftr c 6)))
     (String (table_b2a (N.land c 63)) (b64encode rest))))
  end.

(** [binascii.a2b_base64] in its default, non-strict mode, as the
    loop of CPython's [binascii.c]: [quad_pos] counts the characters
    of the current quad, [leftchar] holds the bits not yet written,
    [pads] counts the ['='] seen since the last data character;
    characters outside the alphabet are ignored, a completed pad
    sequence ends the input, and a dangling quad is an error. *)
Fixpoint a2b_base64 (s : string) (quad_pos : N) (leftchar : N) (pads : N)
  : option string :=
  match s with
  | EmptyString => if quad_pos =? 0 then Some EmptyString else None
  | String this_ch rest =>
      if Ascii.eqb this_ch "="%char then
        if (2 <=? quad_pos) && (4 <=? quad_pos + (pads + 1))
        then Some EmptyString
        else a2b_base64 rest quad_pos leftchar
               (if 2 <=? quad_pos then pads + 1 else pads)
      else
        match table_a2b this_ch with
        | None => a2b_base64 rest quad_pos leftchar pads
        | Some v =>
            if quad_pos =? 0 then a2b_base64 rest 1 v 0
            else
              let '(byte, quad_pos', leftchar') :=
                if quad_pos =? 1
                then (N.lor (N.shiftl leftchar 2) (N.shiftr v 4), 2, N.land v 15)
                else if quad_pos =? 2
                then (N.lor (N.shiftl leftchar 4) (N.shiftr v 2), 3, N.land v 3)
                else (N.lor (N.shiftl leftchar 6) v, 0, 0) in
              match a2b_base64 rest quad_pos' leftchar' 0 with
              | Some out => Some (String (chr (N.land byte 255)) out)
              | None => None
              end
        end
  end.

Fixpoint is_ascii (s : string) : bool :=
  match s with
  | EmptyString => true
  | String c rest => (code c <? 128) && is_ascii rest
  end.

(** [base64.b64decode(s)] on a [str]: the string must be pure ASCII
    ([ValueError] otherwise), then [a2b_base64].  [None] is any of
    the exceptions. *)
Definition b64decode (s : string) : option string :=
  if is_ascii s then a2b_base64 s 0 0 0 else None.

End Base64.

(* ===================================================================== *)
(** * UTF-8 *)
(* ===================================================================== *)

Module Utf8.

Local Open Scope N_scope.

Definition code (c : ascii) : N := N_of_ascii c.
Definition between (lo n hi : N) : bool := (lo <=? n) && (n <=? hi).
Definition cont (c : ascii) : bool := between 128 (code c) 191.

(** [bytes.decode()] with the default codec (UTF-8, strict): the bytes
    are returned when they are well-formed UTF-8 (shortest form, no
    surrogates, at most U+10FFFF), [None] is [UnicodeDecodeError]. *)
Fixpoint decode (b : string) : option string :=
  match b with
  | EmptyString => Some EmptyString
  | String c0 rest =>
      let n0 := code c0 in
      if n0 <? 128 then option_map (String c0) (decode rest)
      else match rest with
      | String c1 rest1 =>
          if between 194 n0 223 then
            if cont c1 then option_map (fun r => String c0 (String c1 r)) (decode rest1)
            else None
          else match rest1 with
          | String c2 rest2 =>
              if between 224 n0 239 then
                if (if n0 =? 224 then between 160 (code c1) 191
                    else if n0 =? 237 then between 128 (code c1) 159
                    else cont c1) && cont c2
                then option_map (fun r => String c0 (String c1 (String c2 r)))
                       (decode rest2)
                else None
              else match rest2 with
              | String c3 rest3 =>
                  if between 240 n0 244 then
                    if (if n0 =? 240 then between 144 (code c1) 191
                        else if n0 =? 244 then between 128 (code c1) 143
                        else cont c1) && cont c2 && cont c3
                    then option_map
                           (fun r => String c0 (String c1 (String c2 (String c3 r))))
                           (decode rest3)
                    else None
                  else None
              | EmptyString => None
              end
          | EmptyString => None
          end
      | EmptyString => None
      end
  end.

(** The UTF-8 bytes of one code point (surrogates pass through as
    three bytes, so that a lone [\udXXX] escape has a representation). *)
Definition encode_char (n : N) : string :=
  let chr := ascii_of_N in
  if n <? 128 then String (chr n) EmptyString
  else if n <? 2048 then
    String (chr (192 + N.shiftr n 6))
   (String (chr (128 + N.land n 63)) EmptyString)
  else if n <? 65536 then
    String (chr (224 + N.shiftr n 12))
   (String (chr (128 + N.land (N.shiftr n 6) 63))
   (String (chr (128 + N.land n 63)) EmptyString))
  else
    String (chr (240 + N.shiftr n 18))
   (String (chr (128 + N.land (N.shiftr n 12) 63))
   (String (chr (128 + N.land (N.shiftr n 6) 63))
   (String (chr (128 + N.land n 63)) EmptyString))).

(** The code points of a UTF-8 string. *)
Fixpoint codepoints (s : string) : list N :=
  match s with
  | EmptyString => []
  | String c0 rest =>
      let n0 := code c0 in
      if n0 <? 192 then n0 :: codepoints rest
      else match rest with
      | String c1 rest1 =>
          if n0 <? 224 then
            (N.shiftl (N.land n0 31) 6 + N.land (code c1) 63) :: codepoints rest1
          else match rest1 with
          | String c2 rest2 =>
              if n0 <? 240 then
                (N.shiftl (N.land n0 15) 12 + N.shiftl (N.land (code c1) 63) 6
                 + N.land (code c2) 63) :: codepoints rest2
              else match rest2 with
              | String c3 rest3 =>
                  (N.shiftl (N.land n0 7) 18 + N.shiftl (N.land (code c1) 63) 12
                   + N.shiftl (N.land (code c2) 63) 6 + N.land (code c3) 63)
                  :: codepoints rest3
              | EmptyString => [n0]
              end
          | EmptyString => [n0]
          end
      | EmptyString => [n0]
      end
  end.

End Utf8.

(* ===================================================================== *)
(** * json *)
(* ===================================================================== *)

Module Json.

Definition code (c : ascii) : N := N_of_ascii c.
Definition chr (n : N) : ascii := ascii_of_N n.

Definition quote : ascii := Eval compute in chr 34.
Definition backslash : ascii := Eval compute in chr 92.

Definition is_digit (c : ascii) : bool := ((48 <=? code c) && (code c <=? 57))%N.

(** ** Encoder: [json.dumps(obj, separators=(',', ':'))] *)

Definition hex_digit (n : N) : ascii :=
  if (n <? 10)%N then chr (48 + n) else chr (87 + n).

(** ['\\u{0:04x}'.format(n)] *)
Definition u_escape (n : N) : string :=
  String backslash (String "u"%char
    (String (hex_digit (N.land (N.shiftr n 12) 15))
    (String (hex_digit (N.land (N.shiftr n 8) 15))
    (String (hex_digit (N.land (N.shiftr n 4) 15))
    (String (hex_digit (N.land n 15)) EmptyString))))).

(** The replacement of one character by [py_encode_basestring_ascii]:
    printable ASCII other than the quote and the backslash is kept. *)
Definition escape_char (n : N) : string :=
  if (n =? 34)%N then String backslash (String quote EmptyString)
  else if (n =? 92)%N then String backslash (String backslash EmptyString)
  else if (n =? 10)%N then String backslash (String "n"%char EmptyString)
  else if (n =? 13)%N then String backslash (String "r"%char EmptyString)
  else if (n =? 9)%N then String backslash (String "t"%char EmptyString)
  else if (n =? 8)%N then String backslash (String "b"%char EmptyString)
  else if (n =? 12)%N then String backslash (String "f"%char EmptyString)
  else if ((32 <=? n) && (n <=? 126))%N then String (chr n) EmptyString
  else if (n <? 65536)%N then u_escape n
  else
    let m := (n - 65536)%N in
    (u_escape (N.lor 55296 (N.land (N.shiftr m 10) 1023))
     ++ u_escape (N.lor 56320 (N.land m 1023)))%string.

Definition encode_basestring_ascii (s : string) : string :=
  String quote
    (fold_right (fun n acc => escape_char n ++ acc)%string
       (String quote EmptyString) (Utf8.codepoints s)).

(** [int.__repr__], without the interpreter's limit on the number of
    digits (see [JsonLimits]). *)
Definition int_repr (n : Z) : string :=
  match n with
  | Z0 => "0"%string
  | Zpos p => NilEmpty.string_of_uint (Pos.to_uint p)
  | Zneg p => String "-"%char (NilEmpty.string_of_uint (Pos.to_uint p))
  end.

Section Encoder.

(** [float.__repr__]: the shortest decimal string that converts
    back to the same double.  It belongs to the interpreter and is
    a parameter of the encoder. *)
Variable float_repr : Float64.float -> string.

Definition floatstr (o : Float64.float) : string :=
  match o with
  | S754_nan => "NaN"%string
  | S754_infinity false => "Infinity"%string
  | S754_infinity true => "-Infinity"%string
  | _ => float_repr o
  end.

Fixpoint dumps (o : pyval) : string :=
  match o with
  | PNone => "null"%string
  | PBool true => "true"%string
  | PBool false => "false"%string
  | PInt n => int_repr n
  | PFloat f => floatstr f
  | PStr s => encode_basestring_ascii s
  | PList l | PTuple l =>
      match l with
      | [] => "[]"%string
      | x :: r =>
          String "["%char (dumps x ++
            (fix tail (r : list pyval) : string :=
               match r with
               | [] => "]"
               | y :: r' => String ","%char (dumps y ++ tail r')
               end) r)%string
      end
  | PDict d =>
      match d with
      | [] => "{}"%string
      | (k, x) :: r =>
          String "{"%char (encode_basestring_ascii k ++ String ":"%char (dumps x ++
            (fix tail (r : list (string * pyval)) : string :=
               match r with
               | [] => "}"
               | (k', y) :: r' =>
                   String ","%char (encode_basestring_ascii k' ++
                     String ":"%char (dumps y ++ tail r'))
               end) r))%string
      end
  end.

End Encoder.

(** ** Decoder: [json.loads(s)] *)

Definition is_ws (c : ascii) : bool :=
  let n := code c in ((n =? 32) || (n =? 9) || (n =? 10) || (n =? 13))%N.

Fixpoint skip_ws (s : string) : string :=
  match s with
  | String c r => if is_ws c then skip_ws r else s
  | EmptyString => s
  end.

Definition hex_value (c : ascii) : option N :=
  let n := code c in
  if ((48 <=? n) && (n <=? 57))%N then Some (n - 48)%N
  else if ((97 <=? n) && (n <=? 102))%N then Some (n - 87)%N
  else if ((65 <=? n) && (n <=? 70))%N then Some (n - 55)%N
  else None.

Definition hex4 (a b c d : ascii) : option N :=
  match hex_value a, hex_value b, hex_value c, hex_value d with
  | Some x, Some y, Some z, Some w => Some (((x * 16 + y) * 16 + z) * 16 + w)%N
  | _, _, _, _ => None
  end.

Definition simple_escape (c : ascii) : option ascii :=
  let n := code c in
  if (n =? 34)%N then Some quote
  else if (n =? 92)%N then Some backslash
  else if (n =? 47)%N then Some "/"%char
  else if (n =? 98)%N then Some (chr 8)
  else if (n =? 102)%N then Some (chr 12)
  else if (n =? 110)%N then Some (chr 10)
  else if (n =? 114)%N then Some (chr 13)
  else if (n =? 116)%N then Some (chr 9)
  else None.

Definition high_surrogate (n : N) : bool := ((55296 <=? n) && (n <=? 56319))%N.
Definition low_surrogate (n : N) : bool := ((56320 <=? n) && (n <=? 57343))%N.
Definition join_surrogates (hi lo : N) : N :=
  (65536 + N.lor (N.shiftl (N.land hi 1023) 10) (N.land lo 1023))%N.

Definition emit (n : N) (r : option (string * string)) : option (string * string) :=
  match r with
  | Some (body, rest) => Some ((Utf8.encode_char n ++ body)%string, rest)
  | None => None
  end.

(** [scanstring] in strict mode, from the character after the opening
    quote: the decoded body and the text after the closing quote. *)
Fixpoint scanstring (s : string) : option (string * string) :=
  match s with
  | EmptyString => None
  | String c r =>
      if (code c =? 34)%N then Some (EmptyString, r)
      else if (code c =? 92)%N then
        match r with
        | EmptyString => None
        | String e r1 =>
            if (code e =? 117)%N then
              match r1 with
              | String h1 (String h2 (String h3 (String h4 r2))) =>
                  match hex4 h1 h2 h3 h4 with
                  | None => None
                  | Some c1 =>
                      if high_surrogate c1 then
                        match r2 with
                        | String b (String u (String g1 (String g2 (String g3 (String g4 r4))))) =>
                            if ((code b =? 92) && (code u =? 117))%N then
                              match hex4 g1 g2 g3 g4 with
                              | None => None
                              | Some c2 =>
                                  if low_surrogate c2
                                  then emit (join_surrogates c1 c2) (scanstring r4)
                                  else emit c1 (scanstring r2)
                              end
                            else emit c1 (scanstring r2)
                        | _ => emit c1 (scanstring r2)
                        end
                      else emit c1 (scanstring r2)
                  end
              | _ => None
              end
            else
              match simple_escape e with
              | Some x =>
                  match scanstring r1 with
                  | Some (body, rest) => Some (String x body, rest)
                  | None => None
                  end
              | None => None
              end
        end
      else if (code c <? 32)%N then None
      else
        match scanstring r with
        | Some (body, rest) => Some (String c body, rest)
        | None => None
        end
  end.

(** The longest prefix of digits, and what follows it. *)
Fixpoint span_digits (s : string) : string * string :=
  match s with
  | String c r =>
      if is_digit c then let '(ds, rest) := span_digits r in (String c ds, rest)
      else (EmptyString, s)
  | EmptyString => (EmptyString, EmptyString)
  end.

Fixpoint digits_value (acc : Z) (ds : string) : Z :=
  match ds with
  | String c r => digits_value (10 * acc + Z.of_N (code c - 48)) r
  | EmptyString => acc
  end.

(** [_match_number]: an optional minus sign, then a single zero or a
    non-zero digit followed by digits; then optionally a dot with at
    least one digit; then optionally [e] or [E], an optional sign and
    at least one digit.  The result is an [int] when there is neither
    fraction nor exponent, a [float] otherwise. *)
Definition number_sign (s : string) : bool * string :=
  match s with
  | String c r => if Ascii.eqb c "-"%char then (true, r) else (false, s)
  | EmptyString => (false, s)
  end.

Definition number_integer (s : string) : option (string * string) :=
  match s with
  | String c r =>
      if Ascii.eqb c "0"%char then Some (String c EmptyString, r)
      else if is_digit c then
        let '(ds, rest) := span_digits r in Some (String c ds, rest)
      else None
  | EmptyString => None
  end.

Definition number_fraction (s : string) : option string * string :=
  match s with
  | String dot (String d r) =>
      if Ascii.eqb dot "."%char && is_digit d
      then let '(ds, rest) := span_digits r in (Some (String d ds), rest)
      else (None, s)
  | _ => (None, s)
  end.

Definition number_exponent (s : string) : option Z * string :=
  match s with
  | String e r =>
      if Ascii.eqb e "e"%char || Ascii.eqb e "E"%char then
        let '(eneg, r') :=
          match r with
          | String sg r0 =>
              if Ascii.eqb sg "-"%char then (true, r0)
              else if Ascii.eqb sg "+"%char then (false, r0)
              else (false, r)
          | EmptyString => (false, r)
          end in
        match span_digits r' with
        | (EmptyString, _) => (None, s)
        | (ds, rest) =>
            (Some (if eneg then - digits_value 0 ds else digits_value 0 ds), rest)
        end
      else (None, s)
  | EmptyString => (None, s)
  end.

Definition match_number (s : string) : option (pyval * string) :=
  let '(neg, s1) := number_sign s in
  match number_integer s1 with
  | None => None
  | Some (ipart, s2) =>
      let '(frac, s3) := number_fraction s2 in
      let '(exponent, s4) := number_exponent s3 in
      match frac, exponent with
      | None, None =>
          let n := digits_value 0 ipart in
          Some (PInt (if neg then - n else n), s4)
      | _, _ =>
          let fdigits := match frac with Some f => f | None => EmptyString end in
          let e := match exponent with Some e => e | None => 0 end in
          Some (PFloat (Float64.of_decimal neg
                          (digits_value 0 (ipart ++ fdigits))
                          (e - Z.of_nat (String.length fdigits))), s4)
      end
  end.

(** [s.startswith(lit)]: the text after [lit]. *)
Fixpoint strip_prefix (lit s : string) : option string :=
  match lit with
  | EmptyString => Some s
  | String a lit' =>
      match s with
      | String b s' => if Ascii.eqb a b then strip_prefix lit' s' else None
      | EmptyString => None
      end
  end.

(** [scan_once]: one JSON value at the head of [s] and the text after
    it; [None] is [JSONDecodeError].  [fuel] bounds the nesting of
    recursive calls, the length of the text always suffices. *)
Fixpoint scan_once (fuel : nat) (s : string) {struct fuel} : option (pyval * string) :=
  match fuel with
  | O => None
  | S fuel' =>
      match s with
      | EmptyString => None
      | String c r =>
          if (code c =? 34)%N then
            match scanstring r with
            | Some (body, rest) => Some (PStr body, rest)
            | None => None
            end
          else if Ascii.eqb c "{"%char then
            match skip_ws r with
            | String c' r' =>
                if Ascii.eqb c' "}"%char then Some (PDict [], r')
                else parse_object fuel' (String c' r') []
            | EmptyString => None
            end
          else if Ascii.eqb c "["%char then
            match skip_ws r with
            | String c' r' =>
                if Ascii.eqb c' "]"%char then Some (PList [], r')
                else parse_array fuel' (String c' r') []
            | EmptyString => None
            end
          else
            match strip_prefix "null"%string s, strip_prefix "true"%string s,
                  strip_prefix "false"%string s, strip_prefix "NaN"%string s,
                  strip_prefix "Infinity"%string s, strip_prefix "-Infinity"%string s
            with
            | Some rest, _, _, _, _, _ => Some (PNone, rest)
            | _, Some rest, _, _, _, _ => Some (PBool true, rest)
            | _, _, Some rest, _, _, _ => Some (PBool false, rest)
            | _, _, _, Some rest, _, _ => Some (PFloat S754_nan, rest)
            | _, _, _, _, Some rest, _ => Some (PFloat (S754_infinity false), rest)
            | _, _, _, _, _, Some rest => Some (PFloat (S754_infinity true), rest)
            | _, _, _, _, _, _ => match_number s
            end
      end
  end

(** The loop of [_parse_array], at the start of an element. *)
with parse_array (fuel : nat) (s : string) (acc : list pyval) {struct fuel}
  : option (pyval * string) :=
  match fuel with
  | O => None
  | S fuel' =>
      match scan_once fuel' s with
      | None => None
      | Some (v, rest) =>
          match skip_ws rest with
          | String c r =>
              if Ascii.eqb c "]"%char then Some (PList (acc ++ [v]), r)
              else if Ascii.eqb c ","%char then parse_array fuel' (skip_ws r) (acc ++ [v])
              else None
          | EmptyString => None
          end
      end
  end

(** The loop of [_parse_object], at the start of a key. *)
with parse_object (fuel : nat) (s : string) (acc : list (string * pyval)) {struct fuel}
  : option (pyval * string) :=
  match fuel with
  | O => None
  | S fuel' =>
      match s with
      | String q r =>
          if (code q =? 34)%N then
            match scanstring r with
            | None => None
            | Some (key, rest) =>
                match skip_ws rest with
                | String colon r1 =>
                    if Ascii.eqb colon ":"%char then
                      match scan_once fuel' (skip_ws r1) with
                      | None => None
                      | Some (v, rest1) =>
                          match skip_ws rest1 with
                          | String c r2 =>
                              if Ascii.eqb c "}"%char
                              then Some (PDict (Py.setitem acc key v), r2)
                              else if Ascii.eqb c ","%char
                              then parse_object fuel' (skip_ws r2) (Py.setitem acc key v)
                              else None
                          | EmptyString => None
                          end
                      end
                    else None
                | EmptyString => None
                end
            end
          else None
      | EmptyString => None
      end
  end.

(** [json.loads(s)]: optional whitespace, one value, optional
    whitespace, end of text.  A leading byte-order mark is refused.
    This is the grammar alone: the limits of the interpreter on the
    nesting depth and on the digits of an integer are stated apart, in
    [JsonLimits]. *)
Definition loads (s : string) : option pyval :=
  match strip_prefix (String (chr 239) (String (chr 187) (String (chr 191) EmptyString))) s with
  | Some _ => None
  | None =>
      match scan_once (S (String.length s)) (skip_ws s) with
      | Some (v, rest) =>
          match skip_ws rest with
          | EmptyString => Some v
          | _ => None
          end
      | None => None
      end
  end.

End Json.

(* ===================================================================== *)
(** * Outcomes of Python code *)
(* ===================================================================== *)

(** A call returns ([Done]), raises an exception ([Raised]), or is still
    inside a [while] loop when the iteration budget is used up ([Hang]). *)
Inductive outcome (A : Type) : Type :=
| Done (a : A)
| Raised
| Hang.

Arguments Done {A} a.
Arguments Raised {A}.
Arguments Hang {A}.

Definition bind {A B : Type} (c : outcome A) (k : A -> outcome B) : outcome B :=
  match c with
  | Done a => k a
  | Raised => Raised
  | Hang => Hang
  end.

Notation "x <- c ;; k" := (bind c (fun x => k))
  (at level 61, c at next level, right associativity).

(** [try: c except Exception: return v] *)
Definition try_except {A : Type} (c : outcome A) (v : A) : outcome A :=
  match c with
  | Raised => Done v
  | _ => c
  end.

Fixpoint mapM {A B : Type} (f : A -> outcome B) (l : list A) : outcome (list B) :=
  match l with
  | [] => Done []
  | a :: r => b <- f a ;; bs <- mapM f r ;; Done (b :: bs)
  end.

(** Comparison of two Python numbers, [None] when the operands are not
    numbers ([TypeError]); an [int] and a [float] are compared exactly. *)
Module PyNum.

Definition float_of_bool (b : bool) : Z := if b then 1 else 0.

(** The exact order between the integer [n] and the float [f]. *)
Definition compare_int_float (n : Z) (f : Float64.float) : option comparison :=
  match f with
  | S754_nan => None
  | S754_infinity s => Some (if s then Gt else Lt)
  | S754_zero _ => Some (n ?= 0)
  | S754_finite s m e =>
      let v := if s then Z.neg m else Z.pos m in
      Some (if 0 <=? e then n ?= v * 2 ^ e else n * 2 ^ (- e) ?= v)
  end.

Definition compare (a b : pyval) : option (option comparison) :=
  let as_num v :=
    match v with
    | PInt n => Some (inl n)
    | PBool b => Some (inl (float_of_bool b))
    | PFloat f => Some (inr f)
    | _ => None
    end in
  match as_num a, as_num b with
  | Some (inl x), Some (inl y) => Some (Some (x ?= y))
  | Some (inr x), Some (inr y) => Some (SFcompare x y)
  | Some (inl x), Some (inr y) => Some (compare_int_float x y)
  | Some (inr x), Some (inl y) => Some (option_map CompOpp (compare_int_float y x))
  | _, _ => None
  end.

(** [a >= b] *)
Definition ge (a b : pyval) : outcome bool :=
  match compare a b with
  | Some (Some (Gt | Eq)) => Done true
  | Some _ => Done false
  | None => Raised
  end.

End PyNum.

(* ===================================================================== *)
(** * Minutiae *)
(* ===================================================================== *)

Module Minutia.

Inductive kind : Type := ridge_ending | bifurcation.

Definition kind_name (k : kind) : string :=
  match k with
  | ridge_ending => "ridge_ending"
  | bifurcation => "bifurcation"
  end.

Record t : Type := {
  x : Z;
  y : Z;
  orientation : Float64.float;
  type : kind
}.

(** The dictionary that [_extract_minutiae] appends for one point. *)
Definition to_py (m : t) : pyval :=
  PDict [ ("x"%string, PInt (x m));
          ("y"%string, PInt (y m));
          ("orientation"%string, PFloat (orientation m));
          ("type"%string, PStr (kind_name (type m))) ].

Definition kind_of_name (s : string) : option kind :=
  if String.eqb s "ridge_ending" then Some ridge_ending
  else if String.eqb s "bifurcation" then Some bifurcation
  else None.

(** The point that a decoded dictionary stands for. *)
Definition of_py (v : pyval) : option t :=
  match v with
  | PDict d =>
      match Py.lookup "x" d, Py.lookup "y" d, Py.lookup "orientation" d, Py.lookup "type" d with
      | Some (PInt px), Some (PInt py), Some (PFloat o), Some (PStr name) =>
          match kind_of_name name with
          | Some k => Some {| x := px; y := py; orientation := o; type := k |}
          | None => None
          end
      | _, _, _, _ => None
      end
  | _ => None
  end.

End Minutia.

(* ===================================================================== *)
(** * Templates *)
(* ===================================================================== *)

Module Template.

Record t : Type := {
  version : string;
  quality : Float64.float;
  image_shape : Z * Z;
  minutiae : list Minutia.t;
  minutiae_count : Z
}.

Fixpoint points_of_py (l : list pyval) : option (list Minutia.t) :=
  match l with
  | [] => Some []
  | v :: r =>
      match Minutia.of_py v, points_of_py r with
      | Some m, Some ms => Some (m :: ms)
      | _, _ => None
      end
  end.

(** The five fields of a decoded template, read by key; other keys are
    ignored. *)
Definition of_py (v : pyval) : option t :=
  match v with
  | PDict d =>
      match Py.lookup "version" d, Py.lookup "quality" d, Py.lookup "image_shape" d,
            Py.lookup "minutiae" d, Py.lookup "minutiae_count" d with
      | Some (PStr ver), Some (PFloat q), Some (PList [PInt h; PInt w]),
        Some (PList ms), Some (PInt n) =>
          match points_of_py ms with
          | Some points =>
              Some {| version := ver; quality := q; image_shape := (h, w);
                      minutiae := points; minutiae_count := n |}
          | None => None
          end
      | _, _, _, _, _ => None
      end
  | _ => None
  end.

(** The floats that the text of a template carries. *)
Definition floats (T : t) : list Float64.float :=
  quality T :: map Minutia.orientation (minutiae T).

End Template.

(* ===================================================================== *)
(** * services/fingerprint_processor.py *)
(* ===================================================================== *)

Module FingerprintProcessor.

Import Float64.

Record t : Type := {
  min_quality_threshold : float;
  template_version : string
}.

Definition __init__ : t :=
  {| min_quality_threshold := f0_6; template_version := "1.0" |}.

(** What [_calculate_quality] reads from the image through numpy and
    OpenCV: [np.std(image)], the variance of the Laplacian, the number
    of Canny edge pixels and the number of pixels. *)
Record image_stats : Type := {
  std : float;
  laplacian_var : float;
  edge_pixels : Z;
  size : Z
}.

Definition f255 : float := Eval vm_compute in of_Z 255.
Definition f1000 : float := Eval vm_compute in of_Z 1000.

(** [_calculate_quality]: the four factors, their weighted sum (the
    built-in [sum] starts from [0]) and the clamp. *)
Definition _calculate_quality (image : image_stats) (minutiae : list pyval) : float :=
  let minutiae_score := pymin (div (of_Z (Z.of_nat (List.length minutiae))) f30) one in
  let contrast := div (std image) f255 in
  let sharpness_score := pymin (div (laplacian_var image) f1000) one in
  let edge_density := div (of_Z (edge_pixels image)) (of_Z (size image)) in
  let quality :=
    add (add (add (add zero (mul minutiae_score f0_3)) (mul contrast f0_25))
           (mul sharpness_score f0_25)) (mul edge_density f0_2) in
  pymin (pymax quality zero) one.

Section Encode.

Variable float_repr : float -> string.

(** The dictionary that [_generate_template] serialises. *)
Definition template_data (self : t) (minutiae : list pyval) (quality : float)
    (image_shape : list Z) : pyval :=
  PDict [ ("version"%string, PStr (template_version self));
          ("quality"%string, PFloat quality);
          ("image_shape"%string, PTuple (map PInt image_shape));
          ("minutiae"%string, PList minutiae);
          ("minutiae_count"%string, PInt (Z.of_nat (List.length minutiae)));
          ("created_at"%string, PNone) ].

(** [_generate_template]: compact JSON, then base64.  The JSON text
    is ASCII, so [str.encode] and [bytes.decode] leave it as it is. *)
Definition _generate_template (self : t) (minutiae : list pyval) (quality : float)
    (image_shape : list Z) : string :=
  let template_json := Json.dumps float_repr (template_data self minutiae quality image_shape) in
  Base64.b64encode template_json.

End Encode.

(** [_decode_template]: [None] is the value returned by the
    [except Exception] branch. *)
Definition _decode_template (template : pyval) : option pyval :=
  match template with
  | PStr s =>
      match Base64.b64decode s with
      | Some bytes =>
          match Utf8.decode bytes with
          | Some template_json => Json.loads template_json
          | None => None
          end
      | None => None
      end
  | _ => None
  end.

Definition invalid_result (msg : string) : pyval :=
  PDict [ ("is_valid"%string, PBool false); ("error"%string, PStr msg) ].

(** [verify_quality]; the text of the error caught by the outer
    handler is not modelled. *)
Definition verify_quality (self : t) (template : pyval) : pyval :=
  match _decode_template template with
  | None => invalid_result "Invalid template format"
  | Some template_data =>
      if negb (Py.truthy template_data) then invalid_result "Invalid template format"
      else
        let body :=
          match template_data with
          | PDict d =>
              let quality := Py.get d "quality" (PFloat zero) in
              let minutiae_count := Py.get d "minutiae_count" (PInt 0) in
              c1 <- PyNum.ge quality (PFloat (min_quality_threshold self)) ;;
              is_valid <- (if c1 then PyNum.ge minutiae_count (PInt 10) else Done false) ;;
              Done (PDict [ ("is_valid"%string, PBool is_valid);
                            ("quality"%string, quality);
                            ("minutiae_count"%string, minutiae_count) ])
          | _ => Raised
          end in
        match body with
        | Done r => r
        | _ => invalid_result "Failed to verify template"
        end
  end.

End FingerprintProcessor.

(* ===================================================================== *)
(** * services/matcher.py *)
(* ===================================================================== *)

Module FingerprintMatcher.

Import Float64.

Record t : Type := {
  match_threshold : float;
  max_distance_threshold : Z;
  orientation_tolerance : float
}.

Definition __init__ : t :=
  {| match_threshold := f0_7;
     max_distance_threshold := 50;
     orientation_tolerance := f0_5 |}.

(** ** numpy *)

(** One row of a two-column [int64] array. *)
Definition point : Type := (Z * Z)%type.

Definition in_int64 (n : Z) : bool := (- 2 ^ 63 <=? n) && (n <? 2 ^ 63).

(** [int64] subtraction wraps around. *)
Definition wrap_int64 (n : Z) : Z := (n + 2 ^ 63) mod 2 ^ 64 - 2 ^ 63.

Definition point_sub (p q : point) : point :=
  (wrap_int64 (fst p - fst q), wrap_int64 (snd p - snd q)).

(** [np.linalg.norm] of a row: the row is cast to float64, then
    [sqrt(dot(x, x))]. *)
Definition norm (p : point) : float :=
  let x := of_Z (fst p) in
  let y := of_Z (snd p) in
  sqrt (add (mul x x) (mul y y)).

(** ** [_normalize_angle] *)

(** [while angle > np.pi: angle -= 2 * np.pi] *)
Fixpoint while_above_pi (fuel : nat) (angle : float) : outcome float :=
  if gtb angle pi then
    match fuel with
    | O => Hang
    | S fuel' => while_above_pi fuel' (sub angle two_pi)
    end
  else Done angle.

(** [while angle < -np.pi: angle += 2 * np.pi] *)
Fixpoint while_below_minus_pi (fuel : nat) (angle : float) : outcome float :=
  if ltb angle (SFopp pi) then
    match fuel with
    | O => Hang
    | S fuel' => while_below_minus_pi fuel' (add angle two_pi)
    end
  else Done angle.

Definition _normalize_angle (fuel : nat) (angle : float) : outcome float :=
  angle <- while_above_pi fuel angle ;;
  while_below_minus_pi fuel angle.

(** ** [_find_minutiae_correspondences] *)

(** A tuple [(index1, index2, distance, orientation_difference)]. *)
Definition correspondence : Type := (nat * nat * float * float)%type.

Definition index1 (m : correspondence) : nat := fst (fst (fst m)).
Definition index2 (m : correspondence) : nat := snd (fst (fst m)).
Definition distance_of (m : correspondence) : float := snd (fst m).
Definition orientation_diff_of (m : correspondence) : float := snd m.

(** [j in used_indices2] *)
Definition mem (j : nat) (used_indices2 : list nat) : bool :=
  existsb (Nat.eqb j) used_indices2.

Section Search.

Variable self : t.
Variable fuel : nat.

(** The inner [for j, (point2, orientation2) in enumerate(...)]
    loop, from index [j] on, with the running [best_match] and
    [best_score]. *)
Fixpoint scan_candidates (i : nat) (point1 : point) (orientation1 : float)
    (used_indices2 : list nat) (j : nat) (rows2 : list (point * float))
    (best_match : option correspondence) (best_score : float)
  : outcome (option correspondence) :=
  match rows2 with
  | [] => Done best_match
  | (point2, orientation2) :: rest =>
      let continue := scan_candidates i point1 orientation1 used_indices2 (S j) rest in
      if mem j used_indices2 then continue best_match best_score
      else
        let distance := norm (point_sub point1 point2) in
        if gtb distance (of_Z (max_distance_threshold self))
        then continue best_match best_score
        else
          angle <- _normalize_angle fuel (sub orientation1 orientation2) ;;
          let orientation_diff := abs angle in
          if gtb orientation_diff (orientation_tolerance self)
          then continue best_match best_score
          else
            let combined_score := add distance (mul orientation_diff f20) in
            if ltb combined_score best_score
            then continue (Some (i, j, distance, orientation_diff)) combined_score
            else continue best_match best_score
  end.

(** The outer [for i, (point1, orientation1) in enumerate(...)]
    loop, from index [i] on. *)
Fixpoint scan_points (i : nat) (rows1 rows2 : list (point * float))
    (matches : list correspondence) (used_indices2 : list nat)
  : outcome (list correspondence) :=
  match rows1 with
  | [] => Done matches
  | (point1, orientation1) :: rest =>
      best_match <- scan_candidates i point1 orientation1 used_indices2 0 rows2
                      None infinity ;;
      match best_match with
      | Some m => scan_points (S i) rest rows2 (matches ++ [m]) (index2 m :: used_indices2)
      | None => scan_points (S i) rest rows2 matches used_indices2
      end
  end.

Definition _find_minutiae_correspondences (points1 points2 : list point)
    (orientations1 orientations2 : list float) : outcome (list correspondence) :=
  scan_points 0 (combine points1 orientations1) (combine points2 orientations2) [] [].

(** ** [_calculate_match_confidence] *)

(** [m['x']], [m['y']]: a [KeyError] or [TypeError] unless [m] is a
    dict with both keys.  The coordinates are the [int]s that
    [_extract_minutiae] writes; the array is [int64]. *)
Definition point_of (m : pyval) : outcome point :=
  match m with
  | PDict d =>
      match Py.lookup "x" d, Py.lookup "y" d with
      | Some (PInt x), Some (PInt y) =>
          if in_int64 x && in_int64 y then Done (x, y) else Raised
      | _, _ => Raised
      end
  | _ => Raised
  end.

(** [m.get('orientation', 0)] as an entry of a float array. *)
Definition orientation_of (m : pyval) : outcome float :=
  match m with
  | PDict d =>
      match Py.get d "orientation" (PInt 0) with
      | PFloat f => Done f
      | PInt n => Done (of_Z n)
      | _ => Raised
      end
  | _ => Raised
  end.

(** [for m in minutiae]: only a list of minutiae is iterated here. *)
Definition elements (minutiae : pyval) : outcome (list pyval) :=
  match minutiae with
  | PList l => Done l
  | _ => Raised
  end.

(** [max(0, 1 - value / limit)] *)
Definition score (value limit : float) : float :=
  pymax zero (sub one (div value limit)).

(** The [for match in matches] loop. *)
Fixpoint total_scores (matches : list correspondence)
    (total_distance_score total_orientation_score : float) : float * float :=
  match matches with
  | [] => (total_distance_score, total_orientation_score)
  | m :: rest =>
      let distance_score :=
        score (distance_of m) (of_Z (max_distance_threshold self)) in
      let orientation_score :=
        score (abs (orientation_diff_of m)) (orientation_tolerance self) in
      total_scores rest (add total_distance_score distance_score)
        (add total_orientation_score orientation_score)
  end.

(** The arithmetic after the correspondence search. *)
Definition confidence_of (matches : list correspondence) (len1 len2 : nat) : float :=
  match matches with
  | [] => zero
  | _ =>
      let match_count := Z.of_nat (List.length matches) in
      let total_minutiae := Z.max (Z.of_nat len1) (Z.of_nat len2) in
      let match_ratio := int_truediv match_count total_minutiae in
      let '(total_distance_score, total_orientation_score) :=
        total_scores matches zero zero in
      let avg_distance_score := div total_distance_score (of_Z match_count) in
      let avg_orientation_score := div total_orientation_score (of_Z match_count) in
      let confidence :=
        add (add (mul f0_4 match_ratio) (mul f0_3 avg_distance_score))
            (mul f0_3 avg_orientation_score) in
      let confidence :=
        if 15 <=? match_count then add confidence f0_1
        else if 10 <=? match_count then add confidence f0_05
        else confidence in
      pymin confidence one
  end.

Definition _calculate_match_confidence (minutiae1 minutiae2 : pyval) : outcome float :=
  if negb (Py.truthy minutiae1) || negb (Py.truthy minutiae2) then Done zero
  else
    try_except
      (l1 <- elements minutiae1 ;;
       l2 <- elements minutiae2 ;;
       points1 <- mapM point_of l1 ;;
       points2 <- mapM point_of l2 ;;
       orientations1 <- mapM orientation_of l1 ;;
       orientations2 <- mapM orientation_of l2 ;;
       matches <- _find_minutiae_correspondences points1 points2
                    orientations1 orientations2 ;;
       Done (confidence_of matches (List.length l1) (List.length l2)))
      zero.

(** ** [_decode_template] *)

Definition _decode_template (template : pyval) : option pyval :=
  match template with
  | PStr s =>
      match Base64.b64decode s with
      | Some bytes =>
          match Utf8.decode bytes with
          | Some template_json => Json.loads template_json
          | None => None
          end
      | None => None
      end
  | _ => None
  end.

(** ** [match_fingerprint] *)

Definition match_result (student_id : pyval) (confidence : float) : pyval :=
  PDict [ ("studentId"%string, student_id); ("confidence"%string, PFloat confidence) ].

(** One pass through the body of [for template_info in templates],
    on the pair [(best_match, best_confidence)]. *)
Definition candidate_step (input_minutiae : pyval) (best : pyval * float)
    (template_info : pyval) : outcome (pyval * float) :=
  match template_info with
  | PDict info =>
      let student_id := Py.get info "studentId" PNone in
      let stored_template := Py.get info "template" PNone in
      if negb (Py.truthy student_id) || negb (Py.truthy stored_template)
      then Done best
      else
        match _decode_template stored_template with
        | None => Done best
        | Some stored_data =>
            if negb (Py.truthy stored_data) then Done best
            else
              match stored_data with
              | PDict d =>
                  let stored_minutiae := Py.get d "minutiae" (PList []) in
                  if negb (Py.truthy stored_minutiae) then Done best
                  else
                    confidence <- _calculate_match_confidence input_minutiae
                                    stored_minutiae ;;
                    if gtb confidence (snd best)
                       && geb confidence (match_threshold self)
                    then Done (match_result student_id confidence, confidence)
                    else Done best
              | _ => Raised
              end
        end
  | _ => Raised
  end.

Fixpoint candidate_loop (input_minutiae : pyval) (templates : list pyval)
    (best : pyval * float) : outcome (pyval * float) :=
  match templates with
  | [] => Done best
  | template_info :: rest =>
      best' <- candidate_step input_minutiae best template_info ;;
      candidate_loop input_minutiae rest best'
  end.

Definition match_fingerprint (input_template : pyval) (templates : list pyval)
  : outcome pyval :=
  try_except
    (match _decode_template input_template with
     | None => Done PNone
     | Some input_data =>
         if negb (Py.truthy input_data) then Done PNone
         else
           match input_data with
           | PDict d =>
               let input_minutiae := Py.get d "minutiae" (PList []) in
               if negb (Py.truthy input_minutiae) then Done PNone
               else
                 best <- candidate_loop input_minutiae templates (PNone, zero) ;;
                 Done (fst best)
           | _ => Raised
           end
     end)
    PNone.

(** ** [verify_match] *)

Definition verify_failure (msg : string) : pyval :=
  PDict [ ("success"%string, PBool false); ("match"%string, PBool false);
          ("confidence"%string, PFloat zero); ("error"%string, PStr msg) ].

Definition verify_match (template1 template2 : pyval) : outcome pyval :=
  let data1 := _decode_template template1 in
  let data2 := _decode_template template2 in
  match data1, data2 with
  | Some data1, Some data2 =>
      if negb (Py.truthy data1) || negb (Py.truthy data2)
      then Done (verify_failure "Failed to decode templates")
      else
        try_except
          (match data1, data2 with
           | PDict d1, PDict d2 =>
               let minutiae1 := Py.get d1 "minutiae" (PList []) in
               let minutiae2 := Py.get d2 "minutiae" (PList []) in
               if negb (Py.truthy minutiae1) || negb (Py.truthy minutiae2)
               then Done (verify_failure "No minutiae found in templates")
               else
                 confidence <- _calculate_match_confidence minutiae1 minutiae2 ;;
                 let is_match := geb confidence (match_threshold self) in
                 Done (PDict [ ("success"%string, PBool true);
                               ("match"%string, PBool is_match);
                               ("confidence"%string, PFloat confidence);
                               ("threshold"%string, PFloat (match_threshold self)) ])
           | _, _ => Raised
           end)
          (verify_failure "Verification failed")
  | _, _ => Done (verify_failure "Failed to decode templates")
  end.

End Search.

End FingerprintMatcher.

(* ===================================================================== *)
(** * Vocabulary of the statements *)
(* ===================================================================== *)

Module FloatOrder.

Import Float64.

(** A key whose lexicographic order is the order of [SFcompare];
    a NaN has no key. *)
Definition key (x : float) : option (Z * Z * Z) :=
  match x with
  | S754_nan => None
  | S754_infinity true => Some (-2, 0, 0)
  | S754_infinity false => Some (2, 0, 0)
  | S754_zero _ => Some (0, 0, 0)
  | S754_finite true m e => Some (-1, - e, Z.neg m)
  | S754_finite false m e => Some (1, e, Z.pos m)
  end.

Definition lex (a b : Z * Z * Z) : comparison :=
  let '(a1, a2, a3) := a in
  let '(b1, b2, b3) := b in
  match a1 ?= b1 with
  | Eq => match a2 ?= b2 with Eq => a3 ?= b3 | c => c end
  | c => c
  end.

End FloatOrder.

(** Shapes of binary64 values: sign, number of bits, magnitude. *)
Module FloatShape.

Import Float64.

(** [x] is not a NaN and carries the sign [s]. *)
Definition signed (s : bool) (x : float) : bool :=
  match x with
  | S754_zero s' | S754_infinity s' | S754_finite s' _ _ => Bool.eqb s' s
  | S754_nan => false
  end.

(** Zero of either sign, a positive finite value or [+inf]. *)
Definition nonneg (x : float) : bool :=
  match x with
  | S754_zero _ | S754_infinity false | S754_finite false _ _ => true
  | _ => false
  end.

Definition positive_finite (x : float) : bool :=
  match x with S754_finite false _ _ => true | _ => false end.

(** The number of binary digits of a mantissa. *)
Definition dig (p : positive) : Z := Z.pos (digits2_pos p).

(** [-pi <= x <= pi] *)
Definition in_half_turn (x : float) : bool := leb (SFopp pi) x && leb x pi.

(** An orientation as the data model has it: a binary64 value between
    [-pi] and [pi], the range of [arctan2]. *)
Definition angle_ok (x : float) : bool := valid_binary prec emax x && in_half_turn x.

(** A binary64 value of magnitude at most 8. *)
Definition within8 (d : float) : bool :=
  match d with
  | S754_zero _ => true
  | S754_finite _ m e =>
      canonical_mantissa prec emax m e
      && ((e <? -49) || ((e =? -49) && (Z.pos m =? 4503599627370496)))
  | _ => false
  end.

End FloatShape.

Module Search.

Import Float64 FingerprintMatcher.

Local Open Scope nat_scope.

Section WithMatcher.

Variable self : t.
Variable fuel : nat.

(** The test that one pair of rows undergoes: [None] when the
    distance or the orientation difference is above its threshold,
    otherwise the two measurements. *)
Definition pairing (r1 r2 : point * float) : outcome (option (float * float)) :=
  let distance := norm (point_sub (fst r1) (fst r2)) in
  if gtb distance (of_Z (max_distance_threshold self)) then Done None
  else
    angle <- _normalize_angle fuel (sub (snd r1) (snd r2)) ;;
    if gtb (abs angle) (orientation_tolerance self) then Done None
    else Done (Some (distance, abs angle)).

(** [distance + orientation_diff * 20] *)
Definition combined (d od : float) : float := add d (mul od f20).

Definition score_of (m : correspondence) : float :=
  combined (distance_of m) (orientation_diff_of m).

(** What the running best of the inner loop stands for, after the
    rows [seen] (those before index [j]). *)
Definition best_ok (i : nat) (r1 : point * float) (used : list nat)
    (seen : list (point * float)) (bm : option correspondence) (bs : float) : Prop :=
  match bm with
  | None => bs = infinity
  | Some m =>
      index1 m = i /\ bs = score_of m /\
      exists r2, nth_error seen (index2 m) = Some r2 /\ mem (index2 m) used = false /\
                 pairing r1 r2 = Done (Some (distance_of m, orientation_diff_of m))
  end.

Definition none_below (r1 : point * float) (used : list nat)
    (seen : list (point * float)) (bs : float) : Prop :=
  forall j r2, nth_error seen j = Some r2 -> mem j used = false ->
    exists r, pairing r1 r2 = Done r /\
              forall d od, r = Some (d, od) -> ltb (combined d od) bs = false.


(** [m] pairs row [i] with an unclaimed row that passes both
    thresholds, and no unclaimed row that passes them has a
    strictly lower combined score. *)
Definition selected (rows2 : list (point * float)) (claimed : list nat)
    (i : nat) (r1 : point * float) (m : correspondence) : Prop :=
  index1 m = i /\
  (exists r2, nth_error rows2 (index2 m) = Some r2 /\ ~ In (index2 m) claimed /\
              pairing r1 r2 = Done (Some (distance_of m, orientation_diff_of m))) /\
  (forall j r2, nth_error rows2 j = Some r2 -> ~ In j claimed ->
     exists r, pairing r1 r2 = Done r /\
               forall d od, r = Some (d, od) -> ltb (combined d od) (score_of m) = false).

(** No unclaimed row passes both thresholds with a score below
    the initial [float('inf')]. *)
Definition unmatched (rows2 : list (point * float)) (claimed : list nat)
    (r1 : point * float) : Prop :=
  forall j r2, nth_error rows2 j = Some r2 -> ~ In j claimed ->
    exists r, pairing r1 r2 = Done r /\
              forall d od, r = Some (d, od) -> ltb (combined d od) infinity = false.

End WithMatcher.

End Search.

Module Selection.

Import Float64 FingerprintMatcher.

Local Open Scope nat_scope.

Section WithMatcher.

Variable self : t.
Variable fuel : nat.

(** What one candidate brings to the best-match loop: nothing when one
    of the guards skips it, otherwise its identity and its confidence. *)
Definition evaluate (input_minutiae : pyval) (template_info : pyval)
  : outcome (option (pyval * float)) :=
  match template_info with
  | PDict info =>
      let student_id := Py.get info "studentId" PNone in
      let stored_template := Py.get info "template" PNone in
      if negb (Py.truthy student_id) || negb (Py.truthy stored_template)
      then Done None
      else
        match _decode_template stored_template with
        | None => Done None
        | Some stored_data =>
            if negb (Py.truthy stored_data) then Done None
            else
              match stored_data with
              | PDict d =>
                  let stored_minutiae := Py.get d "minutiae" (PList []) in
                  if negb (Py.truthy stored_minutiae) then Done None
                  else
                    confidence <- _calculate_match_confidence self fuel input_minutiae
                                    stored_minutiae ;;
                    Done (Some (student_id, confidence))
              | _ => Raised
              end
        end
  | _ => Raised
  end.

(** The update of [(best_match, best_confidence)] by one evaluated
    candidate. *)
Definition select (best : pyval * float) (r : option (pyval * float)) : pyval * float :=
  match r with
  | None => best
  | Some (student_id, confidence) =>
      if gtb confidence (snd best) && geb confidence (match_threshold self)
      then (match_result student_id confidence, confidence)
      else best
  end.

(** [confidence >= self.match_threshold] *)
Definition qualifies (confidence : float) : bool :=
  geb confidence (match_threshold self).

(** The state of the fold after the evaluations [seen]. *)
Definition best_of (seen : list (option (pyval * float))) (best : pyval * float) : Prop :=
  (best = (PNone, zero) /\
   forall k sid c, nth_error seen k = Some (Some (sid, c)) -> qualifies c = false)
  \/
  (exists k sid c,
     best = (match_result sid c, c) /\
     nth_error seen k = Some (Some (sid, c)) /\ qualifies c = true /\
     forall k' sid' c', nth_error seen k' = Some (Some (sid', c')) ->
       qualifies c' = true -> leb c' c = true /\ (k' < k -> ltb c' c = true)).

End WithMatcher.

End Selection.

(** The values whose JSON text reads back as the same value. *)
Module Plain.

Import Float64.

(** A character that [py_encode_basestring_ascii] keeps as it is. *)
Definition plain_char (c : ascii) : bool :=
  let n := N_of_ascii c in
  ((32 <=? n) && (n <=? 126) && negb (n =? 34) && negb (n =? 92))%N.

Fixpoint plain_string (s : string) : bool :=
  match s with
  | EmptyString => true
  | String c r => plain_char c && plain_string r
  end.

(** The same float, bit for bit. *)
Definition float_same (a b : float) : bool :=
  match a, b with
  | S754_nan, S754_nan => true
  | S754_zero s, S754_zero t => Bool.eqb s t
  | S754_infinity s, S754_infinity t => Bool.eqb s t
  | S754_finite s m e, S754_finite t n f => Bool.eqb s t && Pos.eqb m n && Z.eqb e f
  | _, _ => false
  end.

(** [float_repr f] is an ASCII JSON number that reads back as [f]:
    what CPython guarantees for [float.__repr__] on every finite
    float.  Infinities and NaN do not go through [float_repr]. *)
Definition repr_round_trips (float_repr : float -> string) (f : float) : bool :=
  match f with
  | S754_zero _ | S754_finite _ _ _ =>
      Base64.is_ascii (float_repr f) &&
      match Json.match_number (float_repr f) with
      | Some (PFloat g, EmptyString) => float_same f g
      | _ => false
      end
  | _ => true
  end.

Fixpoint distinct (keys : list string) : bool :=
  match keys with
  | [] => true
  | k :: r => negb (existsb (String.eqb k) r) && distinct r
  end.

(** Strings are plain, floats round-trip, dictionaries have distinct
    keys. *)
Fixpoint plain (float_repr : float -> string) (v : pyval) : bool :=
  match v with
  | PNone | PBool _ | PInt _ => true
  | PFloat f => repr_round_trips float_repr f
  | PStr s => plain_string s
  | PList l | PTuple l => forallb (plain float_repr) l
  | PDict d =>
      distinct (map fst d) &&
      forallb (fun kv => plain_string (fst kv) && plain float_repr (snd kv)) d
  end.

(** What [json.loads] gives back: a tuple comes back as a list. *)
Fixpoint jsonify (v : pyval) : pyval :=
  match v with
  | PList l | PTuple l => PList (map jsonify l)
  | PDict d => PDict (map (fun kv => (fst kv, jsonify (snd kv))) d)
  | _ => v
  end.

(** The text after a value in compact JSON: nothing, or a comma, or a
    closing bracket or brace. *)
Definition delimited (rest : string) : bool :=
  match rest with
  | EmptyString => true
  | String c _ => Ascii.eqb c ","%char || Ascii.eqb c "]"%char || Ascii.eqb c "}"%char
  end.

(** The text after a number: nothing, or a character that cannot
    continue a number. *)
Definition number_end (rest : string) : bool :=
  match rest with
  | EmptyString => true
  | String c _ =>
      negb (Json.is_digit c || Ascii.eqb c "."%char || Ascii.eqb c "e"%char
            || Ascii.eqb c "E"%char || Ascii.eqb c "+"%char || Ascii.eqb c "-"%char)
  end.

(** The value of a decimal numeral, most significant digit first. *)
Fixpoint uint_value (acc : Z) (u : Decimal.uint) : Z :=
  match u with
  | Decimal.Nil => acc
  | Decimal.D0 u => uint_value (10 * acc + 0) u
  | Decimal.D1 u => uint_value (10 * acc + 1) u
  | Decimal.D2 u => uint_value (10 * acc + 2) u
  | Decimal.D3 u => uint_value (10 * acc + 3) u
  | Decimal.D4 u => uint_value (10 * acc + 4) u
  | Decimal.D5 u => uint_value (10 * acc + 5) u
  | Decimal.D6 u => uint_value (10 * acc + 6) u
  | Decimal.D7 u => uint_value (10 * acc + 7) u
  | Decimal.D8 u => uint_value (10 * acc + 8) u
  | Decimal.D9 u => uint_value (10 * acc + 9) u
  end.

(** A bound on the nesting of decoder calls for a value. *)
Fixpoint cost (v : pyval) : nat :=
  match v with
  | PList l | PTuple l => S (fold_right (fun x n => S (cost x + n)) O l)
  | PDict d => S (fold_right (fun kv n => S (cost (snd kv) + n)) O d)
  | _ => 1
  end.

(** A text that [match_number] accepts starts with a digit, or with a
    minus sign and a digit. *)
Definition number_head (s : string) : Prop :=
  match s with
  | String c r =>
      Json.is_digit c = true \/
      (c = "-"%char /\ match r with String d _ => Json.is_digit d = true | _ => False end)
  | EmptyString => False
  end.

(** A numeral without leading zero. *)
Definition leading_nonzero (u : Decimal.uint) : Prop :=
  match u with
  | Decimal.Nil | Decimal.D0 _ => False
  | _ => True
  end.

(** The head of the text of a value: not whitespace and not a closing
    bracket or brace. *)
Definition good_head (s : string) : Prop :=
  match s with
  | String c _ =>
      Json.is_ws c = false /\ Ascii.eqb c "]"%char = false /\ Ascii.eqb c "}"%char = false
  | EmptyString => False
  end.

Definition items_cost {A : Type} (f : A -> pyval) (l : list A) : nat :=
  fold_right (fun x n => S (cost (f x) + n)) O l.

Section Writer.

Variable float_repr : float -> string.

(** The text that [dumps] writes after the first element of a
    non-empty list, and after the first item of a non-empty dict. *)
Fixpoint dump_tail (r : list pyval) : string :=
  match r with
  | [] => "]"
  | y :: r' => String ","%char (Json.dumps float_repr y ++ dump_tail r')
  end.

Fixpoint dump_items_tail (r : list (string * pyval)) : string :=
  match r with
  | [] => "}"
  | (k, y) :: r' =>
      String ","%char (Json.encode_basestring_ascii k ++
        String ":"%char (Json.dumps float_repr y ++ dump_items_tail r'))
  end.

(** The text of [v] is ASCII, starts a value, is long enough to pay for
    the decoder's nesting, and is read back as [jsonify v] before any
    delimiter. *)
Definition reads_back (v : pyval) : Prop :=
  plain float_repr v = true ->
  good_head (Json.dumps float_repr v) /\
  Base64.is_ascii (Json.dumps float_repr v) = true /\
  (cost v <= String.length (Json.dumps float_repr v))%nat /\
  forall fuel rest,
    (cost v <= fuel)%nat -> delimited rest = true ->
    Json.scan_once fuel (Json.dumps float_repr v ++ rest) = Some (jsonify v, rest).

End Writer.

End Plain.

(** Exhaustive checks of the base64 tables and bit arithmetic. *)
Module Base64Checks.

Import Base64.

Local Open Scope N_scope.

(** The tables are inverse on a sextet, whose character is ASCII and is
    not the pad. *)
Definition sextet_ok (v : N) : bool :=
  match table_a2b (table_b2a v) with
  | Some w => (w =? v) && negb (Ascii.eqb (table_b2a v) "="%char)
              && (code (table_b2a v) <? 128)
  | None => false
  end.


(** The arithmetic of one quad, checked on every byte [a] and on every
    value [h] of the bits borrowed from the next byte. *)
Definition first_two_ok (a : N) : bool :=
  forallb (fun h =>
             let v1 := N.shiftr a 2 in
             let v2 := N.lor (N.shiftl (N.land a 3) 4) h in
             (v1 <? 64) && (v2 <? 64)
             && (N.land (N.lor (N.shiftl v1 2) (N.shiftr v2 4)) 255 =? a)
             && (N.land v2 15 =? h))
          (map N.of_nat (seq 0 16)).

Definition third_ok (b : N) : bool :=
  forallb (fun h =>
             let v3 := N.lor (N.shiftl (N.land b 15) 2) h in
             (v3 <? 64)
             && (N.land (N.lor (N.shiftl (N.shiftr b 4) 4) (N.shiftr v3 2)) 255 =? b)
             && (N.land v3 3 =? h))
          (map N.of_nat (seq 0 4)).

Definition fourth_ok (c : N) : bool :=
  let v4 := N.land c 63 in
  (v4 <? 64) && (N.land (N.lor (N.shiftl (N.shiftr c 6) 6) v4) 255 =? c)
  && (N.shiftr c 4 <? 16) && (N.shiftr c 6 <? 4).

End Base64Checks.

(** The minutiae of the data model. *)
Module Wellformed.

Import Float64 FingerprintMatcher FloatShape.

(** A minutia of the data model: coordinates that fit the [int64]
    array, an orientation between [-pi] and [pi]. *)
Definition minutia (m : Minutia.t) : bool :=
  in_int64 (Minutia.x m) && in_int64 (Minutia.y m) && angle_ok (Minutia.orientation m).

(** The list object that holds the minutiae [l]. *)
Definition to_py (l : list Minutia.t) : pyval := PList (map Minutia.to_py l).

(** The row of the point array and the entry of the orientation array
    that a minutia gives. *)
Definition row (m : Minutia.t) : point * float :=
  ((Minutia.x m, Minutia.y m), Minutia.orientation m).

(** The correspondences of a list with itself: the indices from [i]
    on, each with itself, at distance 0 and orientation difference 0. *)
Definition identity_pairs (i n : nat) : list correspondence :=
  map (fun k => (k, k, zero, zero)) (seq i n).

End Wellformed.

(** Concrete templates used in the examples: the base64 text of compact
    JSON documents. *)
Module Examples.

(** [{"version":"1.0","quality":0.75,"image_shape":[300,256],
      "minutiae":[{"x":10,"y":10,"orientation":0.0,"type":"bifurcation"}],
      "minutiae_count":1,"created_at":null}] *)
Definition template_one : string :=
  "eyJ2ZXJzaW9uIjoiMS4wIiwicXVhbGl0eSI6MC43NSwiaW1hZ2Vfc2hhcGUiOlszMDAsMjU2XSwibWludXRpYWUiOlt7IngiOjEwLCJ5IjoxMCwib3JpZW50YXRpb24iOjAuMCwidHlwZSI6ImJpZnVyY2F0aW9uIn1dLCJtaW51dGlhZV9jb3VudCI6MSwiY3JlYXRlZF9hdCI6bnVsbH0=".

(** The same record with its single minutia at (100, 100). *)
Definition template_far : string :=
  "eyJ2ZXJzaW9uIjoiMS4wIiwicXVhbGl0eSI6MC43NSwiaW1hZ2Vfc2hhcGUiOlszMDAsMjU2XSwibWludXRpYWUiOlt7IngiOjEwMCwieSI6MTAwLCJvcmllbnRhdGlvbiI6MC4wLCJ0eXBlIjoiYmlmdXJjYXRpb24ifV0sIm1pbnV0aWFlX2NvdW50IjoxLCJjcmVhdGVkX2F0IjpudWxsfQ==".

(** The JSON number [5]. *)
Definition template_five : string := "NQ==".

(** [{"version":"9.9"}] *)
Definition template_version_9_9 : string := "eyJ2ZXJzaW9uIjoiOS45In0=".

(** [{"quality":7.5,"minutiae_count":12}] *)
Definition template_quality_7_5 : string :=
  "eyJxdWFsaXR5Ijo3LjUsIm1pbnV0aWFlX2NvdW50IjoxMn0=".

(** Not base64: the padding is incomplete. *)
Definition template_bad_padding : string := "NQ=".

(** A stand-in for [float.__repr__] in the examples: the exact decimal
    expansion of a finite float, without trailing zeros.  On the floats
    of the examples (0.0, 0.5, 0.75) it is the text that CPython
    writes. *)
Fixpoint strip_zeros_rev (s : list ascii) : list ascii :=
  match s with
  | c :: r => if Ascii.eqb c "0"%char then strip_zeros_rev r else s
  | [] => []
  end.

Definition exact_repr (f : Float64.float) : string :=
  match f with
  | S754_zero s => if s then "-0.0" else "0.0"
  | S754_finite s m e =>
      let sign := if s then "-"%string else EmptyString in
      if 0 <=? e then
        (sign ++ NilEmpty.string_of_uint (N.to_uint (N.pos m * 2 ^ Z.to_N e)) ++ ".0")%string
      else
        let k := Z.to_nat (- e) in
        let digits :=
          list_ascii_of_string
            (NilEmpty.string_of_uint (N.to_uint (N.pos m * 5 ^ Z.to_N (- e)))) in
        let padded := repeat "0"%char (S k - List.length digits) ++ digits in
        let n := List.length padded in
        let ipart := firstn (n - k) padded in
        let fpart := rev (strip_zeros_rev (rev (skipn (n - k) padded))) in
        (sign ++ string_of_list_ascii ipart ++ "." ++
         string_of_list_ascii (match fpart with [] => ["0"%char] | _ => fpart end))%string
  | S754_infinity s => if s then "-inf" else "inf"
  | S754_nan => "nan"
  end.

(** The minutia [{x: 10, y: 10, orientation: 0.0}]. *)
Definition minutia_10_10 : Minutia.t :=
  {| Minutia.x := 10; Minutia.y := 10; Minutia.orientation := Float64.zero;
     Minutia.type := Minutia.bifurcation |}.

(** The minutia [{x: 100, y: 100, orientation: 0.0}]. *)
Definition minutia_100_100 : Minutia.t :=
  {| Minutia.x := 100; Minutia.y := 100; Minutia.orientation := Float64.zero;
     Minutia.type := Minutia.bifurcation |}.

(** The minutia [{x: 13, y: 14, orientation: 0.3}]. *)
Definition minutia_13_14 : Minutia.t :=
  {| Minutia.x := 13; Minutia.y := 14; Minutia.orientation := Float64.f0_3;
     Minutia.type := Minutia.ridge_ending |}.

Definition candidate (student_id template : string) : pyval :=
  PDict [ ("studentId"%string, PStr student_id); ("template"%string, PStr template) ].

End Examples.

(* ===================================================================== *)
(** * Further vocabulary *)
(* ===================================================================== *)

(** Candidates of the best-match loop. *)
Module Candidates.

Import Float64 FingerprintMatcher.

(** A candidate that one of the guards of the loop passes over: no
    [studentId], no [template], a template that does not decode, or one
    that decodes to an empty document or to a record without minutiae. *)
Definition skipped (template_info : pyval) : bool :=
  match template_info with
  | PDict info =>
      negb (Py.truthy (Py.get info "studentId" PNone))
      || negb (Py.truthy (Py.get info "template" PNone))
      || match _decode_template (Py.get info "template" PNone) with
         | None => true
         | Some stored_data =>
             negb (Py.truthy stored_data)
             || match stored_data with
                | PDict d => negb (Py.truthy (Py.get d "minutiae" (PList [])))
                | _ => false
                end
         end
  | _ => false
  end.

(** The [studentId] of a candidate. *)
Definition student_id (template_info : pyval) : pyval :=
  match template_info with
  | PDict info => Py.get info "studentId" PNone
  | _ => PNone
  end.

(** What [match_fingerprint] may hold as its best match: nothing, or a
    candidate of the list with a confidence above 0 and at or above the
    threshold. *)
Definition sound_best (self : t) (templates : list pyval) (best : pyval * float) : Prop :=
  best = (PNone, zero) \/
  exists template_info c,
    In template_info templates /\
    Py.truthy (student_id template_info) = true /\
    best = (match_result (student_id template_info) c, c) /\
    gtb c zero = true /\ geb c (match_threshold self) = true.

End Candidates.

(** Enrolled templates: what the processor writes for a finger and the
    candidate record that holds it. *)
Module Enrollment.

Import Float64.

Record t : Type := {
  student : string;
  points : list Minutia.t;
  quality : float;
  height : Z;
  width : Z
}.

Section Writer.

Variable float_repr : float -> string.
Variable processor : FingerprintProcessor.t.

(** The template that [_generate_template] writes for the record. *)
Definition template (e : t) : string :=
  FingerprintProcessor._generate_template float_repr processor
    (map Minutia.to_py (points e)) (quality e) [height e; width e].

(** [{'studentId': ..., 'template': ...}] *)
Definition candidate (e : t) : pyval :=
  PDict [ ("studentId"%string, PStr (student e));
          ("template"%string, PStr (template e)) ].

(** The record has a name and at least one minutia, its minutiae are
    those of the data model and [float.__repr__] writes its floats as
    numerals that read back. *)
Definition wellformed (e : t) : bool :=
  negb (String.eqb (student e) EmptyString)
  && match points e with [] => false | _ => true end
  && forallb Wellformed.minutia (points e)
  && forallb (Plain.repr_round_trips float_repr)
       (quality e :: map Minutia.orientation (points e)).

End Writer.

End Enrollment.

(** Positions of minutiae. *)
Module Geometry.

Import Float64 FingerprintMatcher.

(** Both coordinates fit the [int64] array. *)
Definition coordinates_ok (m : Minutia.t) : bool :=
  in_int64 (Minutia.x m) && in_int64 (Minutia.y m).

(** The minutia moved by [(dx, dy)]. *)
Definition translate (dx dy : Z) (m : Minutia.t) : Minutia.t :=
  {| Minutia.x := Minutia.x m + dx; Minutia.y := Minutia.y m + dy;
     Minutia.orientation := Minutia.orientation m; Minutia.type := Minutia.type m |}.

(** The row of a minutia moved by [(dx, dy)]. *)
Definition moved (dx dy : Z) (r : point * float) : point * float :=
  ((fst (fst r) + dx, snd (fst r) + dy), snd r).

(** The distance of the two points is above the distance threshold. *)
Definition far (self : t) (a b : Minutia.t) : bool :=
  gtb (norm (point_sub (Minutia.x a, Minutia.y a) (Minutia.x b, Minutia.y b)))
      (of_Z (max_distance_threshold self)).

(** [m['x']] or [m['y']] raises: [m] is not a dict, or a dict without
    one of the two keys. *)
Definition lacks_coordinate (m : pyval) : bool :=
  match m with
  | PDict d =>
      match Py.lookup "x" d, Py.lookup "y" d with
      | Some _, Some _ => false
      | _, _ => true
      end
  | _ => true
  end.

End Geometry.

(* ===================================================================== *)
(** * services/matcher.py, the remaining method *)
(* ===================================================================== *)

Module MatcherApi.

Import Float64 FingerprintMatcher.

(** [get_similarity_score]: the [confidence] entry of the report of
    [verify_match], [0.0] when the report has none or when anything
    raises. *)
Definition get_similarity_score (self : t) (fuel : nat) (template1 template2 : pyval)
  : outcome pyval :=
  try_except
    (result <- verify_match self fuel template1 template2 ;;
     match result with
     | PDict d => Done (Py.get d "confidence" (PFloat zero))
     | _ => Raised
     end)
    (PFloat zero).

End MatcherApi.

(* ===================================================================== *)
(** * services/fingerprint_processor.py, the image pipeline *)
(* ===================================================================== *)

(** [process_fingerprint] and [_extract_minutiae].  What OpenCV and
    numpy compute from the pixels is a parameter; the control flow, the
    guards and the handlers are the source's. *)
Module Pipeline.

Import Float64 FingerprintProcessor.

(** A contour found by [cv2.findContours]: the number of its points,
    and the corners that [cv2.approxPolyDP] gives for it, each with the
    orientation that [_calculate_orientation] returns there; [None]
    when [cv2.arcLength] or [cv2.approxPolyDP] raises. *)
Record contour : Type := {
  contour_length : nat;
  corners : option (list (Z * Z * float))
}.

(** The dictionary appended for a corner. *)
Definition corner_minutia (c : Z * Z * float) : Minutia.t :=
  {| Minutia.x := fst (fst c); Minutia.y := snd (fst c);
     Minutia.orientation := snd c; Minutia.type := Minutia.bifurcation |}.

(** [len(contour) > 10] *)
Definition long (c : contour) : bool := (10 <? contour_length c)%nat.

(** The [for contour in contours] loop on the list [minutiae]: the
    list when the loop stops, and whether it ran to its end. *)
Fixpoint collect (contours : list contour) (minutiae : list Minutia.t)
  : list Minutia.t * bool :=
  match contours with
  | [] => (minutiae, true)
  | c :: rest =>
      if long c then
        match corners c with
        | Some points => collect rest (minutiae ++ map corner_minutia points)
        | None => (minutiae, false)
        end
      else collect rest minutiae
  end.

(** The corners of the contours of more than 10 points, in order. *)
Definition long_corners (contours : list contour) : list Minutia.t :=
  flat_map (fun c =>
              if long c then
                match corners c with
                | Some points => map corner_minutia points
                | None => []
                end
              else []) contours.

(** The outcome of [process_fingerprint]: the dictionary
    [{'success': False, 'error': ...}] by the kind of its message (the
    text is not modelled), or the dictionary of a success. *)
Inductive failure : Type :=
| image_not_decoded
| no_minutiae_found
| quality_too_low (quality : float)
| processing_failed.

Inductive report : Type :=
| Failed (error : failure)
| Processed (template : string) (quality : float) (minutiae_count : Z).

Section Images.

(** A numpy array of pixels. *)
Variable image : Type.

(** [np.frombuffer] and [cv2.imdecode] on the decoded bytes: [None]
    when the bytes are not an image. *)
Variable imdecode : string -> outcome (option image).

(** [_enhance_fingerprint], four OpenCV calls. *)
Variable _enhance_fingerprint : image -> outcome image.

(** [image.shape] of a grayscale image. *)
Variable shape : image -> Z * Z.

(** [np.std], the variance of [cv2.Laplacian], the edge pixels of
    [cv2.Canny] and the size; [None] when one of the calls raises. *)
Variable statistics : image -> option image_stats.

(** [cv2.threshold], [_skeletonize] and [cv2.findContours]; the
    [while True] loop of [_skeletonize] need not end. *)
Variable find_contours : image -> outcome (list contour).

Variable float_repr : float -> string.

(** [_extract_minutiae]: an exception ends the collection and leaves
    the list as it is, without the cut to 50 points. *)
Definition _extract_minutiae (im : image) : outcome (list Minutia.t) :=
  match find_contours im with
  | Done contours =>
      let '(minutiae, completed) := collect contours [] in
      Done (if completed then firstn 50 minutiae else minutiae)
  | Raised => Done []
  | Hang => Hang
  end.

(** [_calculate_quality] on an image: [0.0] when a call raises. *)
Definition quality_of_image (im : image) (minutiae : list Minutia.t) : float :=
  match statistics im with
  | Some stats => _calculate_quality stats (map Minutia.to_py minutiae)
  | None => zero
  end.

Definition process_fingerprint (self : t) (image_data : pyval) : outcome report :=
  try_except
    (match image_data with
     | PStr s =>
         match Base64.b64decode s with
         | Some image_bytes =>
             decoded <- imdecode image_bytes ;;
             match decoded with
             | None => Done (Failed image_not_decoded)
             | Some im =>
                 enhanced_image <- _enhance_fingerprint im ;;
                 minutiae <- _extract_minutiae enhanced_image ;;
                 match minutiae with
                 | [] => Done (Failed no_minutiae_found)
                 | _ =>
                     let quality := quality_of_image enhanced_image minutiae in
                     if ltb quality (min_quality_threshold self)
                     then Done (Failed (quality_too_low quality))
                     else
                       Done (Processed
                               (_generate_template float_repr self
                                  (map Minutia.to_py minutiae) quality
                                  [fst (shape enhanced_image); snd (shape enhanced_image)])
                               quality (Z.of_nat (List.length minutiae)))
                 end
             end
         | None => Raised
         end
     | _ => Raised
     end)
    (Failed processing_failed).

End Images.

End Pipeline.

(** [extract_features] of services/fingerprint_processor.py. *)
Module Features.

Import Float64 FingerprintProcessor.

Local Open Scope string_scope.

(** [len(v)]; [TypeError] on a value without a length. *)
Definition len (v : pyval) : outcome Z :=
  match v with
  | PStr s => Done (Z.of_nat (List.length (Utf8.codepoints s)))
  | PList l | PTuple l => Done (Z.of_nat (List.length l))
  | PDict d => Done (Z.of_nat (List.length d))
  | _ => Raised
  end.

(** [v[i]] for an index [i] that is not negative: an element of a list,
    a character of a [str]; [IndexError] past the end, [KeyError] on a
    dict (its keys are strings), [TypeError] on the other values. *)
Definition item (v : pyval) (i : nat) : outcome pyval :=
  match v with
  | PList l | PTuple l =>
      match nth_error l i with Some x => Done x | None => Raised end
  | PStr s =>
      match nth_error (Utf8.codepoints s) i with
      | Some c => Done (PStr (Utf8.encode_char c))
      | None => Raised
      end
  | _ => Raised
  end.

(** The elements that [for m in v] visits: the elements of a list, the
    characters of a [str], the keys of a dict. *)
Definition elements (v : pyval) : outcome (list pyval) :=
  match v with
  | PList l | PTuple l => Done l
  | PStr s => Done (map (fun c => PStr (Utf8.encode_char c)) (Utf8.codepoints s))
  | PDict d => Done (map (fun kv => PStr (fst kv)) d)
  | _ => Raised
  end.

(** An operand of arithmetic that is a number: an [int] (a [bool] is
    the int 0 or 1) or a [float]. *)
Definition number (v : pyval) : option (Z + float) :=
  match v with
  | PInt n => Some (inl n)
  | PBool b => Some (inl (if b then 1 else 0)%Z)
  | PFloat f => Some (inr f)
  | _ => None
  end.

(** An [int] operand of float arithmetic: [OverflowError] when it is
    too large for a float. *)
Definition float_of_int (n : Z) : outcome float :=
  let f := of_Z n in if is_finite f then Done f else Raised.

(** [max(1, p)] on a float [p]: [p] when [p > 1], else the int 1 (also
    for NaN). *)
Definition max_1_float (p : float) : Z + float :=
  if gtb p one then inr p else inl 1%Z.

(** [max(1, a * b)].  The product of two numbers is a number, which
    [max] compares with 1.  A [str] or a list times an [int] is a
    sequence (or [MemoryError]), on which the comparison of [max] raises
    [TypeError]; the other operands raise [TypeError] in the product. *)
Definition max_1_product (a b : pyval) : outcome (Z + float) :=
  match number a, number b with
  | Some (inl x), Some (inl y) => Done (inl (if (1 <? x * y)%Z then (x * y)%Z else 1%Z))
  | Some (inl x), Some (inr y) => fx <- float_of_int x ;; Done (max_1_float (mul fx y))
  | Some (inr x), Some (inl y) => fy <- float_of_int y ;; Done (max_1_float (mul x fy))
  | Some (inr x), Some (inr y) => Done (max_1_float (mul x y))
  | _, _ => Raised
  end.

(** [n / d] for an int [n]: [ZeroDivisionError] on zero,
    [OverflowError] when the quotient of two ints or the int is too
    large for a float. *)
Definition true_divide (n : Z) (d : Z + float) : outcome float :=
  match d with
  | inl k =>
      if (k =? 0)%Z then Raised
      else let q := int_truediv n k in if is_finite q then Done q else Raised
  | inr f =>
      x <- float_of_int n ;;
      if eqb f zero then Raised else Done (div x f)
  end.

Definition f10000 : float := Eval vm_compute in of_Z 10000.

(** [m.get('orientation', 0)]; [AttributeError] when [m] is not a dict. *)
Definition orientation_of (m : pyval) : outcome pyval :=
  match m with
  | PDict d => Done (Py.get d "orientation" (PInt 0))
  | _ => Raised
  end.

Definition failed_result (msg : string) : pyval :=
  PDict [ ("success", PBool false); ("error", PStr msg) ].

Section Mean.

(** [np.mean] of a list of values, [None] when it raises. *)
Variable np_mean : list pyval -> option float.

(** [np.mean([m.get('orientation', 0) for m in minutiae]) if minutiae else 0] *)
Definition average_orientation (minutiae : pyval) : outcome pyval :=
  if Py.truthy minutiae then
    ms <- elements minutiae ;;
    orientations <- mapM orientation_of ms ;;
    match np_mean orientations with
    | Some mean => Done (PFloat mean)
    | None => Raised
    end
  else Done (PInt 0).

(** [extract_features]; the text of the error caught by the handler
    is not modelled. *)
Definition extract_features (template : pyval) : pyval :=
  match _decode_template template with
  | None => failed_result "Invalid template format"
  | Some template_data =>
      if negb (Py.truthy template_data) then failed_result "Invalid template format"
      else
        let body :=
          match template_data with
          | PDict d =>
              let minutiae := Py.get d "minutiae" (PList []) in
              minutiae_count <- len minutiae ;;
              image_width <- item (Py.get d "image_shape" (PList [PInt 0; PInt 0])) 1 ;;
              image_height <- item (Py.get d "image_shape" (PList [PInt 0; PInt 0])) 0 ;;
              rows <- item (Py.get d "image_shape" (PList [PInt 1; PInt 1])) 0 ;;
              columns <- item (Py.get d "image_shape" (PList [PInt 1; PInt 1])) 1 ;;
              area <- max_1_product rows columns ;;
              ratio <- true_divide minutiae_count area ;;
              average <- average_orientation minutiae ;;
              Done (PDict
                [ ("success", PBool true);
                  ("features",
                   PDict [ ("minutiae_count", PInt minutiae_count);
                           ("quality", Py.get d "quality" (PFloat zero));
                           ("image_width", image_width);
                           ("image_height", image_height);
                           ("minutiae_density", PFloat (mul ratio f10000));
                           ("average_orientation", average);
                           ("version", Py.get d "version" (PStr "unknown")) ]) ])
          | _ => Raised
          end in
        match body with
        | Done r => r
        | _ => failed_result "Failed to extract features"
        end
  end.

End Mean.

(** [np.mean] on the lists of one float, where the mean is the float
    itself ([x / 1]); the other lists are left out. *)
Definition mean_of_one (l : list pyval) : option float :=
  match l with
  | [PFloat f] => Some f
  | _ => None
  end.

End Features.

(** The limits of the interpreter on [json.loads] and [json.dumps],
    which the grammar of [Json] does not have: an integer literal of
    more than [sys.get_int_max_str_digits()] digits (4300) raises
    [ValueError], and arrays and objects nested deeper than what is left
    of the recursion limit (1000) raise [RecursionError].  A text is
    within the limits when none of its runs of digits is longer than
    4300 and it has at most 100 opening brackets. *)
Module JsonLimits.

Definition max_str_digits : N := 4300.
Definition max_nesting : N := 100.

Definition digit (c : ascii) : bool :=
  let n := N_of_ascii c in ((48 <=? n) && (n <=? 57))%N.

Definition opening (c : ascii) : bool :=
  let n := N_of_ascii c in ((n =? 91) || (n =? 123))%N.

(** No run of digits of [text] is longer than [max_str_digits], the
    first run continuing one of [run] digits. *)
Fixpoint digit_runs (run : N) (text : string) : bool :=
  match text with
  | EmptyString => true
  | String c rest =>
      if digit c then (run + 1 <=? max_str_digits)%N && digit_runs (run + 1) rest
      else digit_runs 0 rest
  end.

(** The number of [[] and [{] of [text], strings included. *)
Fixpoint openings (text : string) : N :=
  match text with
  | EmptyString => 0%N
  | String c rest => ((if opening c then 1 else 0) + openings rest)%N
  end.

Definition within (text : string) : bool :=
  digit_runs 0 text && (openings text <=? max_nesting)%N.

End JsonLimits.

(* ===================================================================== *)
(** * The order on binary64 values *)
(* ===================================================================== *)

Section FloatOrderFacts.

Import Float64 FloatOrder.

Lemma compare_key (x y : float) :
  SFcompare x y =
  match key x, key y with
  | Some a, Some b => Some (lex a b)
  | _, _ => None
  end.
Proof.
  destruct x as [[|]|[|]| |[|] m e], y as [[|]|[|]| |[|] n f]; simpl; try reflexivity.
  - rewrite Z.compare_opp.
    destruct (Z.compare_spec e f); subst; try reflexivity.
    + rewrite Z.compare_refl. reflexivity.
    + assert (H' : (f ?= e) = Gt) by (apply Z.compare_gt_iff; assumption).
      rewrite H'. reflexivity.
    + assert (H' : (f ?= e) = Lt) by (apply Z.compare_lt_iff; assumption).
      rewrite H'. reflexivity.
Qed.

Lemma lex_lt_trans (a b c : Z * Z * Z) : lex a b = Lt -> lex b c = Lt -> lex a c = Lt.
Proof.
  destruct a as [[a1 a2] a3], b as [[b1 b2] b3], c as [[c1 c2] c3]; simpl.
  destruct (Z.compare_spec a1 b1), (Z.compare_spec b1 c1), (Z.compare_spec a1 c1);
    try discriminate; try lia; intros;
    destruct (Z.compare_spec a2 b2), (Z.compare_spec b2 c2), (Z.compare_spec a2 c2);
    try discriminate; try lia;
    destruct (Z.compare_spec a3 b3), (Z.compare_spec b3 c3), (Z.compare_spec a3 c3);
    try discriminate; try lia; reflexivity.
Qed.

Lemma lex_eq_lt (a b c : Z * Z * Z) : lex a b = Eq -> lex b c = Lt -> lex a c = Lt.
Proof.
  destruct a as [[a1 a2] a3], b as [[b1 b2] b3], c as [[c1 c2] c3]; simpl.
  destruct (Z.compare_spec a1 b1); try discriminate;
    destruct (Z.compare_spec a2 b2); try discriminate;
    destruct (Z.compare_spec a3 b3); try discriminate; intros; subst; assumption.
Qed.

Lemma lex_lt_eq (a b c : Z * Z * Z) : lex a b = Lt -> lex b c = Eq -> lex a c = Lt.
Proof.
  destruct a as [[a1 a2] a3], b as [[b1 b2] b3], c as [[c1 c2] c3]; simpl.
  destruct (Z.compare_spec b1 c1); try discriminate;
    destruct (Z.compare_spec b2 c2); try discriminate;
    destruct (Z.compare_spec b3 c3); try discriminate; intros; subst; assumption.
Qed.

Lemma lex_eq_trans (a b c : Z * Z * Z) : lex a b = Eq -> lex b c = Eq -> lex a c = Eq.
Proof.
  destruct a as [[a1 a2] a3], b as [[b1 b2] b3], c as [[c1 c2] c3]; simpl.
  destruct (Z.compare_spec a1 b1); try discriminate;
    destruct (Z.compare_spec a2 b2); try discriminate;
    destruct (Z.compare_spec a3 b3); try discriminate; intros; subst; assumption.
Qed.

Lemma lex_antisym (a b : Z * Z * Z) : lex b a = CompOpp (lex a b).
Proof.
  destruct a as [[a1 a2] a3], b as [[b1 b2] b3]; simpl.
  rewrite (Z.compare_antisym a1 b1), (Z.compare_antisym a2 b2), (Z.compare_antisym a3 b3).
  destruct (a1 ?= b1), (a2 ?= b2), (a3 ?= b3); reflexivity.
Qed.

Lemma lex_refl (a : Z * Z * Z) : lex a a = Eq.
Proof. destruct a as [[a1 a2] a3]; simpl. now rewrite !Z.compare_refl. Qed.

(** The three tests in terms of keys. *)
Lemma ltb_key (x y : float) :
  ltb x y = true <-> exists a b, key x = Some a /\ key y = Some b /\ lex a b = Lt.
Proof.
  unfold ltb, SFltb. rewrite compare_key.
  destruct (key x) as [a|], (key y) as [b|]; split;
    try (intros H; discriminate H);
    try (intros (a' & b' & H1 & H2 & _); discriminate).
  - intros H. exists a, b. repeat split. destruct (lex a b); congruence.
  - intros (a' & b' & H1 & H2 & H3). inversion H1; inversion H2; subst. now rewrite H3.
Qed.

Lemma leb_key (x y : float) :
  leb x y = true <-> exists a b, key x = Some a /\ key y = Some b /\ lex a b <> Gt.
Proof.
  unfold leb, SFleb. rewrite compare_key.
  destruct (key x) as [a|], (key y) as [b|]; split;
    try (intros H; discriminate H);
    try (intros (a' & b' & H1 & H2 & _); discriminate).
  - intros H. exists a, b. repeat split. destruct (lex a b); congruence.
  - intros (a' & b' & H1 & H2 & H3). inversion H1; inversion H2; subst.
    destruct (lex a' b'); congruence.
Qed.

Lemma ltb_trans (x y z : float) : ltb x y = true -> ltb y z = true -> ltb x z = true.
Proof.
  rewrite !ltb_key. intros (a & b & Ha & Hb & Hab) (b' & c & Hb' & Hc & Hbc).
  rewrite Hb in Hb'. inversion Hb'; subst b'.
  exists a, c. repeat split; try assumption. eapply lex_lt_trans; eassumption.
Qed.

Lemma leb_ltb_trans (x y z : float) : leb x y = true -> ltb y z = true -> ltb x z = true.
Proof.
  rewrite leb_key, !ltb_key. intros (a & b & Ha & Hb & Hab) (b' & c & Hb' & Hc & Hbc).
  rewrite Hb in Hb'. inversion Hb'; subst b'.
  exists a, c. repeat split; try assumption.
  destruct (lex a b) eqn:E; try congruence.
  - eapply lex_eq_lt; eassumption.
  - eapply lex_lt_trans; eassumption.
Qed.

Lemma ltb_leb_trans (x y z : float) : ltb x y = true -> leb y z = true -> ltb x z = true.
Proof.
  rewrite leb_key, !ltb_key. intros (a & b & Ha & Hb & Hab) (b' & c & Hb' & Hc & Hbc).
  rewrite Hb in Hb'. inversion Hb'; subst b'.
  exists a, c. repeat split; try assumption.
  destruct (lex b c) eqn:E; try congruence.
  - eapply lex_lt_eq; eassumption.
  - eapply lex_lt_trans; eassumption.
Qed.

Lemma ltb_leb (x y : float) : ltb x y = true -> leb x y = true.
Proof.
  unfold ltb, leb, SFltb, SFleb. destruct (SFcompare x y) as [[ | | ]|]; congruence.
Qed.

Lemma leb_trans (x y z : float) : leb x y = true -> leb y z = true -> leb x z = true.
Proof.
  intros H1 H2. rewrite leb_key in H1, H2.
  destruct H1 as (a & b & Ha & Hb & Hab), H2 as (b' & c & Hb' & Hc & Hbc).
  rewrite Hb in Hb'. inversion Hb'; subst b'.
  apply leb_key. exists a, c. repeat split; try assumption.
  destruct (lex a b) eqn:E1, (lex b c) eqn:E2; try congruence.
  - rewrite (lex_eq_trans _ _ _ E1 E2). discriminate.
  - rewrite (lex_eq_lt _ _ _ E1 E2). discriminate.
  - rewrite (lex_lt_eq _ _ _ E1 E2). discriminate.
  - rewrite (lex_lt_trans _ _ _ E1 E2). discriminate.
Qed.

Lemma ltb_irrefl (x : float) : ltb x x = false.
Proof.
  unfold ltb, SFltb. rewrite compare_key. destruct (key x); [|reflexivity].
  now rewrite lex_refl.
Qed.

(** On comparable values, [not (y < x)] is [x <= y]. *)
Lemma not_ltb_leb (x y : float) :
  is_nan x = false -> is_nan y = false -> ltb y x = false -> leb x y = true.
Proof.
  intros Hx Hy. unfold ltb, leb, SFltb, SFleb. rewrite !compare_key.
  assert (Kx : exists a, key x = Some a)
    by (destruct x as [[|]|[|]| |[|] ? ?]; try discriminate; eexists; reflexivity).
  assert (Ky : exists b, key y = Some b)
    by (destruct y as [[|]|[|]| |[|] ? ?]; try discriminate; eexists; reflexivity).
  destruct Kx as [a ->], Ky as [b ->].
  rewrite (lex_antisym a b). destruct (lex a b); simpl; congruence.
Qed.

Lemma leb_not_nan (x y : float) : leb x y = true -> is_nan x = false /\ is_nan y = false.
Proof.
  unfold leb, SFleb. destruct x, y; simpl; try discriminate; auto.
Qed.

Lemma ltb_not_nan (x y : float) : ltb x y = true -> is_nan x = false /\ is_nan y = false.
Proof. intros H. apply leb_not_nan. now apply ltb_leb. Qed.

Lemma ltb_asym (x y : float) : ltb x y = true -> ltb y x = false.
Proof.
  intros H. destruct (ltb y x) eqn:E; [|reflexivity].
  pose proof (ltb_trans _ _ _ H E) as F. rewrite ltb_irrefl in F. discriminate.
Qed.

Lemma leb_not_ltb (x y : float) : leb x y = true -> ltb y x = false.
Proof.
  intros H. destruct (ltb y x) eqn:E; [|reflexivity].
  pose proof (leb_ltb_trans _ _ _ H E) as F. rewrite ltb_irrefl in F. discriminate.
Qed.

End FloatOrderFacts.

(* ===================================================================== *)
(** * The correspondence search *)
(* ===================================================================== *)

Section SearchFacts.

Import Float64 FingerprintMatcher FloatOrder Search.

Local Open Scope nat_scope.

Variable self : t.
Variable fuel : nat.

Local Abbreviation pairing := (pairing self fuel).
Local Abbreviation best_ok := (best_ok self fuel).
Local Abbreviation none_below := (none_below self fuel).
Local Abbreviation selected := (selected self fuel).
Local Abbreviation unmatched := (unmatched self fuel).

Lemma scan_candidates_cons i p1 o1 used j p2 o2 rest bm bs :
  scan_candidates self fuel i p1 o1 used j ((p2, o2) :: rest) bm bs =
  if mem j used then scan_candidates self fuel i p1 o1 used (S j) rest bm bs
  else
    r <- pairing (p1, o1) (p2, o2) ;;
    match r with
    | None => scan_candidates self fuel i p1 o1 used (S j) rest bm bs
    | Some (d, od) =>
        if ltb (combined d od) bs
        then scan_candidates self fuel i p1 o1 used (S j) rest (Some (i, j, d, od))
               (combined d od)
        else scan_candidates self fuel i p1 o1 used (S j) rest bm bs
    end.
Proof.
  simpl. destruct (mem j used); [reflexivity|].
  unfold pairing. simpl fst. simpl snd.
  destruct (gtb (norm (point_sub p1 p2)) (of_Z (max_distance_threshold self)));
    [reflexivity|].
  destruct (_normalize_angle fuel (sub o1 o2)) as [a| |]; simpl; try reflexivity.
  destruct (gtb (abs a) (orientation_tolerance self)); reflexivity.
Qed.

Lemma none_below_lower r1 used seen bs bs' :
  none_below r1 used seen bs -> ltb bs' bs = true -> none_below r1 used seen bs'.
Proof.
  intros H Hlt j r2 Hj Hu. destruct (H j r2 Hj Hu) as (r & Hr & Hmin).
  exists r. split; [assumption|]. intros d od E.
  destruct (ltb (combined d od) bs') eqn:L; [|reflexivity].
  rewrite <- (Hmin d od E). symmetry. eapply ltb_trans; eassumption.
Qed.

Lemma nth_error_snoc_inv {A} (l : list A) (x y : A) (j : nat) :
  nth_error (l ++ [x]) j = Some y ->
  nth_error l j = Some y \/ (j = List.length l /\ y = x).
Proof.
  intros H. destruct (Nat.lt_ge_cases j (List.length l)) as [L|L].
  - left. now rewrite nth_error_app1 in H.
  - right. rewrite nth_error_app2 in H by assumption.
    destruct (j - List.length l) as [|n] eqn:E.
    + simpl in H. inversion H. split; [lia|reflexivity].
    + simpl in H. destruct n; discriminate.
Qed.

Lemma scan_candidates_inv i p1 o1 used rest :
  forall seen bm bs res,
    scan_candidates self fuel i p1 o1 used (List.length seen) rest bm bs = Done res ->
    best_ok i (p1, o1) used seen bm bs ->
    none_below (p1, o1) used seen bs ->
    exists bs', best_ok i (p1, o1) used (seen ++ rest) res bs' /\
                none_below (p1, o1) used (seen ++ rest) bs'.
Proof.
  induction rest as [|[p2 o2] rest IH]; intros seen bm bs res Hrun Hbest Hmin.
  - simpl in Hrun. inversion Hrun; subst. rewrite app_nil_r. eauto.
  - rewrite scan_candidates_cons in Hrun.
    assert (Hlen : S (List.length seen) = List.length (seen ++ [(p2, o2)]))
      by (rewrite length_app; simpl; lia).
    assert (Hseen : (seen ++ (p2, o2) :: rest) = (seen ++ [(p2, o2)]) ++ rest)
      by (rewrite <- app_assoc; reflexivity).
    rewrite Hseen.
    assert (Hkeep : forall bm0 bs0,
               best_ok i (p1, o1) used seen bm0 bs0 ->
               best_ok i (p1, o1) used (seen ++ [(p2, o2)]) bm0 bs0).
    { intros [m|] bs0; simpl; [|tauto].
      intros (E1 & E2 & r2 & N & U & P). repeat split; try assumption.
      exists r2. repeat split; try assumption.
      rewrite nth_error_app1; [assumption|].
      apply nth_error_Some. congruence. }
    destruct (mem (List.length seen) used) eqn:Hu.
    + rewrite Hlen in Hrun. eapply IH; [exact Hrun| now apply Hkeep |].
      intros j r2 Hj Hju. apply nth_error_snoc_inv in Hj.
      destruct Hj as [Hj|[-> _]]; [exact (Hmin _ _ Hj Hju) | congruence].
    + destruct (pairing (p1, o1) (p2, o2)) as [[[d od]|]| |] eqn:Hp;
        simpl in Hrun; try discriminate.
      * destruct (ltb (combined d od) bs) eqn:Hlt.
        -- rewrite Hlen in Hrun. eapply IH; [exact Hrun| |].
           ++ simpl. repeat split.
              exists (p2, o2). repeat split; try assumption.
              unfold index2. simpl. rewrite nth_error_app2 by lia.
              now rewrite Nat.sub_diag.
           ++ intros j r2 Hj Hju. apply nth_error_snoc_inv in Hj.
              destruct Hj as [Hj|[-> ->]].
              ** exact (none_below_lower _ _ _ _ _ Hmin Hlt _ _ Hj Hju).
              ** exists (Some (d, od)). split; [assumption|].
                 intros d' od' E. inversion E; subst. apply ltb_irrefl.
        -- rewrite Hlen in Hrun. eapply IH; [exact Hrun| now apply Hkeep |].
           intros j r2 Hj Hju. apply nth_error_snoc_inv in Hj.
           destruct Hj as [Hj|[-> ->]]; [exact (Hmin _ _ Hj Hju)|].
           exists (Some (d, od)). split; [assumption|].
           intros d' od' E. inversion E; subst. assumption.
      * rewrite Hlen in Hrun. eapply IH; [exact Hrun| now apply Hkeep |].
        intros j r2 Hj Hju. apply nth_error_snoc_inv in Hj.
        destruct Hj as [Hj|[-> ->]]; [exact (Hmin _ _ Hj Hju)|].
        exists None. split; [assumption|]. intros d od E. discriminate.
Qed.

Lemma mem_In (j : nat) (used : list nat) : mem j used = true <-> In j used.
Proof.
  unfold mem. rewrite existsb_exists. split.
  - intros (x & Hx & E). apply Nat.eqb_eq in E. now subst.
  - intros H. exists j. split; [assumption | apply Nat.eqb_refl].
Qed.

Lemma mem_false (j : nat) (used : list nat) : mem j used = false <-> ~ In j used.
Proof.
  rewrite <- mem_In. destruct (mem j used); split; congruence.
Qed.

Lemma scan_candidates_spec i r1 used rows2 res :
  scan_candidates self fuel i (fst r1) (snd r1) used 0 rows2 None infinity = Done res ->
  match res with
  | Some m => selected rows2 used i r1 m
  | None => unmatched rows2 used r1
  end.
Proof.
  intros Hrun. destruct r1 as [p1 o1]. simpl in Hrun.
  destruct (scan_candidates_inv i p1 o1 used rows2 [] None infinity res Hrun)
    as (bs' & Hbest & Hmin).
  - reflexivity.
  - intros j r2 Hj. destruct j; discriminate.
  - simpl in Hbest, Hmin. destruct res as [m|]; simpl in Hbest.
    + destruct Hbest as (E1 & E2 & r2 & N & U & P). subst bs'.
      split; [assumption|]. split.
      * exists r2. repeat split; try assumption. now apply mem_false.
      * intros j r2' Hj Hc. apply (Hmin j r2' Hj). now apply mem_false.
    + subst bs'. intros j r2' Hj Hc. apply (Hmin j r2' Hj). now apply mem_false.
Qed.






Lemma sorted_snoc (l : list nat) (a : nat) :
  StronglySorted lt l -> (forall x, In x l -> x < a) -> StronglySorted lt (l ++ [a]).
Proof.
  induction 1 as [|b l Hs IH Hb]; intros Hlt; simpl.
  - repeat constructor.
  - constructor.
    + apply IH. intros x Hx. apply Hlt. now right.
    + rewrite Forall_forall in *. intros x Hx. apply in_app_or in Hx.
      destruct Hx as [Hx|[<-|[]]]; [now apply Hb | apply Hlt; now left].
Qed.

Lemma nodup_snoc (l : list nat) (a : nat) : NoDup l -> ~ In a l -> NoDup (l ++ [a]).
Proof.
  induction 1 as [|b l Hb Hn IH]; intros Ha; simpl.
  - repeat constructor. intros [].
  - constructor.
    + intros Hx. apply in_app_or in Hx. destruct Hx as [Hx|[<-|[]]];
        [contradiction | apply Ha; now left].
    + apply IH. intros Hx. apply Ha. now right.
Qed.

Lemma sorted_nodup (l : list nat) : StronglySorted lt l -> NoDup l.
Proof.
  induction 1 as [|b l Hs IH Hb]; constructor; [|assumption].
  intros Hx. rewrite Forall_forall in Hb. specialize (Hb b Hx). lia.
Qed.

Lemma nodup_bounded_length (l : list nat) (n : nat) :
  NoDup l -> (forall x, In x l -> x < n) -> List.length l <= n.
Proof.
  intros Hn Hb.
  assert (H : incl l (seq 0 n)).
  { intros x Hx. apply in_seq. specialize (Hb x Hx). lia. }
  pose proof (NoDup_incl_length Hn H) as L. rewrite length_seq in L. exact L.
Qed.

Lemma scan_points_one_to_one rows2 :
  forall rows1 i matches used out,
    scan_points self fuel i rows1 rows2 matches used = Done out ->
    StronglySorted lt (map index1 matches) ->
    NoDup (map index2 matches) ->
    (forall j, In j used <-> In j (map index2 matches)) ->
    (forall m, In m matches -> index1 m < i /\ index2 m < List.length rows2) ->
    StronglySorted lt (map index1 out) /\
    NoDup (map index2 out) /\
    (forall m, In m out ->
       index1 m < i + List.length rows1 /\ index2 m < List.length rows2).
Proof.
  induction rows1 as [|[p1 o1] rest IH]; intros i matches used out Hrun Hs Hn Hused Hb.
  - simpl in Hrun. inversion Hrun; subst. repeat split; try assumption.
    + destruct (Hb m H). simpl. lia.
    + now destruct (Hb m H).
  - simpl in Hrun.
    destruct (scan_candidates self fuel i p1 o1 used 0 rows2 None infinity)
      as [res| |] eqn:Hinner; simpl in Hrun; try discriminate.
    pose proof (scan_candidates_spec i (p1, o1) used rows2 res Hinner) as Hspec.
    destruct res as [m|].
    + destruct Hspec as (E & (r2 & N & U & _) & _).
      assert (Hj : index2 m < List.length rows2)
        by (apply nth_error_Some; congruence).
      destruct (IH (S i) (matches ++ [m]) (index2 m :: used) out Hrun)
        as (H1 & H2 & H3).
      * rewrite map_app. simpl. apply sorted_snoc; [assumption|].
        intros x Hx. apply in_map_iff in Hx. destruct Hx as (m' & <- & Hm').
        destruct (Hb m' Hm'). lia.
      * rewrite map_app. simpl. apply nodup_snoc; [assumption|].
        now rewrite <- Hused.
      * intros j. rewrite map_app, in_app_iff. simpl. rewrite Hused. tauto.
      * intros m' Hm'. apply in_app_or in Hm'. destruct Hm' as [Hm'|[<-|[]]].
        -- destruct (Hb m' Hm'). lia.
        -- lia.
      * repeat split; try assumption.
        -- destruct (H3 m0 H). simpl. lia.
        -- now destruct (H3 m0 H).
    + destruct (IH (S i) matches used out Hrun) as (H1 & H2 & H3); try assumption.
      * intros m' Hm'. destruct (Hb m' Hm'). lia.
      * repeat split; try assumption.
        -- destruct (H3 m H). simpl. lia.
        -- now destruct (H3 m H).
Qed.

Lemma pairing_some r1 r2 d od :
  pairing r1 r2 = Done (Some (d, od)) ->
  d = norm (point_sub (fst r1) (fst r2)) /\
  gtb d (of_Z (max_distance_threshold self)) = false /\
  (exists angle, _normalize_angle fuel (sub (snd r1) (snd r2)) = Done angle /\
                 od = abs angle) /\
  gtb od (orientation_tolerance self) = false.
Proof.
  unfold pairing.
  destruct (gtb (norm (point_sub (fst r1) (fst r2))) (of_Z (max_distance_threshold self)))
    eqn:G1; [discriminate|].
  destruct (_normalize_angle fuel (sub (snd r1) (snd r2))) as [a| |]; simpl;
    try discriminate.
  destruct (gtb (abs a) (orientation_tolerance self)) eqn:G2; [discriminate|].
  intros H. inversion H; subst. repeat split; try assumption. now exists a.
Qed.

End SearchFacts.

(* ===================================================================== *)
(** * Best-match selection *)
(* ===================================================================== *)

Section SelectionFacts.

Import Float64 FingerprintMatcher FloatOrder Selection.

Local Open Scope nat_scope.

Variable self : t.
Variable fuel : nat.

Local Abbreviation evaluate := (evaluate self fuel).
Local Abbreviation select := (select self).
Local Abbreviation qualifies := (qualifies self).
Local Abbreviation best_of := (best_of self).

Lemma candidate_step_evaluate (input_minutiae : pyval) (best : pyval * float)
    (template_info : pyval) :
  candidate_step self fuel input_minutiae best template_info =
  r <- evaluate input_minutiae template_info ;; Done (select best r).
Proof.
  unfold candidate_step, Selection.evaluate.
  destruct template_info; try reflexivity.
  destruct (negb (Py.truthy (Py.get d "studentId" PNone))
            || negb (Py.truthy (Py.get d "template" PNone))); [reflexivity|].
  destruct (_decode_template (Py.get d "template" PNone)) as [stored_data|];
    [|reflexivity].
  destruct (negb (Py.truthy stored_data)); [reflexivity|].
  destruct stored_data; try reflexivity.
  destruct (negb (Py.truthy (Py.get d0 "minutiae" (PList [])))); [reflexivity|].
  destruct (_calculate_match_confidence self fuel input_minutiae
              (Py.get d0 "minutiae" (PList []))) as [c| |]; simpl; try reflexivity.
  destruct (gtb c (snd best) && geb c (match_threshold self)); reflexivity.
Qed.

(** When every candidate evaluates without raising or hanging, the loop
    is the left fold of [select] over the evaluations. *)
Lemma candidate_loop_fold (input_minutiae : pyval) :
  forall templates rs best,
    Forall2 (fun ti r => evaluate input_minutiae ti = Done r) templates rs ->
    candidate_loop self fuel input_minutiae templates best
    = Done (fold_left select rs best).
Proof.
  induction templates as [|ti rest IH]; intros rs best H; inversion H; subst.
  - reflexivity.
  - simpl. rewrite candidate_step_evaluate. rewrite H2. simpl. now apply IH.
Qed.

(** A candidate that evaluates to nothing leaves the loop where it was. *)
Lemma candidate_loop_skip (input_minutiae : pyval) (ti : pyval) :
  evaluate input_minutiae ti = Done None ->
  forall before after best,
    candidate_loop self fuel input_minutiae (before ++ ti :: after) best
    = candidate_loop self fuel input_minutiae (before ++ after) best.
Proof.
  intros Hskip. induction before as [|b before IH]; intros after best; simpl.
  - rewrite candidate_step_evaluate, Hskip. reflexivity.
  - destruct (candidate_step self fuel input_minutiae best b); simpl;
      [apply IH | reflexivity | reflexivity].
Qed.

Lemma nth_error_snoc {A} (l : list A) (x y : A) (j : nat) :
  nth_error (l ++ [x]) j = Some y ->
  nth_error l j = Some y \/ (j = List.length l /\ y = x).
Proof.
  intros H. destruct (Nat.lt_ge_cases j (List.length l)) as [L|L].
  - left. now rewrite nth_error_app1 in H.
  - right. rewrite nth_error_app2 in H by assumption.
    destruct (j - List.length l) as [|n] eqn:E.
    + simpl in H. inversion H. split; [lia|reflexivity].
    + simpl in H. destruct n; discriminate.
Qed.

Lemma leb_refl_of_leb (x y : float) : leb x y = true -> leb y y = true.
Proof.
  intros H. destruct (leb_not_nan _ _ H) as (_ & Hy).
  apply not_ltb_leb; try assumption. apply ltb_irrefl.
Qed.

Lemma select_step (seen : list (option (pyval * float))) (best : pyval * float)
    (r : option (pyval * float)) :
  ltb zero (match_threshold self) = true ->
  best_of seen best -> best_of (seen ++ [r]) (select best r).
Proof.
  intros Hthr Hbest.
  assert (Hold : forall k x, nth_error seen k = Some x -> nth_error (seen ++ [r]) k = Some x).
  { intros k x Hk. rewrite nth_error_app1; [assumption|].
    apply nth_error_Some. congruence. }
  destruct r as [[sid c]|]; simpl.
  - destruct Hbest as [(-> & Hnone)|(k & sid0 & c0 & -> & Hk & Hq & Hmax)]; simpl.
    + destruct (geb c (match_threshold self)) eqn:Hc.
      * assert (G : gtb c zero = true)
          by (unfold gtb, geb in *; eapply ltb_leb_trans; eassumption).
        rewrite G. simpl. right. exists (List.length seen), sid, c.
        split; [reflexivity|]. split.
        { rewrite nth_error_app2 by lia. now rewrite Nat.sub_diag. }
        split; [exact Hc|].
        intros k' sid' c' Hk' Hq'. apply nth_error_snoc in Hk'.
        destruct Hk' as [Hk'|(-> & E)].
        -- rewrite (Hnone _ _ _ Hk') in Hq'. discriminate.
        -- inversion E; subst. split; [|lia].
           unfold Selection.qualifies, geb in Hq'. eapply leb_refl_of_leb; eassumption.
      * rewrite andb_false_r. left. split; [reflexivity|].
        intros k' sid' c' Hk'. apply nth_error_snoc in Hk'.
        destruct Hk' as [Hk'|(-> & E)]; [eapply Hnone; eassumption|].
        inversion E; subst. exact Hc.
    + assert (Hklt : k < List.length seen) by (apply nth_error_Some; congruence).
      destruct (gtb c c0 && geb c (match_threshold self)) eqn:Hup.
      * apply andb_prop in Hup. destruct Hup as (Hgt & Hc).
        right. exists (List.length seen), sid, c.
        split; [reflexivity|]. split.
        { rewrite nth_error_app2 by lia. now rewrite Nat.sub_diag. }
        split; [exact Hc|].
        intros k' sid' c' Hk' Hq'. apply nth_error_snoc in Hk'.
        destruct Hk' as [Hk'|(-> & E)].
        -- destruct (Hmax _ _ _ Hk' Hq') as (Hle & _).
           assert (L : ltb c' c = true)
             by (unfold gtb in Hgt; eapply leb_ltb_trans; eassumption).
           split; [now apply ltb_leb | intros _; exact L].
        -- inversion E; subst. split; [|lia].
           unfold geb in Hc. eapply leb_refl_of_leb; eassumption.
      * right. exists k, sid0, c0.
        split; [reflexivity|]. split; [now apply Hold|]. split; [exact Hq|].
        intros k' sid' c' Hk' Hq'. apply nth_error_snoc in Hk'.
        destruct Hk' as [Hk'|(-> & E)]; [exact (Hmax _ _ _ Hk' Hq')|].
        inversion E; subst. split; [|lia].
        unfold Selection.qualifies in Hq', Hq. rewrite Hq' in Hup.
        rewrite andb_true_r in Hup. unfold gtb in Hup. unfold geb in Hq', Hq.
        apply not_ltb_leb; try assumption.
        -- now destruct (leb_not_nan _ _ Hq').
        -- now destruct (leb_not_nan _ _ Hq).
  - destruct Hbest as [(-> & Hnone)|(k & sid0 & c0 & -> & Hk & Hq & Hmax)].
    + left. split; [reflexivity|].
      intros k' sid' c' Hk'. apply nth_error_snoc in Hk'.
      destruct Hk' as [Hk'|(-> & E)]; [eapply Hnone; eassumption | discriminate].
    + right. exists k, sid0, c0.
      split; [reflexivity|]. split; [now apply Hold|]. split; [exact Hq|].
      intros k' sid' c' Hk' Hq'. apply nth_error_snoc in Hk'.
      destruct Hk' as [Hk'|(-> & E)]; [exact (Hmax _ _ _ Hk' Hq') | discriminate].
Qed.

Lemma fold_select (rs : list (option (pyval * float))) :
  ltb zero (match_threshold self) = true ->
  forall seen best, best_of seen best -> best_of (seen ++ rs) (fold_left select rs best).
Proof.
  intros Hthr. induction rs as [|r rs IH]; intros seen best Hbest; simpl.
  - now rewrite app_nil_r.
  - replace (seen ++ r :: rs) with ((seen ++ [r]) ++ rs)
      by (rewrite <- app_assoc; reflexivity).
    apply IH. now apply select_step.
Qed.

End SelectionFacts.

(* ===================================================================== *)
(** * base64: decoding what was encoded *)
(* ===================================================================== *)

Section Base64Facts.

Import Base64 Base64Checks.

Local Open Scope N_scope.

(** A boolean test that holds on [0 .. n-1] holds below [n]. *)
Lemma below_forallb (n : nat) (P : N -> bool) :
  forallb P (map N.of_nat (seq 0 n)) = true ->
  forall x, x < N.of_nat n -> P x = true.
Proof.
  intros H x Hx. rewrite forallb_forall in H. apply H.
  apply in_map_iff. exists (N.to_nat x). split; [apply N2Nat.id|].
  apply in_seq. lia.
Qed.

Lemma code_lt_256 (c : ascii) : code c < 256.
Proof. apply N_ascii_bounded. Qed.

Lemma chr_code (c : ascii) : chr (code c) = c.
Proof. apply ascii_N_embedding. Qed.

Lemma sextet_table (v : N) :
  v < 64 ->
  table_a2b (table_b2a v) = Some v /\
  Ascii.eqb (table_b2a v) "="%char = false /\
  code (table_b2a v) < 128.
Proof.
  intros Hv.
  assert (H : sextet_ok v = true)
    by (apply (below_forallb 64); [vm_compute; reflexivity | exact Hv]).
  unfold sextet_ok in H. destruct (table_a2b (table_b2a v)) as [w|]; [|discriminate].
  apply andb_prop in H. destruct H as (H & H3). apply andb_prop in H. destruct H as (H1 & H2).
  apply N.eqb_eq in H1. subst w. apply negb_true_iff in H2. apply N.ltb_lt in H3. auto.
Qed.

Lemma first_two (a h : N) :
  a < 256 -> h < 16 ->
  let v1 := N.shiftr a 2 in
  let v2 := N.lor (N.shiftl (N.land a 3) 4) h in
  v1 < 64 /\ v2 < 64 /\
  N.land (N.lor (N.shiftl v1 2) (N.shiftr v2 4)) 255 = a /\ N.land v2 15 = h.
Proof.
  intros Ha Hh v1 v2.
  assert (H : first_two_ok a = true)
    by (apply (below_forallb 256); [vm_compute; reflexivity | exact Ha]).
  unfold first_two_ok in H.
  pose proof (below_forallb 16 _ H h Hh) as H'. cbv beta zeta in H'.
  fold v1 v2 in H'.
  repeat (apply andb_prop in H'; destruct H' as (H' & ?)).
  repeat split; try (now apply N.ltb_lt); now apply N.eqb_eq.
Qed.

Lemma third (b h : N) :
  b < 256 -> h < 4 ->
  let v3 := N.lor (N.shiftl (N.land b 15) 2) h in
  v3 < 64 /\
  N.land (N.lor (N.shiftl (N.shiftr b 4) 4) (N.shiftr v3 2)) 255 = b /\
  N.land v3 3 = h.
Proof.
  intros Hb Hh v3.
  assert (H : third_ok b = true)
    by (apply (below_forallb 256); [vm_compute; reflexivity | exact Hb]).
  unfold third_ok in H.
  pose proof (below_forallb 4 _ H h Hh) as H'. cbv beta zeta in H'.
  fold v3 in H'.
  repeat (apply andb_prop in H'; destruct H' as (H' & ?)).
  repeat split; try (now apply N.ltb_lt); now apply N.eqb_eq.
Qed.

Lemma fourth (c : N) :
  c < 256 ->
  let v4 := N.land c 63 in
  v4 < 64 /\ N.land (N.lor (N.shiftl (N.shiftr c 6) 6) v4) 255 = c /\
  N.shiftr c 4 < 16 /\ N.shiftr c 6 < 4.
Proof.
  intros Hc v4.
  assert (H : fourth_ok c = true)
    by (apply (below_forallb 256); [vm_compute; reflexivity | exact Hc]).
  unfold fourth_ok in H. fold v4 in H.
  repeat (apply andb_prop in H; destruct H as (H & ?)).
  repeat split; try (now apply N.ltb_lt); now apply N.eqb_eq.
Qed.

(** One step of the decoder on a character of the alphabet. *)
Lemma a2b_data (v : N) (rest : string) (quad_pos leftchar pads : N) :
  v < 64 ->
  a2b_base64 (String (table_b2a v) rest) quad_pos leftchar pads =
  if quad_pos =? 0 then a2b_base64 rest 1 v 0
  else
    let '(byte, quad_pos', leftchar') :=
      if quad_pos =? 1
      then (N.lor (N.shiftl leftchar 2) (N.shiftr v 4), 2, N.land v 15)
      else if quad_pos =? 2
      then (N.lor (N.shiftl leftchar 4) (N.shiftr v 2), 3, N.land v 3)
      else (N.lor (N.shiftl leftchar 6) v, 0, 0) in
    match a2b_base64 rest quad_pos' leftchar' 0 with
    | Some out => Some (String (chr (N.land byte 255)) out)
    | None => None
    end.
Proof.
  intros Hv. destruct (sextet_table v Hv) as (H1 & H2 & _).
  simpl. rewrite H2, H1. reflexivity.
Qed.

(** Strings by groups of three characters. *)
Lemma string_triples_ind (P : string -> Prop) :
  P EmptyString ->
  (forall a, P (String a EmptyString)) ->
  (forall a b, P (String a (String b EmptyString))) ->
  (forall a b c r, P r -> P (String a (String b (String c r)))) ->
  forall s, P s.
Proof.
  intros H0 H1 H2 H3.
  refine (fix go (s : string) : P s :=
            match s with
            | EmptyString => H0
            | String a EmptyString => H1 a
            | String a (String b EmptyString) => H2 a b
            | String a (String b (String c r)) => H3 a b c r (go r)
            end).
Qed.

Theorem b64decode_b64encode_raw (s : string) : a2b_base64 (b64encode s) 0 0 0 = Some s.
Proof.
  induction s as [|a|a b|a b c r IH] using string_triples_ind.
  - reflexivity.
  - pose proof (code_lt_256 a) as Ha.
    destruct (first_two (code a) 0 Ha ltac:(lia)) as (V1 & V2 & B1 & L1).
    rewrite N.lor_0_r in V2, B1, L1.
    cbn [b64encode]. rewrite a2b_data by assumption. cbn [N.eqb].
    rewrite a2b_data by assumption. cbn [N.eqb Pos.eqb]. cbv beta iota zeta.
    rewrite B1, chr_code. reflexivity.
  - pose proof (code_lt_256 a) as Ha. pose proof (code_lt_256 b) as Hb.
    destruct (fourth (code b) Hb) as (_ & _ & Hb4 & _).
    destruct (first_two (code a) (N.shiftr (code b) 4) Ha Hb4) as (V1 & V2 & B1 & L1).
    destruct (third (code b) 0 Hb ltac:(lia)) as (V3 & B2 & L2).
    rewrite N.lor_0_r in V3, B2, L2.
    cbn [b64encode]. rewrite a2b_data by assumption. cbn [N.eqb].
    rewrite a2b_data by assumption. cbn [N.eqb Pos.eqb]. cbv beta iota zeta.
    rewrite a2b_data by assumption. cbn [N.eqb Pos.eqb]. cbv beta iota zeta.
    rewrite L1, B1, B2, !chr_code. reflexivity.
  - pose proof (code_lt_256 a) as Ha. pose proof (code_lt_256 b) as Hb.
    pose proof (code_lt_256 c) as Hc.
    destruct (fourth (code b) Hb) as (_ & _ & Hb4 & _).
    destruct (fourth (code c) Hc) as (V4 & B3 & _ & Hc6).
    destruct (first_two (code a) (N.shiftr (code b) 4) Ha Hb4) as (V1 & V2 & B1 & L1).
    destruct (third (code b) (N.shiftr (code c) 6) Hb Hc6) as (V3 & B2 & L2).
    cbn [b64encode]. rewrite a2b_data by assumption. cbn [N.eqb].
    rewrite a2b_data by assumption. cbn [N.eqb Pos.eqb]. cbv beta iota zeta.
    rewrite a2b_data by assumption. cbn [N.eqb Pos.eqb]. cbv beta iota zeta.
    rewrite a2b_data by assumption. cbn [N.eqb Pos.eqb]. cbv beta iota zeta.
    rewrite IH, L1, L2, B1, B2, B3, !chr_code. reflexivity.
Qed.

Lemma b64encode_is_ascii (s : string) : is_ascii (b64encode s) = true.
Proof.
  assert (Heq : is_ascii (String "="%char EmptyString) = true) by reflexivity.
  assert (Hs : forall v r, v < 64 -> is_ascii r = true ->
                           is_ascii (String (table_b2a v) r) = true).
  { intros v r Hv Hr. destruct (sextet_table v Hv) as (_ & _ & H).
    simpl. rewrite Hr. apply N.ltb_lt in H. now rewrite H. }
  induction s as [|a|a b|a b c r IH] using string_triples_ind.
  - reflexivity.
  - pose proof (code_lt_256 a) as Ha.
    destruct (first_two (code a) 0 Ha ltac:(lia)) as (V1 & V2 & _).
    rewrite N.lor_0_r in V2. cbn [b64encode]. auto.
  - pose proof (code_lt_256 a) as Ha. pose proof (code_lt_256 b) as Hb.
    destruct (fourth (code b) Hb) as (_ & _ & Hb4 & _).
    destruct (first_two (code a) (N.shiftr (code b) 4) Ha Hb4) as (V1 & V2 & _).
    destruct (third (code b) 0 Hb ltac:(lia)) as (V3 & _).
    rewrite N.lor_0_r in V3. cbn [b64encode]. auto.
  - pose proof (code_lt_256 a) as Ha. pose proof (code_lt_256 b) as Hb.
    pose proof (code_lt_256 c) as Hc.
    destruct (fourth (code b) Hb) as (_ & _ & Hb4 & _).
    destruct (fourth (code c) Hc) as (V4 & _ & _ & Hc6).
    destruct (first_two (code a) (N.shiftr (code b) 4) Ha Hb4) as (V1 & V2 & _).
    destruct (third (code b) (N.shiftr (code c) 6) Hb Hc6) as (V3 & _).
    cbn [b64encode]. auto.
Qed.

(** [b64decode(b64encode(s)) == s] for every byte string. *)
Theorem b64decode_b64encode (s : string) : b64decode (b64encode s) = Some s.
Proof.
  unfold b64decode. rewrite b64encode_is_ascii. apply b64decode_b64encode_raw.
Qed.

End Base64Facts.

(* ===================================================================== *)
(** * json: reading back what was written *)
(* ===================================================================== *)

Section JsonTextFacts.

Import Plain.

Local Open Scope N_scope.

Lemma utf8_decode_ascii (s : string) :
  Base64.is_ascii s = true -> Utf8.decode s = Some s.
Proof.
  induction s as [|c r IH]; simpl; [reflexivity|].
  intros H. apply andb_prop in H. destruct H as (Hc & Hr).
  unfold Utf8.code. unfold Base64.code in Hc. rewrite Hc, (IH Hr). reflexivity.
Qed.

Lemma plain_char_bounds (c : ascii) :
  plain_char c = true ->
  32 <= N_of_ascii c <= 126 /\ N_of_ascii c <> 34 /\ N_of_ascii c <> 92.
Proof.
  unfold plain_char. intros H.
  repeat (apply andb_prop in H; destruct H as (H & ?)).
  apply N.leb_le in H. apply N.leb_le in H2.
  apply negb_true_iff in H0, H1. apply N.eqb_neq in H0, H1. auto.
Qed.

Lemma plain_string_ascii (s : string) :
  plain_string s = true -> Base64.is_ascii s = true.
Proof.
  induction s as [|c r IH]; simpl; [reflexivity|].
  intros H. apply andb_prop in H. destruct H as (Hc & Hr).
  rewrite (IH Hr), andb_true_r. apply N.ltb_lt.
  destruct (plain_char_bounds c Hc) as (B & _). unfold Base64.code. lia.
Qed.

Lemma codepoints_plain (s : string) :
  plain_string s = true ->
  Utf8.codepoints s = map N_of_ascii (list_ascii_of_string s).
Proof.
  induction s as [|c r IH]; simpl; [reflexivity|].
  intros H. apply andb_prop in H. destruct H as (Hc & Hr).
  destruct (plain_char_bounds c Hc) as (B & _).
  unfold Utf8.code.
  assert (L : (N_of_ascii c <? 192) = true) by (apply N.ltb_lt; lia).
  rewrite L, (IH Hr). reflexivity.
Qed.

Lemma escape_plain (c : ascii) :
  plain_char c = true -> Json.escape_char (N_of_ascii c) = String c EmptyString.
Proof.
  intros H. destruct (plain_char_bounds c H) as (B & N34 & N92).
  unfold Json.escape_char.
  repeat match goal with
         | |- context [(N_of_ascii c =? ?k)] =>
             destruct (N.eqb_spec (N_of_ascii c) k); [lia|]
         end.
  assert (L : ((32 <=? N_of_ascii c) && (N_of_ascii c <=? 126))%bool = true).
  { apply andb_true_intro. split; apply N.leb_le; lia. }
  rewrite L. unfold Json.chr. now rewrite ascii_N_embedding.
Qed.

(** A plain string is written between two quotes, unchanged. *)
Lemma encode_plain (s : string) :
  plain_string s = true ->
  Json.encode_basestring_ascii s = String Json.quote (s ++ String Json.quote EmptyString).
Proof.
  intros H. unfold Json.encode_basestring_ascii. f_equal.
  rewrite (codepoints_plain s H). clear -H.
  induction s as [|c r IH]; simpl; [reflexivity|].
  simpl in H. apply andb_prop in H. destruct H as (Hc & Hr).
  rewrite (escape_plain c Hc), (IH Hr). reflexivity.
Qed.

(** ... and read back up to the closing quote. *)
Lemma scanstring_plain (s rest : string) :
  plain_string s = true ->
  Json.scanstring (s ++ String Json.quote rest) = Some (s, rest).
Proof.
  induction s as [|c r IH]; intros H.
  - reflexivity.
  - simpl in H. apply andb_prop in H. destruct H as (Hc & Hr).
    destruct (plain_char_bounds c Hc) as (B & N34 & N92).
    cbn [append Json.scanstring]. unfold Json.code.
    destruct (N.eqb_spec (N_of_ascii c) 34); [lia|].
    destruct (N.eqb_spec (N_of_ascii c) 92); [lia|].
    destruct (N.ltb_spec (N_of_ascii c) 32); [lia|].
    rewrite (IH Hr). reflexivity.
Qed.

Lemma is_ascii_app (a b : string) :
  Base64.is_ascii (a ++ b) = (Base64.is_ascii a && Base64.is_ascii b)%bool.
Proof.
  induction a as [|c r IH]; simpl; [reflexivity|]. now rewrite IH, andb_assoc.
Qed.

Lemma string_length_app (a b : string) :
  String.length (a ++ b) = (String.length a + String.length b)%nat.
Proof.
  induction a as [|c r IH]; simpl; [reflexivity|]. now rewrite IH.
Qed.

Lemma string_app_assoc (a b c : string) : ((a ++ b) ++ c = a ++ (b ++ c))%string.
Proof.
  induction a as [|x r IH]; simpl; [reflexivity|]. now rewrite IH.
Qed.

End JsonTextFacts.

Section JsonNumberFacts.

Import Plain.

Local Open Scope Z_scope.

Lemma span_digits_app (s rest : string) :
  match rest with
  | EmptyString => True
  | String c _ => Json.is_digit c = false
  end ->
  Json.span_digits (s ++ rest)
  = (fst (Json.span_digits s), (snd (Json.span_digits s) ++ rest)%string).
Proof.
  intros H. induction s as [|c r IH]; simpl.
  - destruct rest as [|c r]; [reflexivity|]. simpl. now rewrite H.
  - destruct (Json.is_digit c); [|reflexivity].
    rewrite IH. destruct (Json.span_digits r). reflexivity.
Qed.

Lemma number_end_nondigit (rest : string) :
  number_end rest = true ->
  match rest with
  | EmptyString => True
  | String c _ => Json.is_digit c = false
  end.
Proof.
  destruct rest as [|c r]; [trivial|]. simpl. intros H.
  apply negb_true_iff in H. repeat (apply orb_false_elim in H; destruct H as (H & ?)).
  exact H.
Qed.

Lemma number_end_chars (c : ascii) (r : string) :
  number_end (String c r) = true ->
  Json.is_digit c = false /\ Ascii.eqb c "."%char = false /\
  Ascii.eqb c "e"%char = false /\ Ascii.eqb c "E"%char = false /\
  Ascii.eqb c "+"%char = false /\ Ascii.eqb c "-"%char = false.
Proof.
  simpl. intros H.
  apply negb_true_iff in H. repeat (apply orb_false_elim in H; destruct H as (H & ?)).
  auto 10.
Qed.

Lemma delimited_number_end (rest : string) : delimited rest = true -> number_end rest = true.
Proof.
  destruct rest as [|c r]; [reflexivity|]. simpl. intros H.
  repeat (apply orb_prop in H; destruct H as [H|H]);
    apply Ascii.eqb_eq in H; subst c; reflexivity.
Qed.

Lemma number_sign_app (s rest : string) :
  number_end rest = true ->
  Json.number_sign (s ++ rest)
  = (fst (Json.number_sign s), (snd (Json.number_sign s) ++ rest)%string).
Proof.
  intros H. destruct s as [|c r]; simpl.
  - destruct rest as [|c r]; [reflexivity|].
    destruct (number_end_chars c r H) as (_ & _ & _ & _ & _ & E).
    simpl. now rewrite E.
  - destruct (Ascii.eqb c "-"); reflexivity.
Qed.

Lemma number_integer_app (s rest : string) :
  number_end rest = true ->
  Json.number_integer (s ++ rest)
  = match Json.number_integer s with
    | Some (ipart, s2) => Some (ipart, (s2 ++ rest)%string)
    | None => None
    end.
Proof.
  intros H. pose proof (number_end_nondigit rest H) as Hd.
  destruct s as [|c r]; simpl.
  - destruct rest as [|c r]; [reflexivity|]. simpl. rewrite Hd.
    destruct (Ascii.eqb_spec c "0"); [|reflexivity].
    subst c. discriminate Hd.
  - destruct (Ascii.eqb c "0"); [reflexivity|].
    destruct (Json.is_digit c); [|reflexivity].
    rewrite (span_digits_app r rest Hd). destruct (Json.span_digits r). reflexivity.
Qed.

Lemma number_fraction_app (s rest : string) :
  number_end rest = true ->
  Json.number_fraction (s ++ rest)
  = (fst (Json.number_fraction s), (snd (Json.number_fraction s) ++ rest)%string).
Proof.
  intros H. pose proof (number_end_nondigit rest H) as Hd.
  destruct s as [|x [|y r]]; simpl.
  - destruct rest as [|c [|c' r']]; try reflexivity.
    destruct (number_end_chars c _ H) as (_ & E & _). simpl. rewrite E. reflexivity.
  - destruct rest as [|c r']; [reflexivity|]. simpl. simpl in Hd. rewrite Hd.
    rewrite andb_false_r. reflexivity.
  - destruct (Ascii.eqb x "." && Json.is_digit y); [|reflexivity].
    rewrite (span_digits_app r rest Hd). destruct (Json.span_digits r). reflexivity.
Qed.

Lemma number_exponent_app (s rest : string) :
  number_end rest = true ->
  Json.number_exponent (s ++ rest)
  = (fst (Json.number_exponent s), (snd (Json.number_exponent s) ++ rest)%string).
Proof.
  intros H. pose proof (number_end_nondigit rest H) as Hd.
  assert (Hrest : Json.span_digits rest = (EmptyString, rest)).
  { destruct rest as [|c r]; [reflexivity|]. simpl. simpl in Hd. now rewrite Hd. }
  destruct s as [|e r]; simpl.
  - destruct rest as [|c r']; [reflexivity|].
    destruct (number_end_chars c _ H) as (_ & _ & E1 & E2 & _). simpl.
    rewrite E1, E2. reflexivity.
  - destruct (Ascii.eqb e "e" || Ascii.eqb e "E"); [|reflexivity].
    destruct r as [|sg r0]; simpl.
    + destruct rest as [|c r']; [reflexivity|].
      destruct (number_end_chars c _ H) as (_ & _ & _ & _ & E5 & E6). simpl.
      rewrite E5, E6. rewrite Hrest. reflexivity.
    + destruct (Ascii.eqb sg "-").
      * rewrite (span_digits_app r0 rest Hd).
        destruct (Json.span_digits r0) as [[|d ds] rem]; reflexivity.
      * destruct (Ascii.eqb sg "+").
        -- rewrite (span_digits_app r0 rest Hd).
           destruct (Json.span_digits r0) as [[|d ds] rem]; reflexivity.
        -- change (String sg (r0 ++ rest)) with (String sg r0 ++ rest)%string.
           rewrite (span_digits_app (String sg r0) rest Hd).
           destruct (Json.span_digits (String sg r0)) as [[|d ds] rem]; reflexivity.
Qed.

(** A number followed by text that cannot continue it is read the
    same way. *)
Lemma match_number_app (s rest : string) :
  number_end rest = true ->
  Json.match_number (s ++ rest)
  = match Json.match_number s with
    | Some (v, s') => Some (v, (s' ++ rest)%string)
    | None => None
    end.
Proof.
  intros H. unfold Json.match_number.
  rewrite (number_sign_app s rest H). destruct (Json.number_sign s) as [neg s1].
  cbn [fst snd]. rewrite (number_integer_app s1 rest H).
  destruct (Json.number_integer s1) as [[ipart s2]|]; [|reflexivity].
  rewrite (number_fraction_app s2 rest H). destruct (Json.number_fraction s2) as [frac s3].
  cbn [fst snd]. rewrite (number_exponent_app s3 rest H).
  destruct (Json.number_exponent s3) as [exponent s4]. cbn [fst snd].
  destruct frac, exponent; reflexivity.
Qed.

Lemma is_digit_zero : Json.is_digit "0" = true.
Proof. reflexivity. Qed.

Lemma match_number_head (s : string) (r : pyval * string) :
  Json.match_number s = Some r -> number_head s.
Proof.
  unfold Json.match_number, Json.number_sign.
  destruct s as [|c s1]; [discriminate|].
  destruct (Ascii.eqb_spec c "-") as [->|Hc].
  - destruct s1 as [|d s2]; [discriminate|]. simpl.
    destruct (Ascii.eqb_spec d "0") as [->|Hd].
    + intros _. right. split; reflexivity.
    + destruct (Json.is_digit d) eqn:E; [|discriminate]. intros _. right. auto.
  - simpl. destruct (Ascii.eqb_spec c "0") as [->|Hd].
    + intros _. now left.
    + destruct (Json.is_digit c) eqn:E; [|discriminate]. intros _. now left.
Qed.

Lemma digit_not (c x : ascii) : Json.is_digit c = true -> Json.is_digit x = false -> c <> x.
Proof. intros H1 H2 ->. congruence. Qed.

Lemma scan_once_number (fuel : nat) (s : string) :
  number_head s -> Json.scan_once (S fuel) s = Json.match_number s.
Proof.
  destruct s as [|c r]; [intros []|]. intros H. cbn [Json.scan_once].
  assert (Hc : Json.is_digit c = true \/ c = "-"%char) by (destruct H as [H|(H & _)]; auto).
  assert (Q : (Json.code c =? 34)%N = false).
  { destruct Hc as [Hc| ->]; [|reflexivity].
    unfold Json.is_digit in Hc. apply andb_prop in Hc. destruct Hc as (L & _).
    apply N.leb_le in L. apply N.eqb_neq. lia. }
  rewrite Q.
  assert (Hne : forall x, Json.is_digit x = false -> x <> "-"%char -> Ascii.eqb c x = false).
  { intros x Hx Hm. apply Ascii.eqb_neq. destruct Hc as [Hc| ->].
    - now apply digit_not.
    - congruence. }
  rewrite (Hne "{"%char), (Hne "["%char) by (reflexivity || discriminate).
  assert (Hp : forall x lit, Json.is_digit x = false -> x <> "-"%char ->
                 Json.strip_prefix (String x lit) (String c r) = None).
  { intros x lit Hx Hm. cbn [Json.strip_prefix].
    rewrite Ascii.eqb_sym. now rewrite (Hne x Hx Hm). }
  change "null"%string with (String "n" "ull").
  change "true"%string with (String "t" "rue").
  change "false"%string with (String "f" "alse").
  change "NaN"%string with (String "N" "aN").
  change "Infinity"%string with (String "I" "nfinity").
  rewrite !Hp by (reflexivity || discriminate).
  assert (Hinf : Json.strip_prefix "-Infinity" (String c r) = None).
  { destruct H as [H|(-> & H)].
    - cbn [Json.strip_prefix]. destruct (Ascii.eqb_spec "-" c) as [<-|]; [discriminate H|].
      reflexivity.
    - destruct r as [|d r']; [destruct H|].
      change "-Infinity"%string with (String "-" (String "I" "nfinity")).
      cbn [Json.strip_prefix]. rewrite Ascii.eqb_refl.
      destruct (Ascii.eqb_spec "I" d) as [<-|]; [discriminate H | reflexivity]. }
  rewrite Hinf. reflexivity.
Qed.

(** ** Integers *)

Lemma digits_of_uint (u : Decimal.uint) (acc : Z) :
  Json.span_digits (NilEmpty.string_of_uint u) = (NilEmpty.string_of_uint u, EmptyString) /\
  Json.digits_value acc (NilEmpty.string_of_uint u) = uint_value acc u.
Proof.
  revert acc. induction u; intros acc; simpl;
    try (destruct (IHu acc) as (IH1 & _); rewrite IH1);
    try (split; [reflexivity | apply IHu]).
  split; reflexivity.
Qed.

Lemma uint_value_of_lu (u : Decimal.uint) (acc : Z) :
  0 <= acc ->
  uint_value acc u
  = Z.of_N (DecimalPos.Unsigned.of_lu (Decimal.rev u))
    + acc * 10 ^ Z.of_N (DecimalPos.Unsigned.usize u).
Proof.
  revert acc.
  induction u; intros acc Hacc; cbn [uint_value];
    [ cbn; ring | .. ];
    unfold Decimal.rev at 1; cbn [Decimal.revapp];
    rewrite DecimalPos.Unsigned.of_lu_revapp;
    rewrite IHu by lia;
    cbn [DecimalPos.Unsigned.usize DecimalPos.Unsigned.of_lu];
    rewrite N2Z.inj_succ, Z.pow_succ_r by lia;
    rewrite N2Z.inj_add, ?N2Z.inj_mul, N2Z.inj_pow; simpl Z.of_N; ring.
Qed.

Lemma uint_value_to_uint (p : positive) : uint_value 0 (Pos.to_uint p) = Z.pos p.
Proof.
  rewrite uint_value_of_lu by lia.
  rewrite <- DecimalPos.Unsigned.of_uint_alt, DecimalPos.Unsigned.of_to. simpl. lia.
Qed.

Lemma nzhead_shape (u : Decimal.uint) :
  Decimal.nzhead u = Decimal.Nil \/ leading_nonzero (Decimal.nzhead u).
Proof.
  induction u; simpl; auto.
Qed.

Lemma to_uint_leading (p : positive) : leading_nonzero (Pos.to_uint p).
Proof.
  pose proof (DecimalPos.Unsigned.to_of (Pos.to_uint p)) as H.
  rewrite DecimalPos.Unsigned.of_to in H. simpl N.to_uint in H.
  pose proof (uint_value_to_uint p) as V.
  unfold Decimal.unorm in H.
  destruct (nzhead_shape (Pos.to_uint p)) as [E|L].
  - rewrite E in H. rewrite H in V. discriminate V.
  - destruct (Decimal.nzhead (Pos.to_uint p)) eqn:E; try contradiction;
      rewrite H; exact I.
Qed.

Lemma string_of_leading (u : Decimal.uint) :
  leading_nonzero u ->
  exists c r, NilEmpty.string_of_uint u = String c r /\
              Json.is_digit c = true /\ Ascii.eqb c "0" = false /\
              Ascii.eqb c "-" = false.
Proof.
  destruct u; simpl; try contradiction; intros _;
    eexists; eexists; (split; [reflexivity|]); repeat split.
Qed.

(** [int(repr(n)) == n], as the decoder reads it. *)
Lemma match_number_int (n : Z) :
  Json.match_number (Json.int_repr n) = Some (PInt n, EmptyString).
Proof.
  assert (Hpos : forall p,
            Json.number_integer (NilEmpty.string_of_uint (Pos.to_uint p))
            = Some (NilEmpty.string_of_uint (Pos.to_uint p), EmptyString) /\
            Json.number_sign (NilEmpty.string_of_uint (Pos.to_uint p))
            = (false, NilEmpty.string_of_uint (Pos.to_uint p))).
  { intros p.
    destruct (string_of_leading _ (to_uint_leading p)) as (c & r & E & D & Z0 & M).
    destruct (digits_of_uint (Pos.to_uint p) 0) as (Hs & _).
    rewrite E in *. unfold Json.number_integer, Json.number_sign. rewrite Z0, D, M.
    cbn [Json.span_digits] in Hs. rewrite D in Hs.
    destruct (Json.span_digits r) as [ds rest]. inversion Hs; subst. auto. }
  destruct n as [|p|p].
  - reflexivity.
  - unfold Json.match_number, Json.int_repr.
    destruct (Hpos p) as (Hi & Hs). rewrite Hs, Hi. cbn.
    destruct (digits_of_uint (Pos.to_uint p) 0) as (_ & Hv).
    rewrite Hv, uint_value_to_uint. reflexivity.
  - unfold Json.match_number, Json.int_repr.
    cbn [Json.number_sign]. rewrite Ascii.eqb_refl.
    destruct (Hpos p) as (Hi & _). rewrite Hi. cbn.
    destruct (digits_of_uint (Pos.to_uint p) 0) as (_ & Hv).
    rewrite Hv, uint_value_to_uint. reflexivity.
Qed.

Lemma int_repr_ascii (n : Z) : Base64.is_ascii (Json.int_repr n) = true.
Proof.
  assert (H : forall u, Base64.is_ascii (NilEmpty.string_of_uint u) = true)
    by (induction u; simpl; auto).
  destruct n; simpl; auto.
Qed.

End JsonNumberFacts.

Section JsonValueFacts.

Import Plain.

Local Open Scope nat_scope.

Variable float_repr : Float64.float -> string.

Local Abbreviation dumps := (Json.dumps float_repr).
Local Abbreviation dump_tail := (dump_tail float_repr).
Local Abbreviation dump_items_tail := (dump_items_tail float_repr).
Local Abbreviation plain := (plain float_repr).

Lemma dumps_list (x : pyval) (r : list pyval) :
  dumps (PList (x :: r)) = String "[" (dumps x ++ dump_tail r).
Proof.
  reflexivity.
Qed.

Lemma dumps_tuple (x : pyval) (r : list pyval) :
  dumps (PTuple (x :: r)) = String "[" (dumps x ++ dump_tail r).
Proof. exact (dumps_list x r). Qed.

Lemma dumps_dict (k : string) (x : pyval) (r : list (string * pyval)) :
  dumps (PDict ((k, x) :: r))
  = String "{" (Json.encode_basestring_ascii k ++
                String ":" (dumps x ++ dump_items_tail r)).
Proof.
  reflexivity.
Qed.

Lemma float_same_eq (a b : Float64.float) : float_same a b = true -> a = b.
Proof.
  destruct a as [s|s| |s m e], b as [t|t| |t n f]; simpl; try discriminate;
    try reflexivity.
  - intros H. apply Bool.eqb_prop in H. now subst.
  - intros H. apply Bool.eqb_prop in H. now subst.
  - intros H. apply andb_prop in H. destruct H as (H & He).
    apply andb_prop in H. destruct H as (Hs & Hm).
    apply Bool.eqb_prop in Hs. apply Pos.eqb_eq in Hm. apply Z.eqb_eq in He. now subst.
Qed.

Lemma number_head_app (s rest : string) : number_head s -> number_head (s ++ rest).
Proof.
  destruct s as [|c [|d r]]; simpl; tauto.
Qed.

Lemma number_head_good (s : string) : number_head s -> good_head s.
Proof.
  destruct s as [|c r]; simpl; [tauto|].
  intros [H|(-> & _)]; [|repeat split].
  unfold Json.is_digit in H. apply andb_prop in H. destruct H as (L & U).
  apply N.leb_le in L, U. fold (Json.code c) in *.
  repeat split.
  - unfold Json.is_ws.
    repeat match goal with
           | |- context [(Json.code c =? ?k)%N] =>
               destruct (N.eqb_spec (Json.code c) k); [lia|]
           end. reflexivity.
  - apply Ascii.eqb_neq. intros ->. cbv in U. now apply U.
  - apply Ascii.eqb_neq. intros ->. cbv in U. now apply U.
Qed.

(** A number written before a delimiter is read back by [scan_once]. *)
Lemma scan_once_number_token (s : string) (v : pyval) (fuel : nat) (rest : string) :
  Json.match_number s = Some (v, EmptyString) ->
  delimited rest = true ->
  Json.scan_once (S fuel) (s ++ rest) = Some (v, rest).
Proof.
  intros Hm Hd.
  pose proof (match_number_head s _ Hm) as Hh.
  rewrite scan_once_number by (now apply number_head_app).
  rewrite match_number_app by (now apply delimited_number_end).
  rewrite Hm. reflexivity.
Qed.

Lemma scan_once_string (s : string) (fuel : nat) (rest : string) :
  plain_string s = true ->
  Json.scan_once (S fuel) (Json.encode_basestring_ascii s ++ rest) = Some (PStr s, rest).
Proof.
  intros H. rewrite (encode_plain s H). cbn [append Json.scan_once].
  change (Json.code Json.quote =? 34)%N with true. cbv iota.
  rewrite string_app_assoc. cbn [append]. rewrite (scanstring_plain s rest H). reflexivity.
Qed.

Local Abbreviation reads_back := (reads_back float_repr).

Lemma pyval_nested_ind (P : pyval -> Prop) :
  P PNone ->
  (forall b, P (PBool b)) ->
  (forall n, P (PInt n)) ->
  (forall f, P (PFloat f)) ->
  (forall s, P (PStr s)) ->
  (forall l, Forall P l -> P (PList l)) ->
  (forall l, Forall P l -> P (PTuple l)) ->
  (forall d, Forall (fun kv => P (snd kv)) d -> P (PDict d)) ->
  forall v, P v.
Proof.
  intros HN HB HI HF HS HL HT HD.
  refine (fix go (v : pyval) : P v :=
            match v with
            | PNone => HN
            | PBool b => HB b
            | PInt n => HI n
            | PFloat f => HF f
            | PStr s => HS s
            | PList l =>
                HL l ((fix all (l : list pyval) : Forall P l :=
                         match l with
                         | [] => Forall_nil P
                         | x :: r => Forall_cons x (go x) (all r)
                         end) l)
            | PTuple l =>
                HT l ((fix all (l : list pyval) : Forall P l :=
                         match l with
                         | [] => Forall_nil P
                         | x :: r => Forall_cons x (go x) (all r)
                         end) l)
            | PDict d =>
                HD d ((fix all (d : list (string * pyval))
                         : Forall (fun kv => P (snd kv)) d :=
                         match d with
                         | [] => Forall_nil _
                         | kv :: r => Forall_cons kv (go (snd kv)) (all r)
                         end) d)
            end).
Qed.

Lemma fuel_succ (n fuel : nat) : S n <= fuel -> exists f, fuel = S f /\ n <= f.
Proof. intros H. destruct fuel as [|f]; [lia|]. exists f. split; [reflexivity | lia]. Qed.

Lemma good_head_length (s : string) : good_head s -> 1 <= String.length s.
Proof. destruct s; simpl; [tauto | lia]. Qed.

Lemma reads_back_none : reads_back PNone.
Proof.
  intros _. repeat split; try reflexivity; try (simpl; lia).
  intros fuel rest Hf _. destruct (fuel_succ 0 fuel Hf) as (f & -> & _). reflexivity.
Qed.

Lemma reads_back_bool (b : bool) : reads_back (PBool b).
Proof.
  intros _. destruct b; (repeat split; try reflexivity; try (simpl; lia));
    intros fuel rest Hf _; destruct (fuel_succ 0 fuel Hf) as (f & -> & _); reflexivity.
Qed.

Lemma reads_back_number (text : string) (v : pyval) :
  Base64.is_ascii text = true ->
  Json.match_number text = Some (v, EmptyString) ->
  good_head text /\
  Base64.is_ascii text = true /\
  1 <= String.length text /\
  forall fuel rest,
    1 <= fuel -> delimited rest = true ->
    Json.scan_once fuel (text ++ rest) = Some (v, rest).
Proof.
  intros Ha Hm.
  assert (Hg : good_head text)
    by (apply number_head_good; eapply match_number_head; exact Hm).
  repeat split; try assumption; try (destruct Hg as (? & ? & ?); assumption).
  - now apply good_head_length.
  - intros fuel rest Hf Hd. destruct (fuel_succ 0 fuel Hf) as (f & -> & _).
    now apply scan_once_number_token.
Qed.

Lemma reads_back_int (n : Z) : reads_back (PInt n).
Proof.
  intros _. apply (reads_back_number (Json.int_repr n) (PInt n)).
  - apply int_repr_ascii.
  - apply match_number_int.
Qed.

Lemma reads_back_float (f : Float64.float) : reads_back (PFloat f).
Proof.
  intros Hp. cbn [Plain.plain] in Hp. unfold Plain.reads_back. cbn [Json.dumps jsonify cost].
  assert (Hconst : forall text : string,
             good_head text -> Base64.is_ascii text = true ->
             (forall f0 rest, Json.scan_once (S f0) (text ++ rest) = Some (PFloat f, rest)) ->
             good_head text /\ Base64.is_ascii text = true /\
             1 <= String.length text /\
             forall fuel rest, 1 <= fuel -> delimited rest = true ->
               Json.scan_once fuel (text ++ rest) = Some (PFloat f, rest)).
  { intros text Hg Ha Hs. repeat split; try assumption;
      try (destruct Hg as (? & ? & ?); assumption).
    - now apply good_head_length.
    - intros fuel rest Hf _. destruct (fuel_succ 0 fuel Hf) as (f0 & -> & _). apply Hs. }
  assert (Hnum : repr_round_trips float_repr f = true ->
                 Base64.is_ascii (float_repr f) = true /\
                 Json.match_number (float_repr f) = Some (PFloat f, EmptyString) ->
                 good_head (float_repr f) /\ Base64.is_ascii (float_repr f) = true /\
                 1 <= String.length (float_repr f) /\
                 forall fuel rest, 1 <= fuel -> delimited rest = true ->
                   Json.scan_once fuel (float_repr f ++ rest) = Some (PFloat f, rest)).
  { intros _ (Ha & Hm). now apply reads_back_number. }
  assert (Hrt : forall s0, f = S754_zero s0 \/ (exists s m e, f = S754_finite s m e) ->
                 Base64.is_ascii (float_repr f) = true /\
                 Json.match_number (float_repr f) = Some (PFloat f, EmptyString)).
  { intros s0 Hf. unfold repr_round_trips in Hp.
    assert (Hp' : (Base64.is_ascii (float_repr f) &&
                   match Json.match_number (float_repr f) with
                   | Some (PFloat g, EmptyString) => float_same f g
                   | _ => false
                   end)%bool = true)
      by (destruct Hf as [->|(s & m & e & ->)]; exact Hp).
    apply andb_prop in Hp'. destruct Hp' as (Ha & Hm). split; [exact Ha|].
    destruct (Json.match_number (float_repr f)) as [[[ | | |g| | | | ] [|? ?]]|];
      try discriminate.
    apply float_same_eq in Hm. now subst g. }
  destruct f as [s|[|]| |s m e]; unfold Json.floatstr.
  - apply (Hnum Hp). apply (Hrt s). now left.
  - apply Hconst; [repeat split | reflexivity | reflexivity].
  - apply Hconst; [repeat split | reflexivity | reflexivity].
  - apply Hconst; [repeat split | reflexivity | reflexivity].
  - apply (Hnum Hp). apply (Hrt s). right. eauto.
Qed.

Lemma reads_back_str (s : string) : reads_back (PStr s).
Proof.
  intros Hp. cbn [Plain.plain] in Hp. cbn [Json.dumps jsonify cost].
  pose proof (encode_plain s Hp) as E.
  split; [rewrite E; repeat split|]. split; [|split].
  - rewrite E. cbn [Base64.is_ascii]. rewrite is_ascii_app.
    rewrite (plain_string_ascii s Hp). reflexivity.
  - rewrite E. simpl. lia.
  - intros fuel rest Hf _. destruct (fuel_succ 0 fuel Hf) as (f & -> & _).
    now apply scan_once_string.
Qed.

Lemma skip_ws_good (s : string) : good_head s -> Json.skip_ws s = s.
Proof.
  destruct s as [|c r]; simpl; [tauto|]. intros (H & _). now rewrite H.
Qed.

Lemma good_head_app (s rest : string) : good_head s -> good_head (s ++ rest).
Proof. destruct s; simpl; tauto. Qed.

Lemma dump_tail_delimited (r : list pyval) (rest : string) :
  delimited (dump_tail r ++ rest) = true.
Proof. destruct r; reflexivity. Qed.

(** The elements of a non-empty array, from the start of an element. *)
Lemma parse_array_items (r : list pyval) :
  forall x acc fuel rest,
    Forall reads_back (x :: r) ->
    forallb plain (x :: r) = true ->
    items_cost (fun v => v) (x :: r) <= fuel ->
    delimited rest = true ->
    Json.parse_array fuel ((dumps x ++ dump_tail r) ++ rest) acc
    = Some (PList (acc ++ map jsonify (x :: r)), rest) /\
    Base64.is_ascii (dumps x ++ dump_tail r) = true /\
    items_cost (fun v => v) (x :: r) <= String.length (dumps x ++ dump_tail r).
Proof.
  induction r as [|y r IH]; intros x acc fuel rest Hall Hplain Hfuel Hd.
  - inversion Hall as [|? ? Hx _]; subst.
    cbn [forallb] in Hplain. rewrite andb_true_r in Hplain.
    destruct (Hx Hplain) as (Hg & Ha & Hc & Hs).
    unfold items_cost in *. cbn [fold_right] in *.
    destruct (fuel_succ _ _ Hfuel) as (f & -> & Hf).
    split; [|split].
    + cbn [Json.parse_array]. rewrite string_app_assoc.
      rewrite (Hs f _ ltac:(lia) (dump_tail_delimited [] rest)).
      reflexivity.
    + rewrite is_ascii_app, Ha. reflexivity.
    + rewrite string_length_app. simpl. lia.
  - inversion Hall as [|? ? Hx Hall']; subst.
    cbn [forallb] in Hplain. apply andb_prop in Hplain. destruct Hplain as (Hpx & Hpr).
    destruct (Hx Hpx) as (Hg & Ha & Hc & Hs).
    assert (Hcost : items_cost (fun v => v) (x :: y :: r)
                    = S (cost x + items_cost (fun v => v) (y :: r))) by reflexivity.
    rewrite Hcost in *.
    destruct (fuel_succ _ _ Hfuel) as (f & -> & Hf).
    destruct (IH y (acc ++ [jsonify x]) f rest Hall' Hpr ltac:(lia) Hd) as (IH1 & IH2 & IH3).
    inversion Hall' as [|? ? Hy _]; subst.
    assert (Hgy : good_head (dumps y)).
    { cbn [forallb] in Hpr. apply andb_prop in Hpr. destruct Hpr as (Hpy & _).
      now destruct (Hy Hpy). }
    split; [|split].
    + cbn [Json.parse_array]. rewrite string_app_assoc.
      rewrite (Hs f _ ltac:(lia) (dump_tail_delimited (y :: r) rest)).
      cbn [Plain.dump_tail append Json.skip_ws].
      change (Json.is_ws ",") with false. cbv iota.
      change (Ascii.eqb "," "]") with false. change (Ascii.eqb "," ",") with true. cbv iota.
      rewrite skip_ws_good by (now apply good_head_app, good_head_app).
      rewrite IH1. rewrite <- List.app_assoc. reflexivity.
    + rewrite is_ascii_app, Ha. cbn [Plain.dump_tail Base64.is_ascii]. rewrite IH2. reflexivity.
    + rewrite string_length_app. cbn [Plain.dump_tail String.length]. lia.
Qed.

Lemma setitem_fresh (acc : list (string * pyval)) (k : string) (v : pyval) :
  ~ In k (map fst acc) -> Py.setitem acc k v = acc ++ [(k, v)].
Proof.
  induction acc as [|[k0 w] acc IH]; simpl; intros H; [reflexivity|].
  destruct (String.eqb_spec k0 k) as [->|_]; [exfalso; apply H; now left|].
  rewrite IH; [reflexivity|]. intros Hin. apply H. now right.
Qed.

Lemma distinct_NoDup (l : list string) : distinct l = true -> NoDup l.
Proof.
  induction l as [|k r IH]; simpl; intros H; constructor.
  - apply andb_prop in H. destruct H as (H & _). apply negb_true_iff in H.
    intros Hin. assert (E : existsb (String.eqb k) r = true).
    { apply existsb_exists. exists k. split; [assumption | apply String.eqb_refl]. }
    congruence.
  - apply andb_prop in H. destruct H as (_ & H). now apply IH.
Qed.

Lemma quoted_app (k rest : string) :
  plain_string k = true ->
  (Json.encode_basestring_ascii k ++ rest)%string
  = String Json.quote (k ++ String Json.quote rest).
Proof.
  intros H. rewrite (encode_plain k H). cbn [append]. now rewrite string_app_assoc.
Qed.

Lemma dump_items_tail_delimited (r : list (string * pyval)) (rest : string) :
  delimited (dump_items_tail r ++ rest) = true.
Proof. destruct r as [|[k y] r]; reflexivity. Qed.

Lemma quoted_good (k rest : string) :
  plain_string k = true -> good_head (Json.encode_basestring_ascii k ++ rest).
Proof. intros H. rewrite (quoted_app k rest H). repeat split. Qed.

(** The items of a non-empty object, from the start of a key. *)
Lemma parse_object_items (r : list (string * pyval)) :
  forall k x acc fuel rest,
    Forall (fun kv => reads_back (snd kv)) ((k, x) :: r) ->
    forallb (fun kv => plain_string (fst kv) && plain (snd kv)) ((k, x) :: r) = true ->
    NoDup (map fst acc ++ map fst ((k, x) :: r)) ->
    items_cost snd ((k, x) :: r) <= fuel ->
    delimited rest = true ->
    Json.parse_object fuel
      ((Json.encode_basestring_ascii k ++ String ":" (dumps x ++ dump_items_tail r)) ++ rest)
      acc
    = Some (PDict (acc ++ map (fun kv => (fst kv, jsonify (snd kv))) ((k, x) :: r)), rest) /\
    Base64.is_ascii
      (Json.encode_basestring_ascii k ++ String ":" (dumps x ++ dump_items_tail r)) = true /\
    items_cost snd ((k, x) :: r)
    <= String.length
         (Json.encode_basestring_ascii k ++ String ":" (dumps x ++ dump_items_tail r)).
Proof.
  induction r as [|[k' y] r IH]; intros k x acc fuel rest Hall Hplain Hnd Hfuel Hd.
  - inversion Hall as [|? ? Hx _]; subst. cbn [snd] in Hx.
    cbn [forallb fst snd] in Hplain. rewrite andb_true_r in Hplain.
    apply andb_prop in Hplain. destruct Hplain as (Hk & Hpx).
    destruct (Hx Hpx) as (Hg & Ha & Hc & Hs).
    unfold items_cost in *. cbn [fold_right snd] in *.
    destruct (fuel_succ _ _ Hfuel) as (f & -> & Hf).
    assert (Hfresh : ~ In k (map fst acc)).
    { intros Hin. apply NoDup_remove_2 in Hnd. apply Hnd.
      apply in_or_app. left. exact Hin. }
    split; [|split].
    + rewrite string_app_assoc. rewrite (quoted_app k _ Hk).
      cbn [Json.parse_object]. change (Json.code Json.quote =? 34)%N with true. cbv iota.
      rewrite (scanstring_plain k _ Hk). cbn [append Json.skip_ws].
      change (Json.is_ws ":") with false. cbv iota.
      change (Ascii.eqb ":" ":") with true. cbv iota.
      rewrite string_app_assoc.
      rewrite skip_ws_good by (now apply good_head_app).
      rewrite (Hs f _ ltac:(lia) (dump_items_tail_delimited [] rest)).
      cbn [Plain.dump_items_tail append Json.skip_ws].
      change (Json.is_ws "}") with false. cbv iota.
      change (Ascii.eqb "}" "}") with true. cbv iota.
      rewrite (setitem_fresh acc k _ Hfresh). reflexivity.
    + rewrite (quoted_app k _ Hk). cbn [Base64.is_ascii]. rewrite is_ascii_app.
      rewrite (plain_string_ascii k Hk). cbn [Base64.is_ascii]. rewrite is_ascii_app, Ha.
      reflexivity.
    + rewrite (quoted_app k _ Hk). cbn [String.length]. rewrite string_length_app.
      cbn [String.length]. rewrite string_length_app. simpl. lia.
  - inversion Hall as [|? ? Hx Hall']; subst. cbn [snd] in Hx.
    cbn [forallb] in Hplain. apply andb_prop in Hplain. destruct Hplain as (Hkx & Hpr).
    cbn [fst snd] in Hkx. apply andb_prop in Hkx. destruct Hkx as (Hk & Hpx).
    destruct (Hx Hpx) as (Hg & Ha & Hc & Hs).
    assert (Hcost : items_cost snd ((k, x) :: (k', y) :: r)
                    = S (cost x + items_cost snd ((k', y) :: r))) by reflexivity.
    rewrite Hcost in *.
    destruct (fuel_succ _ _ Hfuel) as (f & -> & Hf).
    assert (Hfresh : ~ In k (map fst acc)).
    { intros Hin. apply NoDup_remove_2 in Hnd. apply Hnd.
      apply in_or_app. left. exact Hin. }
    assert (Hnd' : NoDup (map fst (acc ++ [(k, jsonify x)]) ++ map fst ((k', y) :: r))).
    { rewrite map_app. cbn [map fst]. rewrite <- List.app_assoc. exact Hnd. }
    destruct (IH k' y (acc ++ [(k, jsonify x)]) f rest Hall' Hpr Hnd' ltac:(lia) Hd)
      as (IH1 & IH2 & IH3).
    assert (Hk' : plain_string k' = true).
    { cbn [forallb fst snd] in Hpr. apply andb_prop in Hpr. destruct Hpr as (Hpr & _).
      apply andb_prop in Hpr. now destruct Hpr. }
    split; [|split].
    + rewrite string_app_assoc. rewrite (quoted_app k _ Hk).
      cbn [Json.parse_object]. change (Json.code Json.quote =? 34)%N with true. cbv iota.
      rewrite (scanstring_plain k _ Hk). cbn [append Json.skip_ws].
      change (Json.is_ws ":") with false. cbv iota.
      change (Ascii.eqb ":" ":") with true. cbv iota.
      rewrite string_app_assoc.
      rewrite skip_ws_good by (now apply good_head_app).
      rewrite (Hs f _ ltac:(lia) (dump_items_tail_delimited ((k', y) :: r) rest)).
      cbn [Plain.dump_items_tail append Json.skip_ws].
      change (Json.is_ws ",") with false. cbv iota.
      change (Ascii.eqb "," "}") with false. change (Ascii.eqb "," ",") with true. cbv iota.
      rewrite skip_ws_good by (now apply good_head_app, quoted_good).
      rewrite (setitem_fresh acc k _ Hfresh). rewrite IH1.
      rewrite <- List.app_assoc. reflexivity.
    + rewrite (quoted_app k _ Hk). cbn [Base64.is_ascii]. rewrite is_ascii_app.
      rewrite (plain_string_ascii k Hk). cbn [Base64.is_ascii]. rewrite is_ascii_app, Ha.
      cbn [Plain.dump_items_tail Base64.is_ascii]. rewrite IH2. reflexivity.
    + rewrite (quoted_app k _ Hk). cbn [String.length]. rewrite string_length_app.
      cbn [String.length]. rewrite string_length_app.
      cbn [Plain.dump_items_tail String.length]. lia.
Qed.

Lemma good_head_cons (s : string) :
  good_head s ->
  exists c r, s = String c r /\ Json.is_ws c = false /\
              Ascii.eqb c "]" = false /\ Ascii.eqb c "}" = false.
Proof.
  destruct s as [|c r]; simpl; [tauto|]. intros (H1 & H2 & H3). exists c, r. auto.
Qed.

(** Every plain value is read back from its text. *)
Theorem dumps_reads_back (v : pyval) : reads_back v.
Proof.
  induction v as [ | b | n | f | s | l IH | l IH | d IH ] using pyval_nested_ind.
  - apply reads_back_none.
  - apply reads_back_bool.
  - apply reads_back_int.
  - apply reads_back_float.
  - apply reads_back_str.
  - intros Hp. cbn [Plain.plain] in Hp. destruct l as [|x r].
    + repeat split; try reflexivity; try (simpl; lia).
      intros fuel rest Hf _. destruct (fuel_succ 0 fuel Hf) as (f & -> & _). reflexivity.
    + rewrite dumps_list. split; [repeat split|]. split; [|split].
      * destruct (parse_array_items r x [] _ EmptyString IH Hp (Nat.le_refl _) eq_refl)
          as (_ & Ha & _). exact Ha.
      * destruct (parse_array_items r x [] _ EmptyString IH Hp (Nat.le_refl _) eq_refl)
          as (_ & _ & Hc). cbn [cost String.length]. apply le_n_S. exact Hc.
      * intros fuel rest Hf Hd. destruct (fuel_succ _ fuel Hf) as (f & -> & Hf').
        destruct (parse_array_items r x [] f rest IH Hp Hf' Hd) as (Hs & _).
        assert (Hg : good_head ((dumps x ++ dump_tail r) ++ rest)).
        { apply good_head_app, good_head_app.
          inversion IH as [|? ? Hx _]; subst. cbn [forallb] in Hp.
          apply andb_prop in Hp. destruct Hp as (Hpx & _). now destruct (Hx Hpx). }
        cbn [append Json.scan_once]. change (Json.code "[" =? 34)%N with false.
        change (Ascii.eqb "[" "{") with false. change (Ascii.eqb "[" "[") with true.
        cbv iota. rewrite (skip_ws_good _ Hg).
        destruct (good_head_cons _ Hg) as (c & r' & E & _ & Hc & _).
        rewrite E in *. rewrite Hc. exact Hs.
  - intros Hp. cbn [Plain.plain] in Hp. destruct l as [|x r].
    + repeat split; try reflexivity; try (simpl; lia).
      intros fuel rest Hf _. destruct (fuel_succ 0 fuel Hf) as (f & -> & _). reflexivity.
    + rewrite dumps_tuple. split; [repeat split|]. split; [|split].
      * destruct (parse_array_items r x [] _ EmptyString IH Hp (Nat.le_refl _) eq_refl)
          as (_ & Ha & _). exact Ha.
      * destruct (parse_array_items r x [] _ EmptyString IH Hp (Nat.le_refl _) eq_refl)
          as (_ & _ & Hc). cbn [cost String.length]. apply le_n_S. exact Hc.
      * intros fuel rest Hf Hd. destruct (fuel_succ _ fuel Hf) as (f & -> & Hf').
        destruct (parse_array_items r x [] f rest IH Hp Hf' Hd) as (Hs & _).
        assert (Hg : good_head ((dumps x ++ dump_tail r) ++ rest)).
        { apply good_head_app, good_head_app.
          inversion IH as [|? ? Hx _]; subst. cbn [forallb] in Hp.
          apply andb_prop in Hp. destruct Hp as (Hpx & _). now destruct (Hx Hpx). }
        cbn [append Json.scan_once]. change (Json.code "[" =? 34)%N with false.
        change (Ascii.eqb "[" "{") with false. change (Ascii.eqb "[" "[") with true.
        cbv iota. rewrite (skip_ws_good _ Hg).
        destruct (good_head_cons _ Hg) as (c & r' & E & _ & Hc & _).
        rewrite E in *. rewrite Hc. exact Hs.
  - intros Hp. cbn [Plain.plain] in Hp. apply andb_prop in Hp. destruct Hp as (Hdist & Hp).
    destruct d as [|[k x] r].
    + repeat split; try reflexivity; try (simpl; lia).
      intros fuel rest Hf _. destruct (fuel_succ 0 fuel Hf) as (f & -> & _). reflexivity.
    + pose proof (distinct_NoDup _ Hdist) as Hnd.
      assert (Hk : plain_string k = true).
      { cbn [forallb fst snd] in Hp. apply andb_prop in Hp. destruct Hp as (Hp & _).
        apply andb_prop in Hp. now destruct Hp. }
      rewrite dumps_dict. split; [repeat split|]. split; [|split].
      * destruct (parse_object_items r k x [] _ EmptyString IH Hp Hnd (Nat.le_refl _) eq_refl)
          as (_ & Ha & _). exact Ha.
      * destruct (parse_object_items r k x [] _ EmptyString IH Hp Hnd (Nat.le_refl _) eq_refl)
          as (_ & _ & Hc). cbn [cost String.length]. apply le_n_S. exact Hc.
      * intros fuel rest Hf Hd. destruct (fuel_succ _ fuel Hf) as (f & -> & Hf').
        destruct (parse_object_items r k x [] f rest IH Hp Hnd Hf' Hd) as (Hs & _).
        pose proof (quoted_good k (String ":" (dumps x ++ dump_items_tail r)) Hk) as Hg0.
        assert (Hg : good_head ((Json.encode_basestring_ascii k
                                 ++ String ":" (dumps x ++ dump_items_tail r)) ++ rest))
          by (now apply good_head_app).
        cbn [append Json.scan_once]. change (Json.code "{" =? 34)%N with false.
        change (Ascii.eqb "{" "{") with true.
        cbv iota. rewrite (skip_ws_good _ Hg).
        destruct (good_head_cons _ Hg) as (c & r' & E & _ & _ & Hc).
        rewrite E in *. rewrite Hc. exact Hs.
Qed.

Lemma append_nil_r (s : string) : (s ++ EmptyString)%string = s.
Proof. induction s as [|c r IH]; simpl; [reflexivity | now rewrite IH]. Qed.

(** [json.loads(json.dumps(v))] is [v] with its tuples turned into lists. *)
Theorem loads_dumps (v : pyval) :
  plain v = true -> Json.loads (dumps v) = Some (jsonify v).
Proof.
  intros Hp. destruct (dumps_reads_back v Hp) as (Hg & Ha & Hc & Hs).
  unfold Json.loads.
  destruct (good_head_cons _ Hg) as (c & r & E & _).
  assert (Hbom : Json.strip_prefix
                   (String (Json.chr 239) (String (Json.chr 187)
                      (String (Json.chr 191) EmptyString))) (dumps v) = None).
  { rewrite E in *. cbn [Json.strip_prefix]. cbn [Base64.is_ascii] in Ha.
    apply andb_prop in Ha. destruct Ha as (Ha & _). apply N.ltb_lt in Ha.
    destruct (Ascii.eqb_spec (Json.chr 239) c) as [<-|]; [|reflexivity].
    vm_compute in Ha. discriminate Ha. }
  rewrite Hbom. rewrite (skip_ws_good _ Hg).
  rewrite <- (append_nil_r (dumps v)) at 2.
  rewrite (Hs (S (String.length (dumps v))) EmptyString ltac:(lia) eq_refl).
  reflexivity.
Qed.

(** Encoding a plain value and decoding the text gives the value back. *)
Theorem decode_encode (v : pyval) :
  plain v = true ->
  FingerprintProcessor._decode_template (PStr (Base64.b64encode (dumps v)))
  = Some (jsonify v).
Proof.
  intros Hp. destruct (dumps_reads_back v Hp) as (_ & Ha & _).
  unfold FingerprintProcessor._decode_template.
  rewrite b64decode_b64encode, (utf8_decode_ascii _ Ha). now apply loads_dumps.
Qed.

End JsonValueFacts.
(* ===================================================================== *)
(** * Binary64 rounding *)
(* ===================================================================== *)

Section FloatShapeFacts.

Import Float64 FingerprintMatcher FloatOrder FloatShape.

Local Open Scope Z_scope.

Lemma iter_pos_nat {A} (f : A -> A) (p : positive) (x : A) :
  iter_pos f p x = Nat.iter (Pos.to_nat p) f x.
Proof.
  revert x. induction p as [p IH | p IH |]; intro x; cbn [iter_pos].
  - rewrite !IH, Pos2Nat.inj_xI. rewrite <- Nat.iter_add.
    replace (S (2 * Pos.to_nat p))%nat with (Pos.to_nat p + Pos.to_nat p + 1)%nat by lia.
    rewrite (Nat.iter_add (Pos.to_nat p + Pos.to_nat p) 1). reflexivity.
  - rewrite !IH, Pos2Nat.inj_xO, <- Nat.iter_add. f_equal. lia.
  - reflexivity.
Qed.

Lemma shr_1_spec (m : Z) (r s : bool) :
  0 <= m ->
  shr_1 (Build_shr_record m r s) = Build_shr_record (m / 2) (Z.odd m) (r || s).
Proof.
  intro H. destruct m as [| p | p]; [reflexivity | | lia].
  destruct p as [p | p |]; cbn [shr_1].
  - f_equal. rewrite Pos2Z.inj_xI. apply Z.div_unique with 1; lia.
  - f_equal. rewrite Pos2Z.inj_xO. apply Z.div_unique with 0; lia.
  - reflexivity.
Qed.

Lemma shr_iter (n : nat) (m : Z) :
  0 <= m ->
  shr_m (Nat.iter n shr_1 (Build_shr_record m false false)) = m / 2 ^ Z.of_nat n /\
  (shr_r (Nat.iter n shr_1 (Build_shr_record m false false))
   || shr_s (Nat.iter n shr_1 (Build_shr_record m false false))
   = negb (m mod 2 ^ Z.of_nat n =? 0)).
Proof.
  intro Hm. induction n as [| n IH].
  - cbn. rewrite Z.div_1_r, Z.mod_1_r. auto.
  - change (Nat.iter (S n) shr_1 (Build_shr_record m false false))
      with (shr_1 (Nat.iter n shr_1 (Build_shr_record m false false))).
    destruct (Nat.iter n shr_1 _) as [m' r' s'] eqn:E. cbn [shr_m shr_r shr_s] in IH.
    destruct IH as [IH1 IH2].
    assert (Hp : 0 < 2 ^ Z.of_nat n) by (apply Z.pow_pos_nonneg; lia).
    assert (Hm' : 0 <= m') by (subst m'; apply Z.div_pos; lia).
    rewrite shr_1_spec by assumption. cbn [shr_m shr_r shr_s].
    rewrite Nat2Z.inj_succ, Z.pow_succ_r by lia.
    split.
    + subst m'. rewrite Z.div_div by lia. f_equal. lia.
    + rewrite IH2.
      assert (Hmod : m mod (2 * 2 ^ Z.of_nat n) = m mod 2 ^ Z.of_nat n + 2 ^ Z.of_nat n * (m' mod 2)).
      { subst m'. rewrite (Z.mul_comm 2). rewrite Z.rem_mul_r by lia. lia. }
      rewrite Hmod.
      assert (H0 := Z.mod_pos_bound m (2 ^ Z.of_nat n) Hp).
      assert (H1 := Z.mod_pos_bound m' 2 ltac:(lia)).
      rewrite Zodd_mod.
      destruct (Z.eqb_spec (m' mod 2) 1) as [e | e];
        destruct (Z.eqb_spec (m mod 2 ^ Z.of_nat n) 0) as [e' | e'];
        destruct (Z.eqb_spec (m mod 2 ^ Z.of_nat n + 2 ^ Z.of_nat n * (m' mod 2)) 0) as [e2 | e2];
        cbn; try reflexivity; exfalso; try nia.
Qed.

Lemma shr_iter_m (n : nat) (m : Z) (r s : bool) :
  0 <= m ->
  shr_m (Nat.iter n shr_1 (Build_shr_record m r s)) = m / 2 ^ Z.of_nat n.
Proof.
  intro Hm. induction n as [| n IH].
  - cbn. now rewrite Z.div_1_r.
  - change (Nat.iter (S n) shr_1 (Build_shr_record m r s))
      with (shr_1 (Nat.iter n shr_1 (Build_shr_record m r s))).
    destruct (Nat.iter n shr_1 _) as [m' r' s'] eqn:E. cbn [shr_m] in IH.
    assert (Hp : 0 < 2 ^ Z.of_nat n) by (apply Z.pow_pos_nonneg; lia).
    assert (Hm' : 0 <= m') by (subst m'; apply Z.div_pos; lia).
    rewrite shr_1_spec by assumption. cbn [shr_m].
    rewrite Nat2Z.inj_succ, Z.pow_succ_r by lia.
    subst m'. rewrite Z.div_div by lia. f_equal. lia.
Qed.

(** ** Number of binary digits *)

Lemma dig_pos (p : positive) : 0 < dig p.
Proof. unfold dig. lia. Qed.

Lemma dig_bounds (p : positive) : 2 ^ (dig p - 1) <= Z.pos p < 2 ^ dig p.
Proof.
  unfold dig. induction p as [p IH | p IH |]; cbn [digits2_pos].
  - rewrite Pos2Z.inj_succ, (Pos2Z.inj_xI p).
    replace (Z.succ (Z.pos (digits2_pos p)) - 1) with (Z.succ (Z.pos (digits2_pos p) - 1)) by lia.
    rewrite !Z.pow_succ_r by lia. lia.
  - rewrite Pos2Z.inj_succ, (Pos2Z.inj_xO p).
    replace (Z.succ (Z.pos (digits2_pos p)) - 1) with (Z.succ (Z.pos (digits2_pos p) - 1)) by lia.
    rewrite !Z.pow_succ_r by lia. lia.
  - cbn. lia.
Qed.

Lemma dig_unique (p : positive) (k : Z) :
  2 ^ (k - 1) <= Z.pos p < 2 ^ k -> dig p = k.
Proof.
  intros [Hl Hu]. pose proof (dig_bounds p) as [Bl Bu]. pose proof (dig_pos p) as Hd.
  assert (0 < k).
  { destruct (Z.ltb_spec 0 k) as [|Hk]; [assumption|].
    destruct (Z.eq_dec k 0) as [->|]; [cbn in Hu; lia|].
    rewrite (Z.pow_neg_r 2 k) in Hu by lia. lia. }
  destruct (Z.lt_trichotomy (dig p) k) as [L | [E | G]]; [exfalso | assumption | exfalso].
  - assert (2 ^ dig p <= 2 ^ (k - 1)) by (apply Z.pow_le_mono_r; lia). lia.
  - assert (2 ^ k <= 2 ^ (dig p - 1)) by (apply Z.pow_le_mono_r; lia). lia.
Qed.

Lemma dig_le (p : positive) (k : Z) : Z.pos p < 2 ^ k -> dig p <= k.
Proof.
  intro H. pose proof (dig_bounds p) as [Bl _]. pose proof (dig_pos p).
  destruct (Z.leb_spec (dig p) k) as [|G]; [assumption | exfalso].
  destruct (Z.ltb_spec k 0) as [N|N].
  - rewrite (Z.pow_neg_r 2 k) in H by lia. lia.
  - assert (2 ^ k <= 2 ^ (dig p - 1)) by (apply Z.pow_le_mono_r; lia). lia.
Qed.

Lemma dig_ge (p : positive) (k : Z) : 2 ^ (k - 1) <= Z.pos p -> k <= dig p.
Proof.
  intro H. pose proof (dig_bounds p) as [_ Bu]. pose proof (dig_pos p).
  destruct (Z.leb_spec k (dig p)) as [|G]; [assumption | exfalso].
  assert (2 ^ dig p <= 2 ^ (k - 1)) by (apply Z.pow_le_mono_r; lia). lia.
Qed.

Lemma dig_shift (p q : positive) (n : Z) :
  0 <= n -> Z.pos q = Z.pos p * 2 ^ n -> dig q = dig p + n.
Proof.
  intros Hn E. apply dig_unique. rewrite E.
  pose proof (dig_bounds p) as [Bl Bu]. pose proof (dig_pos p).
  assert (0 < 2 ^ n) by (apply Z.pow_pos_nonneg; lia).
  replace (dig p + n - 1) with (dig p - 1 + n) by lia.
  rewrite !Z.pow_add_r by lia. nia.
Qed.

Lemma dig_div (p q : positive) (n : Z) :
  0 <= n -> n < dig p -> Z.pos q = Z.pos p / 2 ^ n -> dig q = dig p - n.
Proof.
  intros Hn Hd E. apply dig_unique. rewrite E.
  pose proof (dig_bounds p) as [Bl Bu].
  assert (0 < 2 ^ n) by (apply Z.pow_pos_nonneg; lia).
  split.
  - apply Z.div_le_lower_bound; [lia|].
    rewrite <- Z.pow_add_r by lia. replace (n + (dig p - n - 1)) with (dig p - 1) by lia. lia.
  - apply Z.div_lt_upper_bound; [lia|].
    rewrite <- Z.pow_add_r by lia. replace (n + (dig p - n)) with (dig p) by lia. lia.
Qed.

(** ** Alignment *)

Lemma iter_xO (p d : positive) : Z.pos (Pos.iter xO p d) = Z.pos p * 2 ^ Z.pos d.
Proof.
  induction d as [| d IH] using Pos.peano_ind.
  - cbn. lia.
  - rewrite Pos.iter_succ, Pos2Z.inj_xO, IH, Pos2Z.inj_succ, Z.pow_succ_r by lia. lia.
Qed.

Lemma shl_align_spec (mx : positive) (ex ex' : Z) :
  ex' <= ex ->
  exists mz, shl_align mx ex ex' = (mz, ex') /\ Z.pos mz = Z.pos mx * 2 ^ (ex - ex').
Proof.
  intro H. unfold shl_align. destruct (ex' - ex) as [| d | d] eqn:E; try lia.
  - exists mx. assert (ex' = ex) by lia. subst ex'. rewrite Z.sub_diag. split; [reflexivity | cbn; lia].
  - exists (Pos.iter xO mx d). split; [reflexivity|].
    rewrite iter_xO. f_equal. f_equal. lia.
Qed.

Lemma shl_align_none (mx : positive) (ex ex' : Z) :
  ex <= ex' -> shl_align mx ex ex' = (mx, ex).
Proof.
  intro H. unfold shl_align. destruct (ex' - ex) as [| d | d] eqn:E; try reflexivity; lia.
Qed.

(** ** Rounding *)

Lemma fexp_eq (e : Z) : fexp prec emax e = Z.max (e - 53) (-1074).
Proof. reflexivity. Qed.

Lemma shr_fexp_noshift (m e : Z) (l : location) :
  fexp prec emax (Zdigits2 m + e) <= e ->
  shr_fexp prec emax m e l = (shr_record_of_loc m l, e).
Proof.
  intro H. unfold shr_fexp, shr.
  destruct (fexp prec emax (Zdigits2 m + e) - e) eqn:E; try reflexivity; lia.
Qed.

Lemma shr_fexp_shift (m e : Z) :
  0 <= m ->
  0 < fexp prec emax (Zdigits2 m + e) - e ->
  exists r s,
    shr_fexp prec emax m e loc_Exact
    = (Build_shr_record (m / 2 ^ (fexp prec emax (Zdigits2 m + e) - e)) r s,
       fexp prec emax (Zdigits2 m + e)) /\
    r || s = negb (m mod 2 ^ (fexp prec emax (Zdigits2 m + e) - e) =? 0).
Proof.
  intros Hm Hn. unfold shr_fexp, shr.
  destruct (fexp prec emax (Zdigits2 m + e) - e) as [| n | n] eqn:E; try lia.
  cbn [shr_record_of_loc]. rewrite iter_pos_nat.
  pose proof (shr_iter (Pos.to_nat n) m Hm) as [H1 H2].
  rewrite positive_nat_Z in H1, H2.
  destruct (Nat.iter (Pos.to_nat n) shr_1 _) as [m' r s]. cbn [shr_m shr_r shr_s] in H1, H2.
  exists r, s. subst m'. split; [f_equal; lia | assumption].
Qed.

Lemma shr_fexp_nonneg (m e : Z) (l : location) :
  0 <= m -> 0 <= shr_m (fst (shr_fexp prec emax m e l)).
Proof.
  intro Hm. unfold shr_fexp, shr.
  assert (R : exists r s, shr_record_of_loc m l = Build_shr_record m r s).
  { destruct l as [| []]; cbn; eauto. }
  destruct R as (r & s & ->).
  destruct (fexp prec emax (Zdigits2 m + e) - e) as [| n | n]; cbn [fst shr_m]; try assumption.
  rewrite iter_pos_nat, shr_iter_m by assumption.
  apply Z.div_pos; [assumption | apply Z.pow_pos_nonneg; lia].
Qed.

Lemma round_nearest_even_bounds (m : Z) (l : location) :
  m <= round_nearest_even m l <= m + 1.
Proof. destruct l as [| []]; cbn [round_nearest_even]; try destruct (Z.even m); lia. Qed.

Lemma binary_round_aux_signed (sx : bool) (mx ex : Z) (lx : location) :
  0 <= mx -> signed sx (binary_round_aux prec emax sx mx ex lx) = true.
Proof.
  intro Hm. unfold binary_round_aux.
  pose proof (shr_fexp_nonneg mx ex lx Hm) as H1.
  destruct (shr_fexp prec emax mx ex lx) as [mrs' e']. cbn [fst] in H1.
  pose proof (round_nearest_even_bounds (shr_m mrs') (loc_of_shr_record mrs')) as H2.
  pose proof (shr_fexp_nonneg (round_nearest_even (shr_m mrs') (loc_of_shr_record mrs')) e'
                loc_Exact ltac:(lia)) as H3.
  destruct (shr_fexp prec emax _ e' loc_Exact) as [mrs'' e'']. cbn [fst] in H3.
  destruct (shr_m mrs'') as [| m | m]; [| | lia]; cbn.
  - apply eqb_reflx.
  - destruct (e'' <=? 971); cbn; apply eqb_reflx.
Qed.

Lemma binary_round_aux_canonical (sx : bool) (p : positive) (e : Z) :
  fexp prec emax (dig p + e) = e ->
  binary_round_aux prec emax sx (Z.pos p) e loc_Exact
  = if e <=? 971 then S754_finite sx p e else S754_infinity sx.
Proof.
  intro H. unfold binary_round_aux.
  rewrite shr_fexp_noshift by (change (Zdigits2 (Z.pos p)) with (dig p); lia).
  cbn [shr_record_of_loc shr_m loc_of_shr_record round_nearest_even].
  rewrite shr_fexp_noshift by (change (Zdigits2 (Z.pos p)) with (dig p); lia).
  reflexivity.
Qed.

Lemma pow_split (a b : Z) : 0 <= a -> 0 <= b -> 2 ^ (a + b) = 2 ^ a * 2 ^ b.
Proof. intros. apply Z.pow_add_r; assumption. Qed.

Theorem round_exact (sx : bool) (p : positive) (ez : Z) (m : positive) (e g : Z) :
  fexp prec emax (dig m + e) = e ->
  g <= e -> g <= ez ->
  Z.pos m * 2 ^ (e - g) = Z.pos p * 2 ^ (ez - g) ->
  binary_round prec emax sx p ez
  = if e <=? 971 then S754_finite sx m e else S754_infinity sx.
Proof.
  intros Hc Hge Hgz Hv.
  assert (Hmag : dig m + e = dig p + ez).
  { assert (P1 : 0 < 2 ^ (e - g)) by (apply Z.pow_pos_nonneg; lia).
    assert (Q : exists q, Z.pos q = Z.pos m * 2 ^ (e - g)).
    { exists (Z.to_pos (Z.pos m * 2 ^ (e - g))). rewrite Z2Pos.id; [reflexivity | lia]. }
    destruct Q as [q Hq].
    pose proof (dig_shift m q (e - g) ltac:(lia) Hq) as D1.
    rewrite Hv in Hq.
    pose proof (dig_shift p q (ez - g) ltac:(lia) Hq) as D2. lia. }
  unfold binary_round. change (Z.pos (digits2_pos p)) with (dig p). rewrite <- Hmag, Hc.
  destruct (Z.leb_spec e ez) as [Hle | Hgt].
  - destruct (shl_align_spec p ez e Hle) as (mz & -> & Hmz).
    assert (mz = m).
    { replace (ez - g) with ((ez - e) + (e - g)) in Hv by lia.
      rewrite pow_split in Hv by lia.
      assert (0 < 2 ^ (e - g)) by (apply Z.pow_pos_nonneg; lia).
      assert (Z.pos m = Z.pos mz) by nia. congruence. }
    subst mz. now apply binary_round_aux_canonical.
  - rewrite shl_align_none by lia.
    assert (Hp : Z.pos p = Z.pos m * 2 ^ (e - ez)).
    { replace (e - g) with ((e - ez) + (ez - g)) in Hv by lia.
      rewrite pow_split in Hv by lia.
      assert (0 < 2 ^ (ez - g)) by (apply Z.pow_pos_nonneg; lia). nia. }
    assert (Hpos : 0 < 2 ^ (e - ez)) by (apply Z.pow_pos_nonneg; lia).
    unfold binary_round_aux.
    assert (Hf : fexp prec emax (Zdigits2 (Z.pos p) + ez) = e).
    { change (Zdigits2 (Z.pos p)) with (dig p). now rewrite <- Hmag. }
    destruct (shr_fexp_shift (Z.pos p) ez ltac:(lia) ltac:(lia)) as (r & s & -> & Hrs).
    rewrite Hf in *.
    rewrite Hp, Z.div_mul in * by lia.
    rewrite Z.mod_mul in Hrs by lia. cbn in Hrs.
    apply orb_false_iff in Hrs. destruct Hrs as [-> ->].
    cbn [shr_record_of_loc shr_m loc_of_shr_record round_nearest_even].
    rewrite shr_fexp_noshift by (change (Zdigits2 (Z.pos m)) with (dig m); lia).
    reflexivity.
Qed.

Theorem round_shape (sx : bool) (p : positive) (ez : Z) :
  -1074 <= ez ->
  exists m e,
    fexp prec emax (dig m + e) = e /\
    binary_round prec emax sx p ez
    = (if e <=? 971 then S754_finite sx m e else S754_infinity sx) /\
    (e = fexp prec emax (dig p + ez) \/
     (e = fexp prec emax (dig p + ez) + 1 /\ m = 4503599627370496%positive)).
Proof.
  intro Hez.
  destruct (Z.leb_spec (fexp prec emax (dig p + ez)) ez) as [Hle | Hgt].
  - destruct (shl_align_spec p ez _ Hle) as (mz & _ & Hmz).
    exists mz, (fexp prec emax (dig p + ez)).
    assert (Hc : fexp prec emax (dig mz + fexp prec emax (dig p + ez)) = fexp prec emax (dig p + ez)).
    { rewrite (dig_shift p mz (ez - fexp prec emax (dig p + ez)) ltac:(lia) Hmz). f_equal. lia. }
    split; [exact Hc|]. split; [| now left].
    apply round_exact with (g := fexp prec emax (dig p + ez)); try lia; try assumption.
    rewrite Z.sub_diag. cbn [Z.pow]. lia.
  - assert (Hec : fexp prec emax (dig p + ez) = dig p + ez - 53) by (rewrite fexp_eq in *; lia).
    unfold binary_round. change (Z.pos (digits2_pos p)) with (dig p).
    rewrite shl_align_none by lia.
    unfold binary_round_aux.
    destruct (shr_fexp_shift (Z.pos p) ez ltac:(lia)
                ltac:(change (Zdigits2 (Z.pos p)) with (dig p); lia)) as (r & s & -> & _).
    change (Zdigits2 (Z.pos p)) with (dig p).
    cbn [shr_m].
    set (n := fexp prec emax (dig p + ez) - ez).
    assert (Hn : n = dig p - 53) by (unfold n; lia).
    assert (Hn0 : 0 < n) by (unfold n; lia).
    pose proof (dig_bounds p) as [Bl Bu].
    assert (Hp2 : 0 < 2 ^ n) by (apply Z.pow_pos_nonneg; lia).
    assert (M1 : 2 ^ 52 <= Z.pos p / 2 ^ n < 2 ^ 53).
    { split.
      - apply Z.div_le_lower_bound; [lia|].
        rewrite <- Z.pow_add_r by lia. replace (n + 52) with (dig p - 1) by lia. lia.
      - apply Z.div_lt_upper_bound; [lia|].
        rewrite <- Z.pow_add_r by lia. replace (n + 53) with (dig p) by lia. lia. }
    pose proof (round_nearest_even_bounds (Z.pos p / 2 ^ n)
                  (loc_of_shr_record (Build_shr_record (Z.pos p / 2 ^ n) r s))) as Hr.
    destruct (round_nearest_even _ _) as [| q | q] eqn:Eq; try lia.
    destruct (Z.ltb_spec (Z.pos q) (2 ^ 53)) as [Hlt | Hge].
    + assert (Hd : dig q = 53) by (apply dig_unique; change (53 - 1) with 52; lia).
      exists q, (fexp prec emax (dig p + ez)).
      assert (Hc : fexp prec emax (dig q + fexp prec emax (dig p + ez)) = fexp prec emax (dig p + ez)).
      { rewrite Hd. rewrite (fexp_eq (53 + _)). rewrite Hec. lia. }
      split; [exact Hc|]. split; [| now left].
      rewrite shr_fexp_noshift by (change (Zdigits2 (Z.pos q)) with (dig q); lia).
      reflexivity.
    + assert (Hq : q = 9007199254740992%positive).
      { assert (Z.pos q = 2 ^ 53) by lia. change (2 ^ 53) with 9007199254740992 in *. congruence. }
      subst q.
      exists 4503599627370496%positive, (fexp prec emax (dig p + ez) + 1).
      assert (Hc : fexp prec emax (dig 4503599627370496 + (fexp prec emax (dig p + ez) + 1))
                   = fexp prec emax (dig p + ez) + 1).
      { change (dig 4503599627370496) with 53. rewrite (fexp_eq (53 + _)). rewrite Hec. lia. }
      split; [exact Hc|]. split; [| right; split; reflexivity].
      unfold shr_fexp.
      change (Zdigits2 9007199254740992) with 54.
      replace (fexp prec emax (54 + fexp prec emax (dig p + ez)) - fexp prec emax (dig p + ez))
        with 1 by (rewrite (fexp_eq (54 + _)), Hec; lia).
      reflexivity.
Qed.

(** A canonical mantissa has at most 53 bits, and exactly 53 above the
    smallest exponent. *)
Lemma canonical_bounds (m : positive) (e : Z) :
  fexp prec emax (dig m + e) = e ->
  -1074 <= e /\ Z.pos m < 2 ^ 53 /\ (-1074 < e -> 2 ^ 52 <= Z.pos m).
Proof.
  intro H. rewrite fexp_eq in H. pose proof (dig_bounds m) as [Bl Bu].
  pose proof (dig_pos m).
  assert (dig m <= 53) by lia.
  repeat split; try lia.
  - assert (2 ^ dig m <= 2 ^ 53) by (apply Z.pow_le_mono_r; lia). lia.
  - intro He. assert (dig m = 53) by lia.
    replace 52 with (dig m - 1) by lia. assumption.
Qed.

Lemma canonical_mantissa_fexp (m : positive) (e : Z) :
  canonical_mantissa prec emax m e = true <-> fexp prec emax (dig m + e) = e.
Proof. unfold canonical_mantissa. apply Z.eqb_eq. Qed.

(** ** Comparison of finite values *)

Lemma compare_finite_pos (m1 : positive) (e1 : Z) (m2 : positive) (e2 : Z) :
  SFcompare (S754_finite false m1 e1) (S754_finite false m2 e2)
  = Some (match e1 ?= e2 with Eq => (Z.pos m1 ?= Z.pos m2) | c => c end).
Proof. cbn. destruct (e1 ?= e2); reflexivity. Qed.

Lemma compare_finite_neg (m1 : positive) (e1 : Z) (m2 : positive) (e2 : Z) :
  SFcompare (S754_finite true m1 e1) (S754_finite true m2 e2)
  = Some (match e1 ?= e2 with Eq => CompOpp (Z.pos m1 ?= Z.pos m2) | c => CompOpp c end).
Proof. cbn. destruct (e1 ?= e2); reflexivity. Qed.

(** ** Angles *)

Lemma round_small (sx : bool) (p : positive) (ez : Z) :
  -1074 <= ez -> ez <= 971 -> dig p <= 53 ->
  exists m,
    Z.pos m = Z.pos p * 2 ^ (ez - fexp prec emax (dig p + ez)) /\
    fexp prec emax (dig p + ez) <= ez /\
    binary_round prec emax sx p ez = S754_finite sx m (fexp prec emax (dig p + ez)).
Proof.
  intros H1 H2 H3.
  assert (Hle : fexp prec emax (dig p + ez) <= ez) by (rewrite fexp_eq; lia).
  destruct (shl_align_spec p ez _ Hle) as (mz & _ & Hmz).
  exists mz. split; [exact Hmz|]. split; [exact Hle|].
  rewrite (round_exact sx p ez mz (fexp prec emax (dig p + ez)) (fexp prec emax (dig p + ez))).
  - destruct (Z.leb_spec (fexp prec emax (dig p + ez)) 971); [reflexivity | lia].
  - rewrite (dig_shift p mz (ez - fexp prec emax (dig p + ez)) ltac:(lia) Hmz). f_equal. lia.
  - lia.
  - lia.
  - rewrite Z.sub_diag. cbn [Z.pow]. lia.
Qed.

Lemma normalize_in_half_turn (K ez : Z) :
  (ez = -51 /\ Z.abs K <= 7074237752028440) \/
  (ez = -50 /\ 2 * Z.abs K <= 7074237752028440) ->
  in_half_turn (binary_normalize prec emax K ez false) = true.
Proof.
  intro H. destruct K as [| p | p]; [reflexivity | |].
  - assert (Hd : dig p <= 53) by (apply dig_le; change (2 ^ 53) with 9007199254740992; lia).
    cbn [binary_normalize].
    destruct (round_small false p ez ltac:(lia) ltac:(lia) Hd) as (m & Hm & Hle & ->).
    unfold in_half_turn. apply andb_true_intro. split; [reflexivity|].
    unfold leb, SFleb, pi. rewrite compare_finite_pos.
    rewrite fexp_eq in *. pose proof (dig_pos p).
    destruct H as [[-> Hb] | [-> Hb]].
    + destruct (Z.compare_spec (Z.max (dig p + -51 - 53) (-1074)) (-51)) as [E | L | G];
        [| reflexivity | lia].
      rewrite E in Hm. change (-51 - -51) with 0 in Hm. cbn [Z.pow] in Hm.
      destruct (Z.compare_spec (Z.pos m) 7074237752028440); try reflexivity; lia.
    + assert (Hd' : dig p <= 52) by (apply dig_le; change (2 ^ 52) with 4503599627370496; lia).
      destruct (Z.compare_spec (Z.max (dig p + -50 - 53) (-1074)) (-51)) as [E | L | G];
        [| reflexivity | lia].
      rewrite E in Hm. change (-50 - -51) with 1 in Hm. change (2 ^ 1) with 2 in Hm.
      destruct (Z.compare_spec (Z.pos m) 7074237752028440); try reflexivity; lia.
  - assert (Hd : dig p <= 53) by (apply dig_le; change (2 ^ 53) with 9007199254740992; lia).
    cbn [binary_normalize].
    destruct (round_small true p ez ltac:(lia) ltac:(lia) Hd) as (m & Hm & Hle & ->).
    unfold in_half_turn. apply andb_true_intro. split; [| reflexivity].
    unfold leb, SFleb, pi. cbn [SFopp negb]. rewrite compare_finite_neg.
    rewrite fexp_eq in *. pose proof (dig_pos p).
    destruct H as [[-> Hb] | [-> Hb]].
    + destruct (Z.compare_spec (-51) (Z.max (dig p + -51 - 53) (-1074))) as [E | L | G];
        [| lia | reflexivity].
      rewrite <- E in Hm. change (-51 - -51) with 0 in Hm. cbn [Z.pow] in Hm.
      destruct (Z.compare_spec 7074237752028440 (Z.pos m)); try reflexivity; lia.
    + assert (Hd' : dig p <= 52) by (apply dig_le; change (2 ^ 52) with 4503599627370496; lia).
      destruct (Z.compare_spec (-51) (Z.max (dig p + -50 - 53) (-1074))) as [E | L | G];
        [| lia | reflexivity].
      rewrite <- E in Hm. change (-50 - -51) with 1 in Hm. change (2 ^ 1) with 2 in Hm.
      destruct (Z.compare_spec 7074237752028440 (Z.pos m)); try reflexivity; lia.
Qed.

Lemma within8_finite (s : bool) (m : positive) (e : Z) :
  within8 (S754_finite s m e) = true ->
  fexp prec emax (dig m + e) = e /\
  (e < -49 \/ (e = -49 /\ m = 4503599627370496%positive)).
Proof.
  cbn [within8]. intro H. apply andb_prop in H. destruct H as [Hc H].
  apply canonical_mantissa_fexp in Hc. split; [assumption|].
  apply orb_prop in H. destruct H as [H | H].
  - left. now apply Z.ltb_lt.
  - right. apply andb_prop in H. destruct H as [H1 H2].
    apply Z.eqb_eq in H1, H2. split; [assumption | congruence].
Qed.

Lemma sub_two_pi_in_half_turn (d : float) :
  within8 d = true -> gtb d pi = true -> in_half_turn (sub d two_pi) = true.
Proof.
  intros W G. destruct d as [s | s | | s m e]; try discriminate W.
  - destruct s; vm_compute in G; discriminate G.
  - apply within8_finite in W. destruct W as [Hc W].
    destruct (canonical_bounds m e Hc) as (_ & Hu & Hl).
    change (2 ^ 53) with 9007199254740992 in Hu. change (2 ^ 52) with 4503599627370496 in Hl.
    destruct s; [discriminate G|].
    unfold gtb, ltb, SFltb, pi in G. rewrite compare_finite_pos in G.
    destruct W as [W | [-> ->]]; [| reflexivity].
    assert (He : (e = -51 /\ 7074237752028440 < Z.pos m) \/ e = -50).
    { destruct (Z.compare_spec (-51) e);
        destruct (Z.compare_spec 7074237752028440 (Z.pos m)); try discriminate G; lia. }
    clear G. destruct He as [[-> G] | ->].
    +       unfold sub, SFsub, two_pi. change (Z.min (-51) (-50)) with (-51).
      rewrite (shl_align_none m (-51) (-51)) by lia.
      change (fst (shl_align 7074237752028440 (-50) (-51))) with 14148475504056880%positive.
      cbn [fst cond_Zopp].
      apply normalize_in_half_turn. left. split; [reflexivity | lia].
    + unfold sub, SFsub, two_pi. change (Z.min (-50) (-50)) with (-50).
      rewrite !shl_align_none by lia.
      cbn [fst cond_Zopp].
      apply normalize_in_half_turn. right. split; [reflexivity | lia].
Qed.

Lemma add_two_pi_in_half_turn (d : float) :
  within8 d = true -> ltb d (SFopp pi) = true -> in_half_turn (add d two_pi) = true.
Proof.
  intros W G. destruct d as [s | s | | s m e]; try discriminate W.
  - destruct s; vm_compute in G; discriminate G.
  - apply within8_finite in W. destruct W as [Hc W].
    destruct (canonical_bounds m e Hc) as (_ & Hu & Hl).
    change (2 ^ 53) with 9007199254740992 in Hu. change (2 ^ 52) with 4503599627370496 in Hl.
    destruct s; [|discriminate G].
    unfold ltb, SFltb, pi in G. cbn [SFopp negb] in G. rewrite compare_finite_neg in G.
    destruct W as [W | [-> ->]]; [| reflexivity].
    assert (He : (e = -51 /\ 7074237752028440 < Z.pos m) \/ e = -50).
    { destruct (Z.compare_spec e (-51));
        destruct (Z.compare_spec (Z.pos m) 7074237752028440); try discriminate G; lia. }
    clear G. destruct He as [[-> G] | ->].
    +       unfold add, SFadd, two_pi. change (Z.min (-51) (-50)) with (-51).
      rewrite (shl_align_none m (-51) (-51)) by lia.
      change (fst (shl_align 7074237752028440 (-50) (-51))) with 14148475504056880%positive.
      cbn [fst cond_Zopp].
      apply normalize_in_half_turn. left. split; [reflexivity | lia].
    + unfold add, SFadd, two_pi. change (Z.min (-50) (-50)) with (-50).
      rewrite !shl_align_none by lia.
      cbn [fst cond_Zopp].
      apply normalize_in_half_turn. right. split; [reflexivity | lia].
Qed.

Lemma within8_not_nan (d : float) : within8 d = true -> is_nan d = false.
Proof. destruct d; cbn; congruence. Qed.

Lemma in_half_turn_inv (x : float) :
  in_half_turn x = true -> leb (SFopp pi) x = true /\ leb x pi = true.
Proof. unfold in_half_turn. intro H. now apply andb_prop in H. Qed.

(** One pass of each loop is enough for a difference of two angles. *)
Lemma normalize_angle_done (f : nat) (d : float) :
  within8 d = true ->
  exists r, _normalize_angle (S f) d = Done r /\ in_half_turn r = true.
Proof.
  intro W. unfold _normalize_angle.
  assert (Stop1 : forall k r, in_half_turn r = true -> while_above_pi k r = Done r).
  { intros k r Hr. apply in_half_turn_inv in Hr. destruct Hr as [_ Hr].
    apply leb_not_ltb in Hr. destruct k; cbn [while_above_pi]; unfold gtb; now rewrite Hr. }
  assert (Stop2 : forall k r, in_half_turn r = true -> while_below_minus_pi k r = Done r).
  { intros k r Hr. apply in_half_turn_inv in Hr. destruct Hr as [Hr _].
    apply leb_not_ltb in Hr. destruct k; cbn [while_below_minus_pi]; now rewrite Hr. }
  destruct (gtb d pi) eqn:G.
  - pose proof (sub_two_pi_in_half_turn d W G) as Hr.
    exists (sub d two_pi). split; [| assumption].
    cbn [while_above_pi]. rewrite G. rewrite Stop1 by assumption.
    cbn [bind]. now apply Stop2.
  - cbn [while_above_pi]. rewrite G. cbn [bind].
    destruct (ltb d (SFopp pi)) eqn:L.
    + pose proof (add_two_pi_in_half_turn d W L) as Hr.
      exists (add d two_pi). split; [| assumption].
      cbn [while_below_minus_pi]. rewrite L. now apply Stop2.
    + exists d. split.
      * cbn [while_below_minus_pi]. now rewrite L.
      * unfold in_half_turn. apply andb_true_intro. split.
        -- apply not_ltb_leb; [reflexivity | now apply within8_not_nan | assumption].
        -- apply not_ltb_leb; [now apply within8_not_nan | reflexivity | assumption].
Qed.

Lemma angle_ok_finite (s : bool) (m : positive) (e : Z) :
  angle_ok (S754_finite s m e) = true ->
  fexp prec emax (dig m + e) = e /\ e <= -51.
Proof.
  unfold angle_ok, in_half_turn. intro H.
  apply andb_prop in H. destruct H as [Hv H]. apply andb_prop in H. destruct H as [H1 H2].
  cbn [valid_binary] in Hv. unfold bounded in Hv. apply andb_prop in Hv. destruct Hv as [Hc _].
  apply canonical_mantissa_fexp in Hc. split; [assumption|].
  destruct s.
  - unfold leb, SFleb, pi in H1. cbn [SFopp negb] in H1. rewrite compare_finite_neg in H1.
    destruct (Z.compare_spec (-51) e); try discriminate H1; lia.
  - unfold leb, SFleb, pi in H2. rewrite compare_finite_pos in H2.
    destruct (Z.compare_spec e (-51)); try discriminate H2; lia.
Qed.

Lemma angle_ok_within8 (x : float) : angle_ok x = true -> within8 x = true.
Proof.
  destruct x as [s | s | | s m e]; intro H.
  - reflexivity.
  - destruct s; discriminate H.
  - discriminate H.
  - apply angle_ok_finite in H. destruct H as [Hc He]. cbn [within8].
    apply andb_true_intro. split; [now apply canonical_mantissa_fexp|].
    apply orb_true_intro. left. apply Z.ltb_lt. lia.
Qed.

Lemma round_within8 (sx : bool) (p : positive) (ez : Z) :
  -1074 <= ez -> Z.pos p < 2 ^ (3 - ez) ->
  within8 (binary_round prec emax sx p ez) = true.
Proof.
  intros Hez Hp.
  assert (Hd : dig p <= 3 - ez) by now apply dig_le.
  destruct (round_shape sx p ez Hez) as (m & e & Hc & -> & He).
  rewrite fexp_eq in He.
  assert (e <= -49) by lia.
  destruct (Z.leb_spec e 971); [| lia].
  cbn [within8]. apply andb_true_intro. split; [now apply canonical_mantissa_fexp|].
  destruct He as [He | [He Hm]].
  - apply orb_true_intro. left. apply Z.ltb_lt. lia.
  - rewrite Hm. destruct (Z.ltb_spec e (-49)); [reflexivity|].
    assert (E : e = -49) by lia. clear He Hc. rewrite E. reflexivity.
Qed.

Lemma normalize_within8 (K ez : Z) :
  -1074 <= ez -> Z.abs K < 2 ^ (3 - ez) ->
  within8 (binary_normalize prec emax K ez false) = true.
Proof.
  intros Hez HK. destruct K as [| p | p]; [reflexivity | |]; cbn [binary_normalize];
    apply round_within8; try assumption; lia.
Qed.

Lemma aligned_bound (m : positive) (e ez : Z) :
  fexp prec emax (dig m + e) = e -> e <= -51 -> ez <= e ->
  2 * Z.pos (fst (shl_align m e ez)) < 2 ^ (3 - ez).
Proof.
  intros Hc He Hz.
  destruct (shl_align_spec m e ez Hz) as (mz & -> & Hmz). cbn [fst]. rewrite Hmz.
  destruct (canonical_bounds m e Hc) as (_ & Hu & _).
  assert (P1 : 0 < 2 ^ (e - ez)) by (apply Z.pow_pos_nonneg; lia).
  assert (P2 : 2 ^ (54 + (e - ez)) <= 2 ^ (3 - ez)) by (apply Z.pow_le_mono_r; lia).
  rewrite pow_split in P2 by lia. change (2 ^ 54) with (2 * 2 ^ 53) in P2. nia.
Qed.

(** The difference of two angles has magnitude below 8. *)
Lemma sub_within8 (a b : float) :
  angle_ok a = true -> angle_ok b = true -> within8 (sub a b) = true.
Proof.
  intros Ha Hb.
  destruct a as [sa | sa | | sa ma ea]; try (destruct sa; discriminate Ha); try discriminate Ha;
    destruct b as [sb | sb | | sb mb eb]; try (destruct sb; discriminate Hb); try discriminate Hb.
  - destruct sa, sb; reflexivity.
  - apply (angle_ok_within8 (S754_finite sb mb eb)) in Hb. exact Hb.
  - apply (angle_ok_within8 (S754_finite sa ma ea)) in Ha. exact Ha.
  - apply angle_ok_finite in Ha, Hb. destruct Ha as [Ca Ea], Hb as [Cb Eb].
    destruct (canonical_bounds ma ea Ca) as (La & _ & _).
    destruct (canonical_bounds mb eb Cb) as (Lb & _ & _).
    unfold sub, SFsub.
    pose proof (aligned_bound ma ea (Z.min ea eb) Ca Ea ltac:(lia)) as Ba.
    pose proof (aligned_bound mb eb (Z.min ea eb) Cb Eb ltac:(lia)) as Bb.
    apply normalize_within8; [lia|].
    destruct sa, sb; cbn [cond_Zopp]; lia.
Qed.

Lemma angle_difference_done (f : nat) (a b : float) :
  angle_ok a = true -> angle_ok b = true ->
  exists r, _normalize_angle (S f) (sub a b) = Done r /\ in_half_turn r = true.
Proof. intros Ha Hb. apply normalize_angle_done. now apply sub_within8. Qed.

(** ** Signs *)

Lemma signed_not_nan (s : bool) (x : float) : signed s x = true -> is_nan x = false.
Proof. destruct x; cbn; congruence. Qed.

Lemma signed_nonneg (x : float) : signed false x = true -> nonneg x = true.
Proof. destruct x as [[|] | [|] | | [|] m e]; cbn; congruence. Qed.

Lemma nonneg_not_nan (x : float) : nonneg x = true -> is_nan x = false.
Proof. destruct x; cbn; congruence. Qed.

Lemma binary_round_signed (sx : bool) (p : positive) (ez : Z) :
  signed sx (binary_round prec emax sx p ez) = true.
Proof.
  unfold binary_round. destruct (shl_align p ez _) as [mz e'].
  apply binary_round_aux_signed. lia.
Qed.

Lemma binary_normalize_not_nan (K ez : Z) (sz : bool) :
  is_nan (binary_normalize prec emax K ez sz) = false.
Proof.
  destruct K; cbn [binary_normalize]; [reflexivity | |];
    eapply signed_not_nan; apply binary_round_signed.
Qed.

Lemma binary_normalize_nonneg (K ez : Z) (sz : bool) :
  0 <= K -> nonneg (binary_normalize prec emax K ez sz) = true.
Proof.
  intro H. destruct K; cbn [binary_normalize]; [reflexivity | | lia].
  apply signed_nonneg, binary_round_signed.
Qed.

Lemma of_Z_not_nan (n : Z) : is_nan (of_Z n) = false.
Proof. apply binary_normalize_not_nan. Qed.

Lemma mul_self_nonneg (x : float) : is_nan x = false -> nonneg (mul x x) = true.
Proof.
  destruct x as [s | s | | s m e]; intro H; try discriminate H.
  - destruct s; reflexivity.
  - destruct s; reflexivity.
  - unfold mul, SFmul. rewrite xorb_nilpotent.
    apply signed_nonneg, binary_round_aux_signed. lia.
Qed.

Lemma add_nonneg (x y : float) :
  nonneg x = true -> nonneg y = true -> nonneg (add x y) = true.
Proof.
  destruct x as [sx | [|] | | [|] mx ex]; try discriminate;
    destruct y as [sy | [|] | | [|] my ey]; try discriminate; intros _ _;
    try reflexivity.
  - destruct sx, sy; reflexivity.
  - unfold add, SFadd. cbn [cond_Zopp]. apply binary_normalize_nonneg. lia.
Qed.

Lemma sqrt_nonneg (x : float) : nonneg x = true -> nonneg (sqrt x) = true.
Proof.
  destruct x as [sx | [|] | | [|] mx ex]; try discriminate; intros _; try reflexivity.
  unfold sqrt, SFsqrt, SFsqrt_core_binary.
  set (m' := match _ with Z0 => _ | Zpos _ => _ | Zneg _ => _ end).
  pose proof (Z.sqrtrem_sqrt m') as Hq. pose proof (Z.sqrt_nonneg m') as Hs.
  destruct (Z.sqrtrem m') as [q r]. cbn [fst] in Hq.
  apply signed_nonneg, binary_round_aux_signed. lia.
Qed.

Lemma norm_nonneg (p : point) : nonneg (norm p) = true.
Proof.
  unfold norm. apply sqrt_nonneg, add_nonneg; apply mul_self_nonneg, of_Z_not_nan.
Qed.

Lemma abs_nonneg (x : float) : is_nan x = false -> nonneg (abs x) = true.
Proof. destruct x as [s | s | | s m e]; cbn; congruence. Qed.

Lemma mul_nonneg_r (x c : float) :
  nonneg x = true -> positive_finite c = true -> nonneg (mul x c) = true.
Proof.
  destruct c as [sc | sc | | [|] mc ec]; try discriminate.
  destruct x as [sx | [|] | | [|] mx ex]; try discriminate; intros _ _; try reflexivity.
  unfold mul, SFmul. cbn [xorb]. apply signed_nonneg, binary_round_aux_signed. lia.
Qed.

Lemma mul_nonneg_l (c x : float) :
  positive_finite c = true -> nonneg x = true -> nonneg (mul c x) = true.
Proof.
  destruct c as [sc | sc | | [|] mc ec]; try discriminate.
  destruct x as [sx | [|] | | [|] mx ex]; try discriminate; intros _ _; try reflexivity.
  unfold mul, SFmul. cbn [xorb]. apply signed_nonneg, binary_round_aux_signed. lia.
Qed.

Lemma div_eucl_eq (a b : Z) : Z.div_eucl a b = (a / b, a mod b).
Proof. unfold Z.div, Z.modulo. now destruct (Z.div_eucl a b). Qed.

Lemma div_nonneg (x c : float) :
  nonneg x = true -> positive_finite c = true -> nonneg (div x c) = true.
Proof.
  destruct c as [sc | sc | | [|] mc ec]; try discriminate.
  destruct x as [sx | [|] | | [|] mx ex]; try discriminate; intros _ _; try reflexivity.
  unfold div, SFdiv, SFdiv_core_binary.
  set (m' := match _ with Z0 => _ | Zpos _ => _ | Zneg _ => _ end).
  assert (Hm : 0 <= m').
  { unfold m'. destruct (_ - _ - _); try lia. apply Z.shiftl_nonneg. lia. }
  rewrite div_eucl_eq. cbn [xorb].
  apply signed_nonneg, binary_round_aux_signed.
  apply Z.div_pos; lia.
Qed.

Lemma pymax_zero_nonneg (v : float) : nonneg (pymax zero v) = true.
Proof.
  unfold pymax, gtb, ltb, SFltb.
  destruct v as [s | [|] | | [|] m e]; reflexivity.
Qed.

Lemma nonneg_leb_zero (x : float) : nonneg x = true -> leb zero x = true.
Proof. destruct x as [s | [|] | | [|] m e]; cbn; congruence. Qed.

Lemma nonneg_not_below_zero (x : float) : nonneg x = true -> ltb x zero = false.
Proof. destruct x as [s | [|] | | [|] m e]; cbn; congruence. Qed.

Lemma pymin_one_bounds (c : float) :
  nonneg c = true ->
  leb zero (pymin c one) = true /\ leb (pymin c one) one = true.
Proof.
  intro H. unfold pymin. destruct (ltb one c) eqn:E.
  - split; reflexivity.
  - split; [now apply nonneg_leb_zero|].
    apply not_ltb_leb; [now apply nonneg_not_nan | reflexivity | assumption].
Qed.

(** ** Integers as floats *)

Lemma of_Z_positive_finite (n : Z) :
  0 < n -> n < 2 ^ 63 -> positive_finite (of_Z n) = true.
Proof.
  intros H0 H1. destruct n as [| p | p]; try lia.
  unfold of_Z. cbn [binary_normalize].
  destruct (round_shape false p 0 ltac:(lia)) as (m & e & _ & -> & He).
  assert (dig p <= 63) by now apply dig_le.
  rewrite fexp_eq in He.
  destruct (Z.leb_spec e 971); [reflexivity | lia].
Qed.

Lemma div_self (x : float) : positive_finite x = true -> div x x = one.
Proof.
  destruct x as [s | s | | [|] m e]; try discriminate. intros _.
  unfold div, SFdiv, SFdiv_core_binary.
  rewrite !Z.sub_diag.
  change (Z.min (fexp prec emax 0) 0) with (-53).
  change (0 - -53) with 53.
  rewrite div_eucl_eq.
  rewrite Z.shiftl_mul_pow2 by lia.
  rewrite Z.mul_comm, Z.div_mul, Z.mod_mul by lia.
  assert (L : new_location (Z.pos m) 0 = loc_Exact).
  { unfold new_location. destruct (Z.even (Z.pos m)); reflexivity. }
  rewrite L. vm_compute. reflexivity.
Qed.

Lemma int_truediv_self (n : Z) : 0 < n -> int_truediv n n = one.
Proof.
  intro H. destruct n as [| p | p]; try lia.
  cbn [int_truediv]. now apply div_self.
Qed.

Lemma pow_join (x a b : Z) : 0 <= a -> 0 <= b -> x * 2 ^ a * 2 ^ b = x * 2 ^ (a + b).
Proof. intros. rewrite Z.pow_add_r by assumption. ring. Qed.

(** Counting up by one is exact below [2^53]. *)
Lemma add_one (k : Z) :
  0 <= k -> k + 1 < 2 ^ 53 -> add (of_Z k) one = of_Z (k + 1).
Proof.
  intros H0 H1. destruct k as [| p | p]; [reflexivity | | lia].
  assert (Q : exists q, Z.pos q = Z.pos p + 1) by (exists (p + 1)%positive; lia).
  destruct Q as [q Hq]. rewrite <- Hq.
  unfold of_Z. cbn [binary_normalize].
  assert (Dp : dig p <= 53) by (apply dig_le; lia).
  assert (Dq : dig q <= 53) by (apply dig_le; lia).
  pose proof (dig_pos p). pose proof (dig_pos q).
  destruct (round_small false p 0 ltac:(lia) ltac:(lia) Dp) as (m & Hm & _ & ->).
  destruct (round_small false q 0 ltac:(lia) ltac:(lia) Dq) as (m' & Hm' & _ & ->).
  replace (fexp prec emax (dig p + 0)) with (dig p - 53) in * by (rewrite fexp_eq; lia).
  replace (fexp prec emax (dig q + 0)) with (dig q - 53) in * by (rewrite fexp_eq; lia).
  unfold add, SFadd, one.
  rewrite (Z.min_r (dig p - 53) (-52)) by lia.
  destruct (shl_align_spec m (dig p - 53) (-52) ltac:(lia)) as (mz & -> & Hmz).
  rewrite (shl_align_none 4503599627370496 (-52) (-52)) by lia.
  cbn [fst cond_Zopp]. rewrite <- Pos2Z.inj_add. cbn [binary_normalize].
  rewrite (round_exact false (mz + 4503599627370496) (-52) m' (dig q - 53) (-52)).
  - destruct (Z.leb_spec (dig q - 53) 971); [reflexivity | lia].
  - rewrite (dig_shift q m' (0 - (dig q - 53)) ltac:(lia) Hm'). rewrite fexp_eq. lia.
  - lia.
  - lia.
  - rewrite Pos2Z.inj_add, Hmz, Hm, Hm'.
    rewrite !pow_join by lia.
    replace (0 - (dig q - 53) + (dig q - 53 - -52)) with 52 by lia.
    replace (0 - (dig p - 53) + (dig p - 53 - -52)) with 52 by lia.
    change (-52 - -52) with 0. rewrite Hq. change (2 ^ 0) with 1.
    change (2 ^ 52) with 4503599627370496. lia.
Qed.

End FloatShapeFacts.
(* ===================================================================== *)
(** * Confidence of a match *)
(* ===================================================================== *)

Section ConfidenceFacts.

Import Float64 FingerprintMatcher FloatOrder FloatShape Search Wellformed.

Local Open Scope nat_scope.

Variable self : t.

Lemma point_of_to_py (m : Minutia.t) :
  in_int64 (Minutia.x m) && in_int64 (Minutia.y m) = true ->
  point_of (Minutia.to_py m) = Done (Minutia.x m, Minutia.y m).
Proof.
  intro H. unfold point_of, Minutia.to_py.
  change (Py.lookup "x" _) with (Some (PInt (Minutia.x m))).
  change (Py.lookup "y" _) with (Some (PInt (Minutia.y m))).
  cbv beta iota. now rewrite H.
Qed.

Lemma orientation_of_to_py (m : Minutia.t) :
  orientation_of (Minutia.to_py m) = Done (Minutia.orientation m).
Proof. reflexivity. Qed.

Lemma minutia_inv (m : Minutia.t) :
  minutia m = true ->
  in_int64 (Minutia.x m) && in_int64 (Minutia.y m) = true /\
  angle_ok (Minutia.orientation m) = true.
Proof. unfold minutia. intro H. now apply andb_prop in H. Qed.

Lemma points_of_to_py_list (l : list Minutia.t) :
  forallb minutia l = true ->
  mapM point_of (map Minutia.to_py l) = Done (map (fun m => fst (row m)) l).
Proof.
  induction l as [| m l IH]; [reflexivity|].
  cbn [forallb map mapM]. intro H. apply andb_prop in H. destruct H as [Hm Hl].
  apply minutia_inv in Hm. destruct Hm as [Hm _].
  rewrite (point_of_to_py m Hm), (IH Hl). reflexivity.
Qed.

Lemma orientations_of_to_py_list (l : list Minutia.t) :
  mapM orientation_of (map Minutia.to_py l) = Done (map (fun m => snd (row m)) l).
Proof.
  induction l as [| m l IH]; [reflexivity|].
  cbn [map mapM]. rewrite orientation_of_to_py, IH. reflexivity.
Qed.

Lemma combine_rows (l : list Minutia.t) :
  combine (map (fun m => fst (row m)) l) (map (fun m => snd (row m)) l) = map row l.
Proof. induction l as [| m l IH]; [reflexivity|]. cbn [map combine]. now rewrite IH. Qed.

(** The matcher on two lists of well-formed minutiae is the search on
    their rows followed by the arithmetic. *)
Lemma calculate_match_confidence_rows (fuel : nat) (A B : list Minutia.t) :
  A <> [] -> B <> [] ->
  forallb minutia A = true -> forallb minutia B = true ->
  _calculate_match_confidence self fuel (to_py A) (to_py B)
  = try_except
      (matches <- scan_points self fuel 0 (map row A) (map row B) [] [] ;;
       Done (confidence_of self matches (List.length A) (List.length B)))
      zero.
Proof.
  intros HA HB VA VB. unfold _calculate_match_confidence, to_py.
  destruct A as [| a A]; [congruence|]. destruct B as [| b B]; [congruence|].
  cbn [Py.truthy map negb orb elements bind].
  change (Minutia.to_py a :: map Minutia.to_py A) with (map Minutia.to_py (a :: A)).
  change (Minutia.to_py b :: map Minutia.to_py B) with (map Minutia.to_py (b :: B)).
  rewrite !points_of_to_py_list by assumption.
  rewrite !orientations_of_to_py_list.
  cbn [bind]. unfold _find_minutiae_correspondences.
  rewrite !combine_rows, !length_map. reflexivity.
Qed.

(** Two rows with orientations in range are always compared to the
    end, and the measurements are not negative. *)
Lemma pairing_done (f : nat) (r1 r2 : point * float) :
  angle_ok (snd r1) = true -> angle_ok (snd r2) = true ->
  exists r, pairing self (S f) r1 r2 = Done r /\
    forall d od, r = Some (d, od) -> nonneg d = true /\ nonneg od = true.
Proof.
  intros H1 H2. unfold pairing.
  destruct (gtb _ _).
  - exists None. split; [reflexivity | discriminate].
  - destruct (angle_difference_done f _ _ H1 H2) as (a & -> & Ha).
    cbn [bind]. destruct (gtb (abs a) _).
    + exists None. split; [reflexivity | discriminate].
    + eexists. split; [reflexivity|]. intros d od E. injection E as <- <-.
      split; [apply norm_nonneg|].
      apply abs_nonneg. apply in_half_turn_inv in Ha. destruct Ha as [Ha _].
      now apply leb_not_nan in Ha.
Qed.

Lemma scan_candidates_done (f : nat) (rows2 : list (point * float)) :
  forallb (fun r => angle_ok (snd r)) rows2 = true ->
  forall i p1 o1 used j bm bs,
    angle_ok o1 = true ->
    exists r, scan_candidates self (S f) i p1 o1 used j rows2 bm bs = Done r.
Proof.
  induction rows2 as [| [p2 o2] rest IH]; intros V i p1 o1 used j bm bs H1.
  - eexists. reflexivity.
  - cbn [forallb snd] in V. apply andb_prop in V. destruct V as [H2 V].
    rewrite scan_candidates_cons.
    destruct (mem j used); [now apply IH|].
    destruct (pairing_done f (p1, o1) (p2, o2) H1 H2) as (r & -> & _).
    cbn [bind]. destruct r as [[d od] |]; [| now apply IH].
    destruct (ltb _ bs); now apply IH.
Qed.

Lemma scan_points_done (f : nat) (rows2 : list (point * float)) :
  forallb (fun r => angle_ok (snd r)) rows2 = true ->
  forall rows1 i matches used,
    forallb (fun r => angle_ok (snd r)) rows1 = true ->
    exists ms, scan_points self (S f) i rows1 rows2 matches used = Done ms /\
               List.length ms <= List.length matches + List.length rows1.
Proof.
  intros V2. induction rows1 as [| [p1 o1] rest IH]; intros i matches used V1.
  - exists matches. split; [reflexivity | cbn; lia].
  - cbn [forallb snd] in V1. apply andb_prop in V1. destruct V1 as [H1 V1].
    cbn [scan_points].
    destruct (scan_candidates_done f rows2 V2 i p1 o1 used 0 None infinity H1) as (r & ->).
    cbn [bind]. destruct r as [m |].
    + destruct (IH (S i) (matches ++ [m]) (index2 m :: used) V1) as (ms & E & L).
      exists ms. split; [assumption|]. rewrite length_app in L. cbn [List.length] in *. lia.
    + destruct (IH (S i) matches used V1) as (ms & E & L).
      exists ms. split; [assumption|]. cbn [List.length]. lia.
Qed.

Lemma rows_ok (l : list Minutia.t) :
  forallb minutia l = true -> forallb (fun r => angle_ok (snd r)) (map row l) = true.
Proof.
  induction l as [| m l IH]; [reflexivity|].
  cbn [forallb map]. intro H. apply andb_prop in H. destruct H as [Hm Hl].
  apply minutia_inv in Hm. destruct Hm as [_ Hm].
  cbn [row snd]. now rewrite Hm, IH.
Qed.

(** Outside the data model the loop need not end: on [float('inf')]
    every pass leaves the angle as it is. *)
Lemma normalize_angle_infinity (fuel : nat) :
  _normalize_angle fuel infinity = Hang.
Proof.
  unfold _normalize_angle.
  assert (H : while_above_pi fuel infinity = Hang)
    by (induction fuel as [| f IH]; [reflexivity | exact IH]).
  now rewrite H.
Qed.

(** ** The arithmetic after the search *)

Lemma score_nonneg (value limit : float) : nonneg (score value limit) = true.
Proof. apply pymax_zero_nonneg. Qed.

Lemma total_scores_nonneg (matches : list correspondence) (a b : float) :
  nonneg a = true -> nonneg b = true ->
  nonneg (fst (total_scores self matches a b)) = true /\
  nonneg (snd (total_scores self matches a b)) = true.
Proof.
  revert a b. induction matches as [| m rest IH]; intros a b Ha Hb.
  - now split.
  - cbn [total_scores]. apply IH; apply add_nonneg; try assumption; apply score_nonneg.
Qed.

Lemma confidence_of_bounds (matches : list correspondence) (len1 len2 : nat) :
  List.length matches <= len1 -> (Z.of_nat len1 < 2 ^ 63)%Z ->
  leb zero (confidence_of self matches len1 len2) = true /\
  leb (confidence_of self matches len1 len2) one = true.
Proof.
  intros L B. destruct matches as [| m rest] eqn:E; [split; reflexivity|].
  rewrite <- E in *. assert (N : 0 < List.length matches) by (subst; cbn; lia). clear E.
  unfold confidence_of. destruct matches as [| m0 rest0] eqn:E; [cbn in N; lia|].
  rewrite <- E in *. clear E.
  pose proof (total_scores_nonneg matches zero zero eq_refl eq_refl) as [T1 T2].
  destruct (total_scores self matches zero zero) as [td toc]. cbn [fst snd] in T1, T2.
  assert (C : positive_finite (of_Z (Z.of_nat (List.length matches))) = true)
    by (apply of_Z_positive_finite; lia).
  assert (R : nonneg (int_truediv (Z.of_nat (List.length matches))
                        (Z.max (Z.of_nat len1) (Z.of_nat len2))) = true).
  { destruct (Z.of_nat (List.length matches)) as [| p | p] eqn:Ep; try lia.
    destruct (Z.max (Z.of_nat len1) (Z.of_nat len2)) as [| q | q] eqn:Eq; try lia.
    cbn [int_truediv]. now apply div_nonneg. }
  set (c := add (add (mul f0_4 _) (mul f0_3 _)) (mul f0_3 _)).
  assert (Hc : nonneg c = true).
  { unfold c. repeat apply add_nonneg; apply mul_nonneg_l; try reflexivity;
      try assumption; now apply div_nonneg. }
  apply pymin_one_bounds.
  destruct (_ <=? _)%Z; [now apply add_nonneg|].
  destruct (_ <=? _)%Z; [now apply add_nonneg | assumption].
Qed.

End ConfidenceFacts.
(* ===================================================================== *)
(** * A list of minutiae against itself *)
(* ===================================================================== *)

Section SelfMatchFacts.

Import Float64 FingerprintMatcher FloatOrder FloatShape Search Wellformed.

Local Open Scope nat_scope.

Lemma sub_diag (x : float) : is_finite x = true -> sub x x = zero.
Proof.
  destruct x as [s | s | | s m e]; try discriminate; intros _.
  - destruct s; reflexivity.
  - unfold sub, SFsub. rewrite Z.sub_diag. reflexivity.
Qed.

Lemma angle_ok_finite_value (x : float) : angle_ok x = true -> is_finite x = true.
Proof. destruct x as [s | [|] | | s m e]; try reflexivity; discriminate. Qed.

Lemma normalize_angle_zero (fuel : nat) : _normalize_angle fuel zero = Done zero.
Proof. destruct fuel; reflexivity. Qed.

Lemma point_sub_diag (p : point) : point_sub p p = (0, 0)%Z.
Proof. unfold point_sub. rewrite !Z.sub_diag. reflexivity. Qed.

(** A row against itself passes both gates at distance 0 and
    orientation difference 0. *)
Lemma pairing_self (fuel : nat) (r : point * float) :
  angle_ok (snd r) = true ->
  pairing __init__ fuel r r = Done (Some (zero, zero)).
Proof.
  intro H. unfold pairing. rewrite point_sub_diag.
  change (norm (0, 0)%Z) with zero.
  change (gtb zero (of_Z (max_distance_threshold __init__))) with false. cbv iota.
  rewrite sub_diag by now apply angle_ok_finite_value.
  rewrite normalize_angle_zero. reflexivity.
Qed.

Lemma combined_nonneg (d od : float) :
  nonneg d = true -> nonneg od = true -> nonneg (combined d od) = true.
Proof.
  intros Hd Ho. unfold combined. apply add_nonneg; [assumption|].
  now apply mul_nonneg_r.
Qed.

(** Once a candidate at score 0 is held, no later row replaces it. *)
Lemma scan_candidates_keep (f : nat) (rest : list (point * float)) :
  forallb (fun r => angle_ok (snd r)) rest = true ->
  forall i p1 o1 used j m,
    angle_ok o1 = true ->
    scan_candidates __init__ (S f) i p1 o1 used j rest (Some m) zero = Done (Some m).
Proof.
  induction rest as [| [p2 o2] rest IH]; intros V i p1 o1 used j m H1; [reflexivity|].
  cbn [forallb snd] in V. apply andb_prop in V. destruct V as [H2 V].
  rewrite scan_candidates_cons.
  destruct (mem j used); [now apply IH|].
  destruct (pairing_done __init__ f (p1, o1) (p2, o2) H1 H2) as (r & -> & Hr).
  cbn [bind]. destruct r as [[d od] |]; [| now apply IH].
  destruct (Hr d od eq_refl) as [Hd Ho].
  rewrite (nonneg_not_below_zero _ (combined_nonneg d od Hd Ho)). now apply IH.
Qed.

Lemma scan_candidates_self (f : nat) (r : point * float) (post : list (point * float)) :
  angle_ok (snd r) = true ->
  forallb (fun r => angle_ok (snd r)) post = true ->
  forall pre i used j,
    j + List.length pre = i ->
    (forall k, j <= k < i -> mem k used = true) ->
    mem i used = false ->
    scan_candidates __init__ (S f) i (fst r) (snd r) used j (pre ++ r :: post) None infinity
    = Done (Some (i, i, zero, zero)).
Proof.
  intros Hr Hpost. induction pre as [| [p2 o2] pre IH]; intros i used j Hj Hused Hi.
  - cbn [List.length] in Hj. assert (j = i) by lia. subst j.
    destruct r as [p o]. cbn [app fst snd] in *.
    rewrite scan_candidates_cons, Hi.
    rewrite (pairing_self (S f) (p, o) Hr). cbn [bind].
    change (combined zero zero) with zero.
    change (ltb zero infinity) with true. cbv iota.
    now apply scan_candidates_keep.
  - cbn [List.length] in Hj. cbn [app].
    rewrite scan_candidates_cons.
    rewrite (Hused j) by lia.
    apply IH; [lia | | assumption].
    intros k Hk. apply Hused. lia.
Qed.

Lemma identity_pairs_cons (i n : nat) :
  identity_pairs i (S n) = (i, i, zero, zero) :: identity_pairs (S i) n.
Proof. reflexivity. Qed.

Lemma identity_pairs_length (i n : nat) : List.length (identity_pairs i n) = n.
Proof. unfold identity_pairs. now rewrite length_map, length_seq. Qed.

(** The outer loop on a list against itself pairs every index with
    itself. *)
Lemma scan_points_self (f : nat) (suf : list (point * float)) :
  forall pre matches used,
    forallb (fun r => angle_ok (snd r)) (pre ++ suf) = true ->
    (forall k, mem k used = true <-> k < List.length pre) ->
    scan_points __init__ (S f) (List.length pre) suf (pre ++ suf) matches used
    = Done (matches ++ identity_pairs (List.length pre) (List.length suf)).
Proof.
  induction suf as [| r suf IH]; intros pre matches used V Hused.
  - cbn. now rewrite app_nil_r.
  - assert (V' := V). rewrite forallb_app in V'. apply andb_prop in V'.
    destruct V' as [_ V']. cbn [forallb] in V'. apply andb_prop in V'.
    destruct V' as [Hr Hsuf].
    assert (Hi : mem (List.length pre) used = false).
    { destruct (mem (List.length pre) used) eqn:E; [| reflexivity].
      apply Hused in E. lia. }
    destruct r as [p o]. cbn [scan_points].
    pose proof (scan_candidates_self f (p, o) suf Hr Hsuf pre (List.length pre) used 0
                  ltac:(lia) ltac:(intros k Hk; apply Hused; lia) Hi) as E.
    cbn [fst snd] in E. rewrite E. clear E.
    cbn [bind index2 fst snd].
    replace (pre ++ (p, o) :: suf) with ((pre ++ [(p, o)]) ++ suf)
      by (rewrite <- app_assoc; reflexivity).
    replace (S (List.length pre)) with (List.length (pre ++ [(p, o)]))
      by (rewrite length_app; cbn; lia).
    rewrite IH.
    + rewrite <- app_assoc. cbn [List.length]. rewrite identity_pairs_cons.
      rewrite length_app. cbn [List.length app].
      replace (List.length pre + 1) with (S (List.length pre)) by lia. reflexivity.
    + rewrite <- app_assoc. exact V.
    + intro k. rewrite length_app. cbn [List.length mem existsb].
      rewrite orb_true_iff, Nat.eqb_eq.
      change (existsb (Nat.eqb k) used) with (mem k used).
      rewrite Hused. lia.
Qed.

Lemma score_zero_distance :
  score zero (of_Z (max_distance_threshold __init__)) = one.
Proof. reflexivity. Qed.

Lemma score_zero_orientation :
  score (abs zero) (orientation_tolerance __init__) = one.
Proof. reflexivity. Qed.

Lemma total_scores_identity (n : nat) :
  forall i k, (0 <= k)%Z -> (k + Z.of_nat n < 2 ^ 53)%Z ->
    total_scores __init__ (identity_pairs i n) (of_Z k) (of_Z k)
    = (of_Z (k + Z.of_nat n), of_Z (k + Z.of_nat n)).
Proof.
  induction n as [| n IH]; intros i k H0 H1.
  - cbn [identity_pairs seq map total_scores Z.of_nat]. now rewrite Z.add_0_r.
  - rewrite identity_pairs_cons. cbn [total_scores].
    change (distance_of (i, i, zero, zero)) with zero.
    change (orientation_diff_of (i, i, zero, zero)) with zero.
    rewrite score_zero_distance, score_zero_orientation.
    rewrite add_one by lia.
    rewrite IH by lia.
    replace (k + 1 + Z.of_nat n)%Z with (k + Z.of_nat (S n))%Z by lia. reflexivity.
Qed.

Lemma confidence_of_identity (n : nat) :
  0 < n -> (Z.of_nat n < 2 ^ 53)%Z ->
  confidence_of __init__ (identity_pairs 0 n) n n = one.
Proof.
  intros H0 H1. unfold confidence_of.
  destruct (identity_pairs 0 n) as [| m rest] eqn:E.
  - apply (f_equal (@List.length _)) in E. rewrite identity_pairs_length in E. cbn in E. lia.
  - rewrite <- E. clear E. rewrite identity_pairs_length.
    change zero with (of_Z 0).
    rewrite (total_scores_identity n 0 0%Z) by lia.
    rewrite Z.add_0_l, Z.max_id.
    rewrite int_truediv_self by lia.
    rewrite div_self by (apply of_Z_positive_finite; lia).
    destruct (15 <=? Z.of_nat n)%Z; [reflexivity|].
    destruct (10 <=? Z.of_nat n)%Z; reflexivity.
Qed.

Lemma find_correspondences_self (f : nat) (M : list Minutia.t) :
  forallb minutia M = true ->
  scan_points __init__ (S f) 0 (map row M) (map row M) [] []
  = Done (identity_pairs 0 (List.length M)).
Proof.
  intro V.
  pose proof (scan_points_self f (map row M) [] [] []) as H.
  cbn [app List.length] in H. rewrite length_map in H. apply H.
  - now apply rows_ok.
  - intro k. cbn. split; [discriminate | lia].
Qed.

End SelfMatchFacts.

(* ===================================================================== *)
(** * Properties of the correspondence search *)
(* ===================================================================== *)

Section SearchClaims.

Import Float64 FingerprintMatcher FloatOrder Search.

Local Open Scope nat_scope.

(** Claim C5.  In every correspondence list that
    [_find_minutiae_correspondences] returns, each index of the first
    set and each index of the second set occurs at most once, every
    index is a valid row of its set, and the number of correspondences
    is at most [min(|A|, |B|)]. *)
Theorem C5_one_to_one :
  forall (self : t) (fuel : nat) (points1 points2 : list point)
         (orientations1 orientations2 : list float) (matches : list correspondence),
    _find_minutiae_correspondences self fuel points1 points2 orientations1 orientations2
      = Done matches ->
    NoDup (map index1 matches) /\
    NoDup (map index2 matches) /\
    (forall m, In m matches ->
       index1 m < List.length points1 /\ index2 m < List.length points2) /\
    List.length matches <= Nat.min (List.length points1) (List.length points2).
Proof.
  intros self fuel points1 points2 orientations1 orientations2 matches Hrun.
  unfold _find_minutiae_correspondences in Hrun.
  destruct (scan_points_one_to_one self fuel _ _ 0 [] [] matches Hrun)
    as (Hs & Hn & Hb).
  - constructor.
  - constructor.
  - intros j. simpl. tauto.
  - intros m [].
  - assert (L1 : List.length (combine points1 orientations1) <= List.length points1)
      by (rewrite length_combine; apply Nat.le_min_l).
    assert (L2 : List.length (combine points2 orientations2) <= List.length points2)
      by (rewrite length_combine; apply Nat.le_min_l).
    assert (Hb' : forall m, In m matches ->
              index1 m < List.length points1 /\ index2 m < List.length points2).
    { intros m Hm. destruct (Hb m Hm). simpl in *. lia. }
    pose proof (sorted_nodup _ Hs) as Hn1.
    repeat split; try assumption; try (now apply Hb').
    apply Nat.min_glb.
    + rewrite <- (length_map index1). apply nodup_bounded_length; [assumption|].
      intros x Hx. apply in_map_iff in Hx. destruct Hx as (m & <- & Hm). now apply Hb'.
    + rewrite <- (length_map index2). apply nodup_bounded_length; [assumption|].
      intros x Hx. apply in_map_iff in Hx. destruct Hx as (m & <- & Hm). now apply Hb'.
Qed.

(** Two points against three candidates, the second candidate being the
    exact copy of the first point. *)
Lemma C5_one_to_one_witness :
  let points1 := [(0, 0); (3, 4)]%Z in
  let points2 := [(3, 4); (0, 0); (30, 40)]%Z in
  let orientations1 := [zero; f0_3] in
  let orientations2 := [f0_1; zero; zero] in
  exists matches,
    _find_minutiae_correspondences __init__ 2 points1 points2 orientations1 orientations2
      = Done matches /\
    map index1 matches = [0; 1] /\
    map index2 matches = [1; 0] /\
    NoDup (map index1 matches) /\
    NoDup (map index2 matches) /\
    List.length matches <= 2.
Proof.
  intros points1 points2 orientations1 orientations2.
  destruct (_find_minutiae_correspondences __init__ 2 points1 points2
              orientations1 orientations2) as [matches| |] eqn:E;
    try (vm_compute in E; discriminate E).
  exists matches.
  destruct (C5_one_to_one __init__ 2 points1 points2 orientations1 orientations2
              matches E) as (H1 & H2 & _ & H4).
  vm_compute in E. inversion E; subst matches.
  repeat split; try assumption; reflexivity.
Defined.



End SearchClaims.

(* ===================================================================== *)
(** * Properties of best-match selection *)
(* ===================================================================== *)

Section SelectionClaims.

Import Float64 FingerprintMatcher FloatOrder Selection Examples.

Local Open Scope nat_scope.

(** Claim C6.  With a positive match threshold (0.7 by default), an
    input template that decodes to a record with minutiae, and
    candidates whose evaluations are [rs]: [match_fingerprint] returns
    [None] when no candidate has a confidence [>=] the threshold;
    otherwise it returns the candidate at some position [k] whose
    confidence is [>=] the threshold (a confidence equal to the
    threshold qualifies), is [>=] the confidence of every other
    qualifying candidate, and is strictly above the confidence of every
    qualifying candidate before position [k] (on a tie the earlier
    candidate wins). *)
Theorem C6_best_match_selection :
  forall (self : t) (fuel : nat) (input_template : pyval) (d : list (string * pyval))
         (templates : list pyval) (rs : list (option (pyval * float))),
    ltb zero (match_threshold self) = true ->
    _decode_template input_template = Some (PDict d) ->
    Py.truthy (PDict d) = true ->
    Py.truthy (Py.get d "minutiae" (PList [])) = true ->
    Forall2 (fun template_info r =>
               evaluate self fuel (Py.get d "minutiae" (PList [])) template_info = Done r)
            templates rs ->
    exists result,
      match_fingerprint self fuel input_template templates = Done result /\
      ((result = PNone /\
        forall k sid c, nth_error rs k = Some (Some (sid, c)) -> qualifies self c = false)
       \/
       (exists k sid c,
          result = match_result sid c /\
          nth_error rs k = Some (Some (sid, c)) /\
          qualifies self c = true /\
          forall k' sid' c', nth_error rs k' = Some (Some (sid', c')) ->
            qualifies self c' = true ->
            leb c' c = true /\ (k' < k -> ltb c' c = true))).
Proof.
  intros self fuel input_template d templates rs Hthr Hdec Hd Hm Hrs.
  unfold match_fingerprint. rewrite Hdec, Hd, Hm. simpl negb. cbv iota.
  rewrite (candidate_loop_fold self fuel _ templates rs _ Hrs). simpl.
  exists (fst (fold_left (select self) rs (PNone, zero))). split; [reflexivity|].
  assert (H0 : best_of self [] (PNone, zero)).
  { left. split; [reflexivity|]. intros k sid c Hk. destruct k; discriminate. }
  pose proof (fold_select self rs Hthr [] _ H0) as H. simpl in H.
  destruct H as [(E & Hnone)|(k & sid & c & E & Hk & Hq & Hmax)]; rewrite E; simpl.
  - left. split; [reflexivity | exact Hnone].
  - right. exists k, sid, c. repeat split; try assumption; now apply (Hmax k' sid' c').
Qed.

(** Two candidates with the same template as the input: both have
    confidence 1.0 and the first one is returned. *)
Lemma C6_best_match_selection_witness :
  let rs := [Some (PStr "s1", one); Some (PStr "s2", one)] in
  exists result,
    match_fingerprint __init__ 2 (PStr template_one)
      [candidate "s1" template_one; candidate "s2" template_one] = Done result /\
    ((result = PNone /\
      forall k sid c, nth_error rs k = Some (Some (sid, c)) -> qualifies __init__ c = false)
     \/
     (exists k sid c,
        result = match_result sid c /\
        nth_error rs k = Some (Some (sid, c)) /\
        qualifies __init__ c = true /\
        forall k' sid' c', nth_error rs k' = Some (Some (sid', c')) ->
          qualifies __init__ c' = true ->
          leb c' c = true /\ (k' < k -> ltb c' c = true))).
Proof.
  intros rs.
  assert (Hdec : _decode_template (PStr template_one)
                 = Some (PDict
            [("version", PStr "1.0");
             ("quality", PFloat (S754_finite false 6755399441055744 (-53)));
             ("image_shape", PList [PInt 300; PInt 256]);
             ("minutiae",
              PList
                [PDict
                   [("x", PInt 10); ("y", PInt 10);
                    ("orientation", PFloat (S754_zero false));
                    ("type", PStr "bifurcation")]]);
             ("minutiae_count", PInt 1); ("created_at", PNone)]%string))
    by (vm_compute; reflexivity).
  refine (C6_best_match_selection __init__ 2 (PStr template_one) _ _ rs _ Hdec _ _ _).
  - vm_compute; reflexivity.
  - reflexivity.
  - reflexivity.
  - repeat constructor; vm_compute; reflexivity.
Defined.

(** Claim C8, at the input where the code departs from it.  The second
    candidate's template is the base64 text of the JSON number 5: it
    decodes to a value that is not a record, the lookup of its minutiae
    raises, and the handler around the whole loop returns [None] although
    the first candidate matched.  Without that candidate the first one
    is returned. *)
Theorem C8_corrupt_candidate_aborts :
  forall fuel : nat,
    _decode_template (PStr template_five) = Some (PInt 5) /\
    match_fingerprint __init__ fuel (PStr template_one)
      [candidate "s1" template_one; candidate "s2" template_five] = Done PNone /\
    match_fingerprint __init__ fuel (PStr template_one)
      [candidate "s1" template_one] = Done (match_result (PStr "s1") one).
Proof.
  intros fuel. destruct fuel; repeat split; vm_compute; reflexivity.
Qed.

(** Claim C10.  When the input template does not decode, or decodes to
    a record without a [minutiae] entry or with an empty one,
    [match_fingerprint] returns [None]: for every candidate list and
    every iteration budget, so also for candidates whose evaluation
    would raise or hang; no outcome of a candidate takes part. *)
Theorem C10_undecodable_input :
  forall (self : t) (fuel : nat) (input_template : pyval) (templates : list pyval),
    (_decode_template input_template = None \/
     exists d, _decode_template input_template = Some (PDict d) /\
               (Py.lookup "minutiae" d = None \/
                Py.lookup "minutiae" d = Some (PList []))) ->
    match_fingerprint self fuel input_template templates = Done PNone.
Proof.
  intros self fuel input_template templates [H|(d & H & Hm)];
    unfold match_fingerprint; rewrite H; [reflexivity|].
  destruct (negb (Py.truthy (PDict d))); [reflexivity|].
  unfold Py.get. destruct Hm as [-> | ->]; reflexivity.
Qed.

(** An input with incomplete padding, against a candidate that would
    match and one that would raise. *)
Lemma C10_undecodable_input_witness :
  _decode_template (PStr template_bad_padding) = None /\
  match_fingerprint __init__ 0 (PStr template_bad_padding)
    [candidate "s1" template_one; PInt 3] = Done PNone.
Proof.
  assert (H : _decode_template (PStr template_bad_padding) = None)
    by (vm_compute; reflexivity).
  split; [exact H|].
  apply C10_undecodable_input. left. exact H.
Defined.

End SelectionClaims.

(* ===================================================================== *)
(** * The template codec *)
(* ===================================================================== *)

Section CodecClaims.

Import Float64 FingerprintProcessor Plain Examples.

Lemma kind_name_plain (k : Minutia.kind) : plain_string (Minutia.kind_name k) = true.
Proof. destruct k; reflexivity. Qed.

Lemma minutia_of_to_py (m : Minutia.t) : Minutia.of_py (Minutia.to_py m) = Some m.
Proof. destruct m as [x y o [|]]; reflexivity. Qed.

Lemma points_of_to_py (ms : list Minutia.t) :
  Template.points_of_py (map Minutia.to_py ms) = Some ms.
Proof.
  induction ms as [|m ms IH]; [reflexivity|].
  cbn [map Template.points_of_py]. now rewrite minutia_of_to_py, IH.
Qed.

Lemma minutia_plain (float_repr : float -> string) (m : Minutia.t) :
  repr_round_trips float_repr (Minutia.orientation m) = true ->
  plain float_repr (Minutia.to_py m) = true.
Proof.
  intros H. unfold Minutia.to_py. cbn [plain map fst snd forallb].
  rewrite H, kind_name_plain. reflexivity.
Qed.

Lemma minutiae_plain (float_repr : float -> string) (ms : list Minutia.t) :
  forallb (repr_round_trips float_repr) (map Minutia.orientation ms) = true ->
  forallb (plain float_repr) (map Minutia.to_py ms) = true.
Proof.
  induction ms as [|m ms IH]; [reflexivity|].
  cbn [map forallb]. intros H. apply andb_prop in H. destruct H as (Hm & Hr).
  now rewrite (minutia_plain _ m Hm), (IH Hr).
Qed.

Lemma jsonify_minutiae (ms : list Minutia.t) :
  map jsonify (map Minutia.to_py ms) = map Minutia.to_py ms.
Proof.
  induction ms as [|m ms IH]; [reflexivity|]. cbn [map]. now rewrite IH.
Qed.

(** What [_decode_template] returns on a template written by
    [_generate_template]. *)
Lemma decode_generate (float_repr : float -> string) (self : t)
    (ms : list Minutia.t) (q : float) (h w : Z) :
  plain_string (template_version self) = true ->
  forallb (repr_round_trips float_repr) (q :: map Minutia.orientation ms) = true ->
  _decode_template
    (PStr (_generate_template float_repr self (map Minutia.to_py ms) q [h; w]))
  = Some (PDict [ ("version"%string, PStr (template_version self));
                  ("quality"%string, PFloat q);
                  ("image_shape"%string, PList [PInt h; PInt w]);
                  ("minutiae"%string, PList (map Minutia.to_py ms));
                  ("minutiae_count"%string, PInt (Z.of_nat (List.length ms)));
                  ("created_at"%string, PNone) ]).
Proof.
  intros Hv Hf. cbn [forallb] in Hf. apply andb_prop in Hf. destruct Hf as (Hq & Hms).
  unfold _generate_template. rewrite decode_encode.
  - unfold template_data. cbn [jsonify map fst snd].
    rewrite jsonify_minutiae, length_map. reflexivity.
  - unfold template_data. cbn [plain map fst snd forallb distinct existsb].
    rewrite Hv, Hq, (minutiae_plain _ ms Hms). reflexivity.
Qed.

(** Claim C1.  For a template [T] whose version is the processor's
    version and whose count is the length of its minutiae, decoding the
    text written by [_generate_template] gives a record with the same
    version, quality, image shape, minutiae (x, y, orientation and type
    of every point, in order) and count.  [float.__repr__] is the
    interpreter's: it is a parameter, assumed to write each float of [T]
    as a JSON number that reads back as that float.  The decoded record
    holds the shape as a list and the extra key [created_at]. *)
Theorem C1_round_trip :
  forall (float_repr : float -> string) (self : t) (T : Template.t),
    plain_string (template_version self) = true ->
    Template.version T = template_version self ->
    Template.minutiae_count T = Z.of_nat (List.length (Template.minutiae T)) ->
    forallb (repr_round_trips float_repr) (Template.floats T) = true ->
    exists d,
      _decode_template
        (PStr (_generate_template float_repr self
                 (map Minutia.to_py (Template.minutiae T)) (Template.quality T)
                 [fst (Template.image_shape T); snd (Template.image_shape T)]))
      = Some (PDict d) /\
      Py.lookup "version" d = Some (PStr (Template.version T)) /\
      Py.lookup "quality" d = Some (PFloat (Template.quality T)) /\
      Py.lookup "image_shape" d
      = Some (PList [PInt (fst (Template.image_shape T));
                     PInt (snd (Template.image_shape T))]) /\
      Py.lookup "minutiae" d = Some (PList (map Minutia.to_py (Template.minutiae T))) /\
      Py.lookup "minutiae_count" d = Some (PInt (Template.minutiae_count T)) /\
      Template.of_py (PDict d) = Some T.
Proof.
  intros float_repr self T Hplain Hver Hcount Hfloats.
  destruct T as [ver q [h w] ms n]. cbn [Template.version Template.quality
    Template.image_shape Template.minutiae Template.minutiae_count fst snd] in *.
  subst ver n.
  eexists. split; [apply decode_generate; assumption|].
  repeat split.
  unfold Template.of_py. cbn [Py.lookup String.eqb Ascii.eqb Bool.eqb].
  rewrite points_of_to_py. reflexivity.
Qed.

(** A template of two points, with the exact decimal expansion as the
    text of a float. *)
Lemma C1_round_trip_witness :
  let T := {| Template.version := "1.0";
              Template.quality := S754_finite false 6755399441055744 (-53);
              Template.image_shape := (300, 256);
              Template.minutiae :=
                [ {| Minutia.x := 10; Minutia.y := 10; Minutia.orientation := zero;
                     Minutia.type := Minutia.bifurcation |};
                  {| Minutia.x := 3; Minutia.y := 4; Minutia.orientation := f0_5;
                     Minutia.type := Minutia.ridge_ending |} ];
              Template.minutiae_count := 2 |} in
  exists d,
    _decode_template
      (PStr (_generate_template exact_repr __init__
               (map Minutia.to_py (Template.minutiae T)) (Template.quality T) [300; 256]))
    = Some (PDict d) /\
    Template.of_py (PDict d) = Some T.
Proof.
  intros T.
  destruct (C1_round_trip exact_repr __init__ T) as (d & Hd & _ & _ & _ & _ & _ & HT).
  - reflexivity.
  - reflexivity.
  - reflexivity.
  - vm_compute. reflexivity.
  - exists d. split; assumption.
Defined.

End CodecClaims.

Section DecodeClaims.

Import Float64 Plain Examples.

(** Claim C7 fails on the code: a record whose version is not the
    processor's, and a document that is not a record, both decode
    without any error, in the processor and in the matcher. *)
Lemma C7_counterexample :
  FingerprintProcessor._decode_template (PStr template_version_9_9)
  = Some (PDict [("version"%string, PStr "9.9")]) /\
  FingerprintProcessor.template_version FingerprintProcessor.__init__ <> "9.9"%string /\
  FingerprintProcessor._decode_template (PStr template_five) = Some (PInt 5) /\
  FingerprintMatcher._decode_template (PStr template_version_9_9)
  = Some (PDict [("version"%string, PStr "9.9")]) /\
  FingerprintMatcher._decode_template (PStr template_five) = Some (PInt 5).
Proof.
  repeat split; try (vm_compute; reflexivity). discriminate.
Qed.

(** Claim C7 as amended.  Decoding never raises and has one failure
    value, [None].  The two [_decode_template] methods are the same
    function.  [None] is returned whenever the argument is not a string,
    or is not base64 text, or its bytes are not UTF-8, or the text is not
    a JSON document; for a text within the limits of the interpreter
    these are the only cases, the result being what [json.loads] reads.
    The version is not looked at and the document need not be a record:
    the base64 text of the JSON text of any plain value, when that text
    is within the limits, decodes to that value. *)
Theorem C7_decode_failures :
  forall template : pyval,
    FingerprintMatcher._decode_template template
    = FingerprintProcessor._decode_template template /\
    ((forall s, template <> PStr s) \/
     (exists s, template = PStr s /\
        (Base64.b64decode s = None \/
         exists bytes, Base64.b64decode s = Some bytes /\
           (Utf8.decode bytes = None \/
            exists text, Utf8.decode bytes = Some text /\ Json.loads text = None))) ->
     FingerprintProcessor._decode_template template = None) /\
    (forall s bytes text,
       template = PStr s -> Base64.b64decode s = Some bytes ->
       Utf8.decode bytes = Some text -> JsonLimits.within text = true ->
       FingerprintProcessor._decode_template template = Json.loads text /\
       (FingerprintProcessor._decode_template template = None <-> Json.loads text = None)) /\
    (forall (float_repr : float -> string) (v : pyval),
       plain float_repr v = true ->
       JsonLimits.within (Json.dumps float_repr v) = true ->
       template = PStr (Base64.b64encode (Json.dumps float_repr v)) ->
       FingerprintProcessor._decode_template template = Some (jsonify v)).
Proof.
  intros template. split; [reflexivity|]. split; [| split].
  - unfold FingerprintProcessor._decode_template.
    intros [H | (s & -> & H)].
    + destruct template; try reflexivity. exfalso. now apply (H s).
    + destruct H as [-> | (bytes & -> & H)]; [reflexivity|].
      destruct H as [-> | (text & -> & H)]; [reflexivity | exact H].
  - intros s bytes text -> Hb Hu _.
    unfold FingerprintProcessor._decode_template. rewrite Hb, Hu.
    split; [reflexivity | tauto].
  - intros float_repr v Hp _ ->. now apply decode_encode.
Qed.

(** A text with incomplete padding is not decoded; the JSON number [5],
    within the limits, is. *)
Lemma C7_decode_failures_witness :
  FingerprintProcessor._decode_template (PStr template_bad_padding) = None /\
  FingerprintProcessor._decode_template (PStr template_five) = Some (PInt 5).
Proof.
  split.
  - apply (proj1 (proj2 (C7_decode_failures (PStr template_bad_padding)))).
    right. exists template_bad_padding. split; [reflexivity|]. left.
    vm_compute. reflexivity.
  - apply (proj2 (proj2 (proj2 (C7_decode_failures (PStr template_five)))) exact_repr (PInt 5));
      vm_compute; reflexivity.
Defined.

End DecodeClaims.

(* ===================================================================== *)
(** * Properties of the match confidence *)
(* ===================================================================== *)

Section ConfidenceClaims.

Import Float64 FingerprintMatcher FloatOrder FloatShape Search Wellformed Examples.

Local Open Scope nat_scope.

(** Claim C3.  For two lists [A] and [B] of minutiae of the data model
    (coordinates of the [int64] array, orientations between [-pi] and
    [pi]; a list has fewer than [2^63] elements),
    [_calculate_match_confidence] returns, as soon as each [while] loop
    of [_normalize_angle] may run once, a confidence [c] with
    [0 <= c <= 1], for every configuration of the thresholds; [c] is 0
    when [A] or [B] is empty.  With an empty list on either side the
    call returns 0 whatever the other argument is and whatever the
    iteration budget: nothing is searched. *)
Theorem C3_confidence_range (self : t) (fuel : nat) (A B : list Minutia.t) :
  forallb minutia A = true ->
  forallb minutia B = true ->
  (Z.of_nat (List.length A) < 2 ^ 63)%Z ->
  1 <= fuel ->
  (exists c,
     _calculate_match_confidence self fuel (to_py A) (to_py B) = Done c /\
     leb zero c = true /\ leb c one = true /\
     (A = [] \/ B = [] -> c = zero)) /\
  (forall k v,
     _calculate_match_confidence self k (PList []) v = Done zero /\
     _calculate_match_confidence self k v (PList []) = Done zero).
Proof.
  intros VA VB LA Hf. split.
  - destruct A as [| a A'] eqn:EA.
    { exists zero. repeat split; reflexivity. }
    destruct B as [| b B'] eqn:EB.
    { exists zero. repeat split; reflexivity. }
    rewrite <- EA, <- EB in *.
    assert (NA : A <> []) by (subst A; discriminate).
    assert (NB : B <> []) by (subst B; discriminate).
    rewrite (calculate_match_confidence_rows self fuel A B NA NB VA VB).
    destruct fuel as [| f]; [lia|].
    destruct (scan_points_done self f (map row B) (rows_ok B VB) (map row A) 0 [] []
                (rows_ok A VA)) as (ms & -> & L).
    cbn [bind try_except]. eexists. split; [reflexivity|].
    cbn [List.length] in L. rewrite length_map in L.
    destruct (confidence_of_bounds self ms (List.length A) (List.length B) L LA) as [C0 C1].
    repeat split; try assumption.
    intros [E | E]; congruence.
  - intros k v. unfold _calculate_match_confidence. cbn [Py.truthy negb orb].
    split; [reflexivity|]. now rewrite orb_true_r.
Qed.

(** Two points against two candidates, one of them shared. *)
Lemma C3_confidence_range_witness :
  (exists c,
     _calculate_match_confidence __init__ 1
       (to_py [minutia_10_10; minutia_13_14]) (to_py [minutia_13_14; minutia_100_100])
     = Done c /\
     leb zero c = true /\ leb c one = true /\
     ([minutia_10_10; minutia_13_14] = [] \/ [minutia_13_14; minutia_100_100] = []
      -> c = zero)) /\
  (forall k v,
     _calculate_match_confidence __init__ k (PList []) v = Done zero /\
     _calculate_match_confidence __init__ k v (PList []) = Done zero).
Proof.
  apply (C3_confidence_range __init__ 1
           [minutia_10_10; minutia_13_14] [minutia_13_14; minutia_100_100]).
  - vm_compute. reflexivity.
  - vm_compute. reflexivity.
  - vm_compute. reflexivity.
  - lia.
Defined.

(** Claim C2.  A non-empty list [M] of minutiae of the data model, of
    fewer than [2^53] elements, matched against itself under the default
    thresholds: the search returns [len(M)] correspondences, each index
    with itself at distance 0 and orientation difference 0, and the
    confidence is exactly 1.0.  For [A = B = [{x: 10, y: 10,
    orientation: 0.0}]] the confidence is 1.0 and [verify_match] on the
    two templates reports a match. *)
Theorem C2_self_match (fuel : nat) (M : list Minutia.t) :
  M <> [] ->
  forallb minutia M = true ->
  (Z.of_nat (List.length M) < 2 ^ 53)%Z ->
  1 <= fuel ->
  (exists matches,
     _find_minutiae_correspondences __init__ fuel
       (map (fun m => fst (row m)) M) (map (fun m => fst (row m)) M)
       (map (fun m => snd (row m)) M) (map (fun m => snd (row m)) M) = Done matches /\
     List.length matches = List.length M /\
     (forall m, In m matches ->
        index1 m = index2 m /\ distance_of m = zero /\ orientation_diff_of m = zero)) /\
  _calculate_match_confidence __init__ fuel (to_py M) (to_py M) = Done one /\
  (forall k,
     _calculate_match_confidence __init__ k (to_py [minutia_10_10]) (to_py [minutia_10_10])
     = Done one /\
     verify_match __init__ k (PStr template_one) (PStr template_one)
     = Done (PDict [ ("success"%string, PBool true);
                     ("match"%string, PBool true);
                     ("confidence"%string, PFloat one);
                     ("threshold"%string, PFloat f0_7) ])).
Proof.
  intros NM V L Hf. destruct fuel as [| f]; [lia|].
  pose proof (find_correspondences_self f M V) as Hs.
  split; [| split].
  - exists (identity_pairs 0 (List.length M)).
    unfold _find_minutiae_correspondences. rewrite combine_rows.
    split; [exact Hs|]. split; [apply identity_pairs_length|].
    intros m Hm. unfold identity_pairs in Hm. apply in_map_iff in Hm.
    destruct Hm as (k & <- & _). repeat split.
  - rewrite (calculate_match_confidence_rows __init__ (S f) M M NM NM V V).
    rewrite Hs. cbn [bind].
    rewrite confidence_of_identity; [reflexivity | | assumption].
    destruct M; [congruence | cbn; lia].
  - intro k. destruct k; split; vm_compute; reflexivity.
Qed.

(** Three distinct points, two of them within the distance threshold
    of each other. *)
Lemma C2_self_match_witness :
  let M := [minutia_10_10; minutia_13_14; minutia_100_100] in
  (exists matches,
     _find_minutiae_correspondences __init__ 1
       (map (fun m => fst (row m)) M) (map (fun m => fst (row m)) M)
       (map (fun m => snd (row m)) M) (map (fun m => snd (row m)) M) = Done matches /\
     List.length matches = List.length M /\
     (forall m, In m matches ->
        index1 m = index2 m /\ distance_of m = zero /\ orientation_diff_of m = zero)) /\
  _calculate_match_confidence __init__ 1 (to_py M) (to_py M) = Done one /\
  (forall k,
     _calculate_match_confidence __init__ k (to_py [minutia_10_10]) (to_py [minutia_10_10])
     = Done one /\
     verify_match __init__ k (PStr template_one) (PStr template_one)
     = Done (PDict [ ("success"%string, PBool true);
                     ("match"%string, PBool true);
                     ("confidence"%string, PFloat one);
                     ("threshold"%string, PFloat f0_7) ])).
Proof.
  intro M.
  apply (C2_self_match 1 M).
  - discriminate.
  - vm_compute. reflexivity.
  - vm_compute. reflexivity.
  - lia.
Defined.

End ConfidenceClaims.

(* ===================================================================== *)
(** * The quality of a template *)
(* ===================================================================== *)

Section QualityClaims.

Import Float64 FingerprintProcessor FloatOrder FloatShape Plain Examples.

Lemma pymin_one_nonneg (a : float) : nonneg a = true -> nonneg (pymin a one) = true.
Proof. intro H. unfold pymin. now destruct (ltb one a). Qed.

Lemma pymax_nonneg_zero (a : float) : nonneg a = true -> nonneg (pymax a zero) = true.
Proof. intro H. unfold pymax. now destruct (gtb zero a). Qed.

(** The clamp of [_calculate_quality] on statistics that are not
    negative, for an image of at least one pixel. *)
Lemma calculate_quality_range (image : image_stats) (minutiae : list pyval) :
  nonneg (std image) = true ->
  nonneg (laplacian_var image) = true ->
  0 <= edge_pixels image ->
  0 < size image < 2 ^ 63 ->
  leb zero (_calculate_quality image minutiae) = true /\
  leb (_calculate_quality image minutiae) one = true.
Proof.
  intros Hs Hl He Hz. unfold _calculate_quality.
  apply pymin_one_bounds, pymax_nonneg_zero.
  repeat apply add_nonneg; try reflexivity; apply mul_nonneg_r; try reflexivity.
  - apply pymin_one_nonneg, div_nonneg; [| reflexivity].
    apply binary_normalize_nonneg. lia.
  - now apply div_nonneg.
  - apply pymin_one_nonneg. now apply div_nonneg.
  - apply div_nonneg.
    + now apply binary_normalize_nonneg.
    + apply of_Z_positive_finite; lia.
Qed.

(** What [verify_quality] returns on a template written by
    [_generate_template]. *)
Lemma verify_quality_generate (float_repr : float -> string) (self : t)
    (ms : list Minutia.t) (q : float) (h w : Z) :
  plain_string (template_version self) = true ->
  forallb (repr_round_trips float_repr) (q :: map Minutia.orientation ms) = true ->
  exists is_valid,
    verify_quality self
      (PStr (_generate_template float_repr self (map Minutia.to_py ms) q [h; w]))
    = PDict [ ("is_valid"%string, PBool is_valid);
              ("quality"%string, PFloat q);
              ("minutiae_count"%string, PInt (Z.of_nat (List.length ms))) ].
Proof.
  intros Hv Hr. unfold verify_quality.
  rewrite (decode_generate float_repr self ms q h w Hv Hr).
  cbn [Py.truthy negb].
  change (Py.get _ "quality" (PFloat zero)) with (PFloat q).
  change (Py.get _ "minutiae_count" (PInt 0)) with (PInt (Z.of_nat (List.length ms))).
  unfold PyNum.ge, PyNum.compare.
  destruct (SFcompare q (min_quality_threshold self)) as [[| |] |]; cbn [bind];
    try (eexists; reflexivity);
    destruct (Z.of_nat (List.length ms) ?= 10); eexists; reflexivity.
Qed.

(** Claim C9 fails on the code: a template that stores the quality 7.5
    is accepted, and 7.5 is the quality of the result. *)
Lemma C9_counterexample :
  verify_quality __init__ (PStr template_quality_7_5)
  = PDict [ ("is_valid"%string, PBool true);
            ("quality"%string, PFloat (S754_finite false 8444249301319680 (-50)));
            ("minutiae_count"%string, PInt 12) ] /\
  leb (S754_finite false 8444249301319680 (-50)) one = false /\
  ~ (forall template r q,
       verify_quality __init__ template = PDict r ->
       Py.lookup "quality" r = Some (PFloat q) ->
       leb zero q = true /\ leb q one = true).
Proof.
  assert (E : verify_quality __init__ (PStr template_quality_7_5)
              = PDict [ ("is_valid"%string, PBool true);
                        ("quality"%string, PFloat (S754_finite false 8444249301319680 (-50)));
                        ("minutiae_count"%string, PInt 12) ])
    by (vm_compute; reflexivity).
  split; [exact E|]. split; [reflexivity|].
  intro H. destruct (H _ _ _ E eq_refl) as [_ F]. discriminate F.
Qed.

(** Claim C9 as amended.  [verify_quality] returns the quality stored in
    the template as it is (0.0 when the record has none) and checks no
    range.  The quality that [_calculate_quality] computes is clamped
    to [0, 1] (for statistics that are not negative and an image of at
    least one pixel), and on a template that [_generate_template] wrote
    with it, [verify_quality] returns that value. *)
Theorem C9_stored_quality (float_repr : float -> string) (self : t)
    (image : image_stats) (ms : list Minutia.t) (h w : Z) :
  plain_string (template_version self) = true ->
  nonneg (std image) = true ->
  nonneg (laplacian_var image) = true ->
  0 <= edge_pixels image ->
  0 < size image < 2 ^ 63 ->
  forallb (repr_round_trips float_repr)
    (_calculate_quality image (map Minutia.to_py ms) :: map Minutia.orientation ms) = true ->
  (exists is_valid,
     verify_quality self
       (PStr (_generate_template float_repr self (map Minutia.to_py ms)
                (_calculate_quality image (map Minutia.to_py ms)) [h; w]))
     = PDict [ ("is_valid"%string, PBool is_valid);
               ("quality"%string, PFloat (_calculate_quality image (map Minutia.to_py ms)));
               ("minutiae_count"%string, PInt (Z.of_nat (List.length ms))) ]) /\
  leb zero (_calculate_quality image (map Minutia.to_py ms)) = true /\
  leb (_calculate_quality image (map Minutia.to_py ms)) one = true /\
  (forall template d r q,
     _decode_template template = Some (PDict d) ->
     verify_quality self template = PDict r ->
     Py.lookup "quality" r = Some q ->
     q = Py.get d "quality" (PFloat zero)).
Proof.
  intros Hv Hs Hl He Hz Hr.
  destruct (calculate_quality_range image (map Minutia.to_py ms) Hs Hl He Hz) as [C0 C1].
  split; [now apply verify_quality_generate|]. split; [exact C0|]. split; [exact C1|].
  intros template d r q Hd. unfold verify_quality. rewrite Hd.
  destruct (negb (Py.truthy (PDict d))); [intros E; injection E as <-; discriminate|].
  destruct (PyNum.ge (Py.get d "quality" (PFloat zero)) _) as [c1 | |]; cbn [bind];
    try (intros E; injection E as <-; discriminate).
  destruct (if c1 then _ else _) as [v | |]; cbn [bind];
    try (intros E; injection E as <-; discriminate).
  intros E. injection E as <-. intros L. cbn in L. congruence.
Qed.

(** An image of 1000 pixels with one minutia. *)
Lemma C9_stored_quality_witness :
  let image := {| std := of_Z 64; laplacian_var := of_Z 500;
                  edge_pixels := 100; size := 1000 |} in
  let q := _calculate_quality image (map Minutia.to_py [minutia_10_10]) in
  (exists is_valid,
     verify_quality __init__
       (PStr (_generate_template exact_repr __init__ (map Minutia.to_py [minutia_10_10])
                q [300; 256]))
     = PDict [ ("is_valid"%string, PBool is_valid);
               ("quality"%string, PFloat q);
               ("minutiae_count"%string, PInt 1) ]) /\
  leb zero q = true /\ leb q one = true.
Proof.
  intros image q.
  destruct (C9_stored_quality exact_repr __init__ image [minutia_10_10] 300 256)
    as (H1 & H2 & H3 & _).
  - reflexivity.
  - reflexivity.
  - reflexivity.
  - vm_compute. discriminate.
  - split; reflexivity.
  - vm_compute. reflexivity.
  - split; [exact H1|]. split; [exact H2 | exact H3].
Defined.

End QualityClaims.

(* ===================================================================== *)
(** * Further properties of best-match selection *)
(* ===================================================================== *)

Section CandidateFacts.

Import Float64 FingerprintMatcher FloatOrder Selection Candidates Examples.

Local Open Scope nat_scope.

Variable self : t.
Variable fuel : nat.

Lemma skipped_evaluate (input_minutiae template_info : pyval) :
  skipped template_info = true ->
  evaluate self fuel input_minutiae template_info = Done None.
Proof.
  unfold skipped, evaluate. destruct template_info as [ | | | | | | |info]; try discriminate.
  destruct (negb (Py.truthy (Py.get info "studentId" PNone))
            || negb (Py.truthy (Py.get info "template" PNone))); [reflexivity|].
  cbn [orb].
  destruct (_decode_template (Py.get info "template" PNone)) as [stored_data|];
    [| reflexivity].
  destruct (negb (Py.truthy stored_data)); [reflexivity|]. cbn [orb].
  destruct stored_data; try discriminate.
  intros ->. reflexivity.
Qed.

Lemma evaluate_some (input_minutiae template_info sid : pyval) (c : float) :
  evaluate self fuel input_minutiae template_info = Done (Some (sid, c)) ->
  sid = student_id template_info /\ Py.truthy sid = true.
Proof.
  unfold evaluate, student_id.
  destruct template_info as [ | | | | | | |info]; try discriminate.
  destruct (Py.truthy (Py.get info "studentId" PNone)) eqn:S; [| discriminate].
  destruct (negb (Py.truthy (Py.get info "template" PNone))); [discriminate|].
  cbn [negb orb].
  destruct (_decode_template (Py.get info "template" PNone)) as [stored_data|];
    [| discriminate].
  destruct (negb (Py.truthy stored_data)); [discriminate|].
  destruct stored_data; try discriminate.
  destruct (negb (Py.truthy (Py.get d "minutiae" (PList [])))); [discriminate|].
  destruct (_calculate_match_confidence self fuel input_minutiae _) as [c' | |];
    cbn [bind]; try discriminate.
  intros E. injection E as <- <-. split; [reflexivity | exact S].
Qed.

Lemma candidate_step_sound (templates : list pyval) (input_minutiae : pyval)
    (best best' : pyval * float) (template_info : pyval) :
  In template_info templates ->
  sound_best self templates best ->
  candidate_step self fuel input_minutiae best template_info = Done best' ->
  sound_best self templates best'.
Proof.
  intros Hin Hbest. rewrite candidate_step_evaluate.
  destruct (evaluate self fuel input_minutiae template_info) as [r | |] eqn:E;
    cbn [bind]; try discriminate.
  intros H. injection H as <-.
  destruct r as [[sid c] |]; cbn [select]; [| exact Hbest].
  destruct (gtb c (snd best) && geb c (match_threshold self)) eqn:U; [| exact Hbest].
  apply andb_prop in U. destruct U as [G T].
  destruct (evaluate_some _ _ _ _ E) as [-> Hs].
  right. exists template_info, c. repeat split; try assumption.
  destruct Hbest as [-> | (ti0 & c0 & _ & _ & -> & G0 & _)]; [exact G|].
  cbn [snd] in G. unfold gtb in *. eapply ltb_trans; eassumption.
Qed.

Lemma candidate_loop_sound (templates : list pyval) (input_minutiae : pyval) :
  forall l best best',
    (forall x, In x l -> In x templates) ->
    sound_best self templates best ->
    candidate_loop self fuel input_minutiae l best = Done best' ->
    sound_best self templates best'.
Proof.
  induction l as [| ti rest IH]; intros best best' Hl Hbest; cbn [candidate_loop].
  - intros H. injection H as <-. exact Hbest.
  - destruct (candidate_step self fuel input_minutiae best ti) as [b | |] eqn:E;
      cbn [bind]; try discriminate.
    apply IH.
    + intros x Hx. apply Hl. now right.
    + eapply candidate_step_sound; try eassumption. apply Hl. now left.
Qed.

End CandidateFacts.

Section CandidateProperties.

Import Float64 FingerprintMatcher FloatOrder Selection Candidates Examples.

Local Open Scope nat_scope.

(** A candidate that a guard of the loop passes over does not change
    the result of [match_fingerprint], wherever it stands in the list:
    the result is that of the list without it. *)
Theorem match_fingerprint_skips_candidate (self : t) (fuel : nat)
    (input_template : pyval) (before after : list pyval) (template_info : pyval) :
  skipped template_info = true ->
  match_fingerprint self fuel input_template (before ++ template_info :: after)
  = match_fingerprint self fuel input_template (before ++ after).
Proof.
  intro H. unfold match_fingerprint.
  destruct (_decode_template input_template) as [input_data |]; [| reflexivity].
  destruct (negb (Py.truthy input_data)); [reflexivity|].
  destruct input_data; try reflexivity.
  destruct (negb (Py.truthy (Py.get d "minutiae" (PList [])))); [reflexivity|].
  rewrite (candidate_loop_skip self fuel _ template_info
             (skipped_evaluate self fuel _ template_info H)).
  reflexivity.
Qed.

(** A candidate whose template has incomplete padding, between two
    candidates that match. *)
Lemma match_fingerprint_skips_candidate_witness :
  match_fingerprint __init__ 1 (PStr template_one)
    ([candidate "s1" template_far] ++ candidate "s2" template_bad_padding
       :: [candidate "s3" template_one])
  = match_fingerprint __init__ 1 (PStr template_one)
      ([candidate "s1" template_far] ++ [candidate "s3" template_one]).
Proof.
  apply (match_fingerprint_skips_candidate __init__ 1 (PStr template_one)
           [candidate "s1" template_far] [candidate "s3" template_one]
           (candidate "s2" template_bad_padding)).
  vm_compute. reflexivity.
Defined.

(** [match_fingerprint] never raises, and what it returns is [None] or
    the [studentId] of a candidate of the list together with a
    confidence that is above 0 and at or above the match threshold. *)
Theorem match_fingerprint_sound (self : t) (fuel : nat) (input_template : pyval)
    (templates : list pyval) :
  match_fingerprint self fuel input_template templates <> Raised /\
  forall result,
    match_fingerprint self fuel input_template templates = Done result ->
    result = PNone \/
    exists template_info c,
      In template_info templates /\
      Py.truthy (student_id template_info) = true /\
      result = match_result (student_id template_info) c /\
      gtb c zero = true /\ geb c (match_threshold self) = true.
Proof.
  unfold match_fingerprint. split.
  - destruct (_decode_template input_template) as [input_data |]; [| discriminate].
    destruct (negb (Py.truthy input_data)); [discriminate|].
    destruct input_data; try discriminate.
    destruct (negb (Py.truthy (Py.get d "minutiae" (PList [])))); [discriminate|].
    destruct (candidate_loop self fuel _ templates (PNone, zero)); discriminate.
  - intros result.
    destruct (_decode_template input_template) as [input_data |];
      [| intros H; injection H as <-; now left].
    destruct (negb (Py.truthy input_data)); [intros H; injection H as <-; now left|].
    destruct input_data; try (intros H; injection H as <-; now left).
    destruct (negb (Py.truthy (Py.get d "minutiae" (PList []))));
      [intros H; injection H as <-; now left|].
    destruct (candidate_loop self fuel _ templates (PNone, zero)) as [best | |] eqn:E;
      cbn [bind try_except]; try (intros H; injection H as <-; now left);
      try discriminate.
    intros H. injection H as <-.
    pose proof (candidate_loop_sound self fuel templates _ templates (PNone, zero) best
                  (fun x Hx => Hx) (or_introl eq_refl) E) as S.
    destruct S as [-> | (ti & c & Hin & Hs & -> & G & T)]; [now left|].
    right. exists ti, c. repeat split; assumption.
Qed.

End CandidateProperties.

(* ===================================================================== *)
(** * Matching enrolled templates *)
(* ===================================================================== *)

Section EnrollmentFacts.

Import Float64 FingerprintMatcher FloatOrder FloatShape Search Selection Wellformed Plain.

Local Open Scope nat_scope.

Variable float_repr : float -> string.
Variable processor : FingerprintProcessor.t.
Hypothesis version_plain : plain_string (FingerprintProcessor.template_version processor) = true.

Local Abbreviation template := (Enrollment.template float_repr processor).
Local Abbreviation candidate := (Enrollment.candidate float_repr processor).
Local Abbreviation wellformed := (Enrollment.wellformed float_repr).

Lemma wellformed_inv (e : Enrollment.t) :
  wellformed e = true ->
  Enrollment.student e <> EmptyString /\
  Enrollment.points e <> [] /\
  forallb minutia (Enrollment.points e) = true /\
  forallb (repr_round_trips float_repr)
    (Enrollment.quality e :: map Minutia.orientation (Enrollment.points e)) = true.
Proof.
  unfold Enrollment.wellformed. intro H.
  apply andb_prop in H. destruct H as [H H4].
  apply andb_prop in H. destruct H as [H H3].
  apply andb_prop in H. destruct H as [H1 H2].
  repeat split; try assumption.
  - intro E. rewrite E in H1. discriminate.
  - intro E. rewrite E in H2. discriminate.
Qed.

(** The record that the template of an enrolled finger decodes to. *)
Lemma decode_enrolled (e : Enrollment.t) :
  wellformed e = true ->
  _decode_template (PStr (template e))
  = Some (PDict [ ("version"%string, PStr (FingerprintProcessor.template_version processor));
                  ("quality"%string, PFloat (Enrollment.quality e));
                  ("image_shape"%string,
                   PList [PInt (Enrollment.height e); PInt (Enrollment.width e)]);
                  ("minutiae"%string, PList (map Minutia.to_py (Enrollment.points e)));
                  ("minutiae_count"%string,
                   PInt (Z.of_nat (List.length (Enrollment.points e))));
                  ("created_at"%string, PNone) ]).
Proof.
  intro W. destruct (wellformed_inv e W) as (_ & _ & _ & R).
  exact (decode_generate float_repr processor _ _ _ _ version_plain R).
Qed.

Lemma template_nonempty (e : Enrollment.t) :
  wellformed e = true -> Py.truthy (PStr (template e)) = true.
Proof.
  intro W. pose proof (decode_enrolled e W) as D.
  cbn [Py.truthy]. destruct (String.eqb_spec (template e) EmptyString) as [E |]; [| reflexivity].
  rewrite E in D. vm_compute in D. discriminate D.
Qed.

Lemma minutiae_truthy (e : Enrollment.t) :
  wellformed e = true ->
  Py.truthy (PList (map Minutia.to_py (Enrollment.points e))) = true.
Proof.
  intro W. destruct (wellformed_inv e W) as (_ & N & _ & _).
  destruct (Enrollment.points e); [congruence | reflexivity].
Qed.

Lemma student_truthy (e : Enrollment.t) :
  wellformed e = true -> Py.truthy (PStr (Enrollment.student e)) = true.
Proof.
  intro W. destruct (wellformed_inv e W) as (N & _).
  cbn [Py.truthy]. destruct (String.eqb_spec (Enrollment.student e) EmptyString);
    [congruence | reflexivity].
Qed.

(** What the best-match loop computes for an enrolled candidate. *)
Lemma evaluate_enrolled (self : t) (fuel : nat) (input_minutiae : pyval) (e : Enrollment.t) :
  wellformed e = true ->
  evaluate self fuel input_minutiae (candidate e)
  = (c <- _calculate_match_confidence self fuel input_minutiae
            (to_py (Enrollment.points e)) ;;
     Done (Some (PStr (Enrollment.student e), c))).
Proof.
  intro W. unfold evaluate, Enrollment.candidate.
  change (Py.get _ "studentId" PNone) with (PStr (Enrollment.student e)).
  change (Py.get _ "template" PNone) with (PStr (template e)).
  rewrite (student_truthy e W), (template_nonempty e W). cbn [negb orb].
  rewrite (decode_enrolled e W). cbn [Py.truthy negb].
  change (Py.get _ "minutiae" (PList [])) with (PList (map Minutia.to_py (Enrollment.points e))).
  rewrite (minutiae_truthy e W). reflexivity.
Qed.

(** The confidence of two lists of minutiae of the data model. *)
Lemma match_confidence_range (self : t) (f : nat) (A B : list Minutia.t) :
  A <> [] -> B <> [] ->
  forallb minutia A = true -> forallb minutia B = true ->
  (Z.of_nat (List.length A) < 2 ^ 63)%Z ->
  exists c,
    _calculate_match_confidence self (S f) (to_py A) (to_py B) = Done c /\
    leb zero c = true /\ leb c one = true.
Proof.
  intros NA NB VA VB LA.
  rewrite (calculate_match_confidence_rows self (S f) A B NA NB VA VB).
  destruct (scan_points_done self f (map row B) (rows_ok B VB) (map row A) 0 [] []
              (rows_ok A VA)) as (ms & -> & L).
  cbn [bind try_except]. eexists. split; [reflexivity|].
  cbn [List.length] in L. rewrite length_map in L.
  exact (confidence_of_bounds self ms (List.length A) (List.length B) L LA).
Qed.

Lemma match_confidence_self (f : nat) (M : list Minutia.t) :
  M <> [] -> forallb minutia M = true -> (Z.of_nat (List.length M) < 2 ^ 53)%Z ->
  _calculate_match_confidence __init__ (S f) (to_py M) (to_py M) = Done one.
Proof.
  intros NM V L.
  rewrite (calculate_match_confidence_rows __init__ (S f) M M NM NM V V).
  rewrite (find_correspondences_self f M V). cbn [bind].
  rewrite confidence_of_identity; [reflexivity | | assumption].
  destruct M; [congruence | cbn; lia].
Qed.

Lemma leb_antisym_one (c : float) : leb one c = true -> leb c one = true -> c = one.
Proof.
  destruct c as [s | s | | s m e]; try (destruct s; discriminate); try discriminate.
  destruct s; [discriminate|].
  unfold leb, SFleb, one. rewrite !compare_finite_pos.
  rewrite (Z.compare_antisym e (-52)), (Z.compare_antisym (Z.pos m) 4503599627370496).
  destruct (Z.compare_spec e (-52)) as [E | L | G]; cbn [CompOpp]; try discriminate;
    destruct (Z.compare_spec (Z.pos m) 4503599627370496) as [E' | L' | G'];
    cbn [CompOpp]; try discriminate.
  intros _ _. subst e. injection E' as ->. reflexivity.
Qed.

Lemma Forall2_nth_l {A B} (R : A -> B -> Prop) (l : list A) (l' : list B) :
  Forall2 R l l' ->
  forall k x, nth_error l k = Some x -> exists y, nth_error l' k = Some y /\ R x y.
Proof.
  induction 1 as [| a b l l' Hab _ IH]; intros k x Hk.
  - destruct k; discriminate.
  - destruct k as [| k]; cbn in *.
    + injection Hk as <-. eauto.
    + now apply IH.
Qed.

Lemma Forall2_nth_r {A B} (R : A -> B -> Prop) (l : list A) (l' : list B) :
  Forall2 R l l' ->
  forall k y, nth_error l' k = Some y -> exists x, nth_error l k = Some x /\ R x y.
Proof.
  induction 1 as [| a b l l' Hab _ IH]; intros k y Hk.
  - destruct k; discriminate.
  - destruct k as [| k]; cbn in *.
    + injection Hk as <-. eauto.
    + now apply IH.
Qed.

(** The evaluations of a list of enrolled candidates against a probe. *)
Lemma evaluations_enrolled (self : t) (f : nat) (M : list Minutia.t) :
  M <> [] -> forallb minutia M = true -> (Z.of_nat (List.length M) < 2 ^ 63)%Z ->
  forall es, forallb wellformed es = true ->
  exists rs,
    Forall2 (fun e r =>
               exists c, r = Some (PStr (Enrollment.student e), c) /\
                 _calculate_match_confidence self (S f) (to_py M)
                   (to_py (Enrollment.points e)) = Done c /\
                 leb c one = true) es rs /\
    Forall2 (fun ti r => evaluate self (S f) (to_py M) ti = Done r) (map candidate es) rs.
Proof.
  intros NM VM LM. induction es as [| e es IH]; intro W.
  - exists []. split; constructor.
  - cbn [forallb] in W. apply andb_prop in W. destruct W as [We Wes].
    destruct (IH Wes) as (rs & F1 & F2).
    destruct (wellformed_inv e We) as (_ & NB & VB & _).
    destruct (match_confidence_range self f M (Enrollment.points e) NM NB VM VB LM)
      as (c & Ec & _ & C1).
    exists (Some (PStr (Enrollment.student e), c) :: rs). split.
    + constructor; [| assumption]. exists c. auto.
    + cbn [map]. constructor; [| assumption].
      rewrite (evaluate_enrolled self (S f) (to_py M) e We), Ec. reflexivity.
Qed.

End EnrollmentFacts.

Section EnrollmentProperties.

Import Float64 FingerprintMatcher FloatOrder FloatShape Search Selection Wellformed Plain
       Examples.

Local Open Scope nat_scope.

(** A finger that is enrolled is found.  The probe and the candidates
    are templates that [_generate_template] wrote for minutiae of the
    data model (the probe has fewer than [2^53] of them), and the
    candidate at position [k] holds the minutiae of the probe.  Then
    [match_fingerprint] returns, under the default thresholds, a match
    of confidence 1.0: the first candidate of the list whose confidence
    against the probe is 1.0, at position [k] or before. *)
Theorem match_fingerprint_identifies_enrolled
    (float_repr : float -> string) (processor : FingerprintProcessor.t)
    (fuel : nat) (probe : Enrollment.t) (es : list Enrollment.t)
    (k : nat) (e : Enrollment.t) :
  plain_string (FingerprintProcessor.template_version processor) = true ->
  Enrollment.wellformed float_repr probe = true ->
  forallb (Enrollment.wellformed float_repr) es = true ->
  (Z.of_nat (List.length (Enrollment.points probe)) < 2 ^ 53)%Z ->
  1 <= fuel ->
  nth_error es k = Some e ->
  Enrollment.points e = Enrollment.points probe ->
  exists k' e',
    k' <= k /\ nth_error es k' = Some e' /\
    match_fingerprint __init__ fuel
      (PStr (Enrollment.template float_repr processor probe))
      (map (Enrollment.candidate float_repr processor) es)
    = Done (match_result (PStr (Enrollment.student e')) one) /\
    _calculate_match_confidence __init__ fuel
      (to_py (Enrollment.points probe)) (to_py (Enrollment.points e')) = Done one /\
    forall j ej, j < k' -> nth_error es j = Some ej ->
      _calculate_match_confidence __init__ fuel
        (to_py (Enrollment.points probe)) (to_py (Enrollment.points ej)) <> Done one.
Proof.
  intros Hv Wp Wes Lp Hf Hk Hsame.
  destruct fuel as [| f]; [lia|].
  destruct (wellformed_inv float_repr probe Wp) as (_ & NM & VM & _).
  destruct (evaluations_enrolled float_repr processor Hv __init__ f
              (Enrollment.points probe) NM VM ltac:(lia) es Wes) as (rs & F1 & F2).
  unfold match_fingerprint.
  rewrite (decode_enrolled float_repr processor Hv probe Wp).
  cbn [Py.truthy negb].
  change (Py.get _ "minutiae" (PList []))
    with (to_py (Enrollment.points probe)).
  unfold to_py at 1. rewrite (minutiae_truthy float_repr probe Wp). cbn [negb].
  fold (to_py (Enrollment.points probe)).
  rewrite (candidate_loop_fold __init__ (S f) _ _ rs _ F2). cbn [bind try_except].
  assert (H0 : best_of __init__ [] (PNone, zero)).
  { left. split; [reflexivity|]. intros j sid c Hj. destruct j; discriminate. }
  pose proof (fold_select __init__ rs eq_refl [] _ H0) as B. cbn [app] in B.
  destruct (Forall2_nth_l _ _ _ F1 k e Hk) as (rk & Hrk & ck & -> & Eck & _).
  rewrite Hsame in Eck.
  rewrite (match_confidence_self f (Enrollment.points probe) NM VM Lp) in Eck.
  injection Eck as <-.
  destruct B as [(_ & Hnone) | (k' & sid' & c' & -> & Hk' & Hq & Hmax)].
  { specialize (Hnone _ _ _ Hrk). discriminate Hnone. }
  destruct (Forall2_nth_r _ _ _ F1 k' _ Hk') as (e' & He' & c'' & E & Ec' & C1).
  injection E as -> <-.
  destruct (Hmax k _ one Hrk eq_refl) as [L1 L2].
  assert (c' = one) by now apply leb_antisym_one. subst c'.
  exists k', e'. repeat split; try assumption.
  - destruct (Nat.le_gt_cases k' k) as [| G]; [assumption|].
    specialize (L2 G). rewrite ltb_irrefl in L2. discriminate.
  - intros j ej Hj Hej Ej.
    destruct (Forall2_nth_l _ _ _ F1 j ej Hej) as (rj & Hrj & cj & -> & Ecj & _).
    rewrite Ej in Ecj. injection Ecj as <-.
    destruct (Hmax j _ one Hrj eq_refl) as [_ L]. specialize (L Hj).
    rewrite ltb_irrefl in L. discriminate.
Qed.

(** A probe of two minutiae against three enrolled fingers, the second
    and the third being the probe's. *)
Lemma match_fingerprint_identifies_enrolled_witness :
  let two := [minutia_10_10; minutia_13_14] in
  let probe := {| Enrollment.student := "probe"; Enrollment.points := two;
                  Enrollment.quality := f0_7; Enrollment.height := 300;
                  Enrollment.width := 256 |} in
  let es := [ {| Enrollment.student := "s1"; Enrollment.points := [minutia_100_100];
                 Enrollment.quality := f0_6; Enrollment.height := 300;
                 Enrollment.width := 256 |};
              {| Enrollment.student := "s2"; Enrollment.points := two;
                 Enrollment.quality := f0_7; Enrollment.height := 300;
                 Enrollment.width := 256 |};
              {| Enrollment.student := "s3"; Enrollment.points := two;
                 Enrollment.quality := f0_6; Enrollment.height := 300;
                 Enrollment.width := 256 |} ] in
  exists k' e',
    k' <= 2 /\ nth_error es k' = Some e' /\
    match_fingerprint __init__ 1
      (PStr (Enrollment.template exact_repr FingerprintProcessor.__init__ probe))
      (map (Enrollment.candidate exact_repr FingerprintProcessor.__init__) es)
    = Done (match_result (PStr (Enrollment.student e')) one).
Proof.
  intros two probe es.
  destruct (match_fingerprint_identifies_enrolled exact_repr FingerprintProcessor.__init__
              1 probe es 2
              {| Enrollment.student := "s3"; Enrollment.points := two;
                 Enrollment.quality := f0_6; Enrollment.height := 300;
                 Enrollment.width := 256 |})
    as (k' & e' & H1 & H2 & H3 & _).
  - reflexivity.
  - vm_compute. reflexivity.
  - vm_compute. reflexivity.
  - vm_compute. reflexivity.
  - lia.
  - reflexivity.
  - reflexivity.
  - exists k', e'. repeat split; assumption.
Defined.

End EnrollmentProperties.

(* ===================================================================== *)
(** * What the confidence depends on *)
(* ===================================================================== *)

Section GeometryFacts.

Import Float64 FingerprintMatcher FloatOrder Search Wellformed Geometry.

Local Open Scope nat_scope.

Variable self : t.
Variable fuel : nat.

Lemma points_of_to_py_coords (l : list Minutia.t) :
  forallb coordinates_ok l = true ->
  mapM point_of (map Minutia.to_py l) = Done (map (fun m => fst (row m)) l).
Proof.
  induction l as [| m l IH]; [reflexivity|].
  cbn [forallb map mapM]. intro H. apply andb_prop in H. destruct H as [Hm Hl].
  rewrite (point_of_to_py m Hm), (IH Hl). reflexivity.
Qed.

(** On coordinates of the [int64] array the matcher is the search on
    the rows followed by the arithmetic. *)
Lemma calculate_match_confidence_coords (A B : list Minutia.t) :
  A <> [] -> B <> [] ->
  forallb coordinates_ok A = true -> forallb coordinates_ok B = true ->
  _calculate_match_confidence self fuel (to_py A) (to_py B)
  = try_except
      (matches <- scan_points self fuel 0 (map row A) (map row B) [] [] ;;
       Done (confidence_of self matches (List.length A) (List.length B)))
      zero.
Proof.
  intros HA HB VA VB. unfold _calculate_match_confidence, to_py.
  destruct A as [| a A]; [congruence|]. destruct B as [| b B]; [congruence|].
  cbn [Py.truthy map negb orb elements bind].
  change (Minutia.to_py a :: map Minutia.to_py A) with (map Minutia.to_py (a :: A)).
  change (Minutia.to_py b :: map Minutia.to_py B) with (map Minutia.to_py (b :: B)).
  rewrite !points_of_to_py_coords by assumption.
  rewrite !orientations_of_to_py_list.
  cbn [bind]. unfold _find_minutiae_correspondences.
  rewrite !combine_rows, !length_map. reflexivity.
Qed.

Lemma calculate_match_confidence_empty_l (v : pyval) :
  _calculate_match_confidence self fuel (PList []) v = Done zero.
Proof. reflexivity. Qed.

Lemma calculate_match_confidence_empty_r (v : pyval) :
  _calculate_match_confidence self fuel v (PList []) = Done zero.
Proof. unfold _calculate_match_confidence. cbn [Py.truthy negb]. now rewrite orb_true_r. Qed.

(** ** Points that are far apart *)

Lemma scan_candidates_far (i : nat) (r1 : point * float) (rows2 : list (point * float)) :
  (forall r2, In r2 rows2 ->
     gtb (norm (point_sub (fst r1) (fst r2))) (of_Z (max_distance_threshold self)) = true) ->
  forall used j bm bs,
    scan_candidates self fuel i (fst r1) (snd r1) used j rows2 bm bs = Done bm.
Proof.
  induction rows2 as [| [p2 o2] rest IH]; intros H used j bm bs; [reflexivity|].
  rewrite scan_candidates_cons.
  destruct (mem j used); [apply IH; intros; apply H; now right|].
  unfold pairing. cbn [fst snd].
  pose proof (H (p2, o2) (or_introl eq_refl)) as G. cbn [fst] in G. rewrite G.
  apply IH. intros; apply H; now right.
Qed.

Lemma scan_points_far (rows1 rows2 : list (point * float)) :
  (forall r1 r2, In r1 rows1 -> In r2 rows2 ->
     gtb (norm (point_sub (fst r1) (fst r2))) (of_Z (max_distance_threshold self)) = true) ->
  forall i matches used,
    scan_points self fuel i rows1 rows2 matches used = Done matches.
Proof.
  induction rows1 as [| [p1 o1] rest IH]; intros H i matches used; [reflexivity|].
  cbn [scan_points].
  pose proof (scan_candidates_far i (p1, o1) rows2
                (fun r2 H2 => H (p1, o1) r2 (or_introl eq_refl) H2) used 0 None infinity) as E.
  cbn [fst snd] in E. rewrite E. cbn [bind].
  apply IH. intros; apply H; [now right | assumption].
Qed.

(** ** Elements without coordinates *)

Lemma point_of_lacks (m : pyval) : lacks_coordinate m = true -> point_of m = Raised.
Proof.
  unfold lacks_coordinate, point_of. destruct m; try reflexivity.
  destruct (Py.lookup "x" d) as [vx |]; [| reflexivity].
  destruct (Py.lookup "y" d) as [vy |]; [discriminate|].
  intros _. now destruct vx.
Qed.

Lemma point_of_not_hang (m : pyval) : point_of m <> Hang.
Proof.
  unfold point_of. destruct m; try discriminate.
  destruct (Py.lookup "x" d) as [[]|]; try discriminate.
  destruct (Py.lookup "y" d) as [[]|]; try discriminate.
  destruct (in_int64 n && in_int64 n0); discriminate.
Qed.

Lemma mapM_point_of_not_hang (l : list pyval) : mapM point_of l <> Hang.
Proof.
  induction l as [| m l IH]; [discriminate|]. cbn [mapM].
  pose proof (point_of_not_hang m). destruct (point_of m); cbn [bind]; try congruence.
  destruct (mapM point_of l); cbn [bind]; congruence.
Qed.

Lemma mapM_point_of_lacks (l : list pyval) :
  existsb lacks_coordinate l = true -> mapM point_of l = Raised.
Proof.
  induction l as [| m l IH]; [discriminate|]. cbn [existsb mapM]. intro H.
  apply orb_prop in H. destruct H as [H | H].
  - now rewrite (point_of_lacks m H).
  - rewrite (IH H). pose proof (point_of_not_hang m).
    destruct (point_of m); cbn [bind]; congruence.
Qed.

(** ** The rows decide *)

Lemma point_of_row (m m' : Minutia.t) :
  row m = row m' -> point_of (Minutia.to_py m) = point_of (Minutia.to_py m').
Proof.
  unfold row. intro E. injection E as Ex Ey _.
  unfold point_of, Minutia.to_py.
  change (Py.lookup "x" _) with (Some (PInt (Minutia.x m))) at 1.
  change (Py.lookup "y" _) with (Some (PInt (Minutia.y m))) at 1.
  change (Py.lookup "x" _) with (Some (PInt (Minutia.x m'))).
  change (Py.lookup "y" _) with (Some (PInt (Minutia.y m'))).
  cbv beta iota. now rewrite Ex, Ey.
Qed.

Lemma mapM_point_of_rows (A : list Minutia.t) :
  forall A', map row A = map row A' ->
    mapM point_of (map Minutia.to_py A) = mapM point_of (map Minutia.to_py A').
Proof.
  induction A as [| a A IH]; intros [| a' A'] E; try discriminate; [reflexivity|].
  cbn [map] in E.
  assert (Ea : row a = row a') by congruence.
  assert (EA : map row A = map row A') by congruence.
  cbn [map mapM]. now rewrite (point_of_row a a' Ea), (IH A' EA).
Qed.

Lemma map_row_nil (A A' : list Minutia.t) : map row A = map row A' -> A = [] -> A' = [].
Proof. intros E ->. destruct A'; [reflexivity | discriminate]. Qed.

End GeometryFacts.

Section TranslationFacts.

Import Float64 FingerprintMatcher FloatOrder Search Wellformed Geometry.

Local Open Scope nat_scope.

Variable self : t.
Variable fuel : nat.
Variables dx dy : Z.

Lemma point_sub_moved (p q : point) :
  point_sub (fst p + dx, snd p + dy)%Z (fst q + dx, snd q + dy)%Z = point_sub p q.
Proof.
  unfold point_sub. cbn [fst snd].
  replace (fst p + dx - (fst q + dx))%Z with (fst p - fst q)%Z by lia.
  replace (snd p + dy - (snd q + dy))%Z with (snd p - snd q)%Z by lia.
  reflexivity.
Qed.

Lemma pairing_moved (r1 r2 : point * float) :
  pairing self fuel (moved dx dy r1) (moved dx dy r2) = pairing self fuel r1 r2.
Proof. unfold pairing, moved. cbn [fst snd]. now rewrite point_sub_moved. Qed.

Lemma scan_candidates_moved (i : nat) (r1 : point * float) (rows2 : list (point * float)) :
  forall used j bm bs,
    scan_candidates self fuel i (fst (moved dx dy r1)) (snd (moved dx dy r1)) used j
      (map (moved dx dy) rows2) bm bs
    = scan_candidates self fuel i (fst r1) (snd r1) used j rows2 bm bs.
Proof.
  induction rows2 as [| r2 rest IH]; intros used j bm bs; [reflexivity|].
  cbn [map].
  destruct (moved dx dy r2) as [p2' o2'] eqn:E2. destruct r2 as [p2 o2].
  rewrite !scan_candidates_cons.
  replace (fst (moved dx dy r1), snd (moved dx dy r1)) with (moved dx dy r1)
    by now destruct (moved dx dy r1).
  rewrite <- E2, pairing_moved.
  replace (fst r1, snd r1) with r1 by now destruct r1.
  destruct (mem j used); [apply IH|].
  destruct (pairing self fuel r1 (p2, o2)) as [[[d od] |] | |]; cbn [bind];
    try reflexivity; [| apply IH].
  destruct (ltb (combined d od) bs); apply IH.
Qed.

Lemma scan_points_moved (rows2 rows1 : list (point * float)) :
  forall i matches used,
    scan_points self fuel i (map (moved dx dy) rows1) (map (moved dx dy) rows2) matches used
    = scan_points self fuel i rows1 rows2 matches used.
Proof.
  induction rows1 as [| r1 rest IH]; intros i matches used; [reflexivity|].
  cbn [map].
  destruct (moved dx dy r1) as [p1' o1'] eqn:E1. destruct r1 as [p1 o1].
  cbn [scan_points].
  pose proof (scan_candidates_moved i (p1, o1) rows2 used 0 None infinity) as E.
  rewrite E1 in E. cbn [fst snd] in E. rewrite E.
  destruct (scan_candidates self fuel i p1 o1 used 0 rows2 None infinity) as [[m |] | |];
    cbn [bind]; try reflexivity; apply IH.
Qed.

Lemma row_translate (l : list Minutia.t) :
  map row (map (translate dx dy) l) = map (moved dx dy) (map row l).
Proof. induction l as [| m l IH]; [reflexivity|]. cbn [map]. now rewrite IH. Qed.

End TranslationFacts.

Section GeometryProperties.

Import Float64 FingerprintMatcher FloatOrder Search Wellformed Geometry Examples.

Local Open Scope nat_scope.

(** Two lists of minutiae in which every point of the first is farther
    than the distance threshold from every point of the second have no
    correspondence and the confidence 0.0, for every configuration,
    every orientation and every iteration budget: the orientations
    are not looked at. *)
Theorem far_apart_scores_zero (self : t) (fuel : nat) (A B : list Minutia.t) :
  forallb coordinates_ok A = true ->
  forallb coordinates_ok B = true ->
  (forall a b, In a A -> In b B -> far self a b = true) ->
  _find_minutiae_correspondences self fuel
    (map (fun m => fst (row m)) A) (map (fun m => fst (row m)) B)
    (map (fun m => snd (row m)) A) (map (fun m => snd (row m)) B) = Done [] /\
  _calculate_match_confidence self fuel (to_py A) (to_py B) = Done zero.
Proof.
  intros VA VB H.
  assert (S : scan_points self fuel 0 (map row A) (map row B) [] [] = Done []).
  { apply scan_points_far. intros r1 r2 H1 H2.
    apply in_map_iff in H1, H2. destruct H1 as (a & <- & Ha), H2 as (b & <- & Hb).
    exact (H a b Ha Hb). }
  split.
  - unfold _find_minutiae_correspondences. now rewrite !combine_rows.
  - destruct A as [| a A'] eqn:EA; [reflexivity|].
    destruct B as [| b B'] eqn:EB; [apply calculate_match_confidence_empty_r|].
    rewrite <- EA, <- EB in *.
    rewrite calculate_match_confidence_coords; try assumption; try (subst; discriminate).
    rewrite S. reflexivity.
Qed.

(** The point (10, 10) against the point (100, 100), both given the
    orientation [float('inf')], with no iteration allowed. *)
Lemma far_apart_scores_zero_witness :
  let a := {| Minutia.x := 10; Minutia.y := 10; Minutia.orientation := infinity;
              Minutia.type := Minutia.ridge_ending |} in
  let b := {| Minutia.x := 100; Minutia.y := 100; Minutia.orientation := infinity;
              Minutia.type := Minutia.ridge_ending |} in
  _calculate_match_confidence __init__ 0 (to_py [a]) (to_py [b]) = Done zero.
Proof.
  intros a b.
  apply (far_apart_scores_zero __init__ 0 [a] [b]).
  - reflexivity.
  - reflexivity.
  - intros a' b' [<- | []] [<- | []]. vm_compute. reflexivity.
Defined.

(** A list element that is not a dict, or a dict without the key [x]
    or the key [y], in either list: the confidence is 0.0, whatever the
    other elements are, for every configuration and iteration budget. *)
Theorem missing_coordinate_scores_zero (self : t) (fuel : nat) (l1 l2 : list pyval) :
  existsb lacks_coordinate (l1 ++ l2) = true ->
  _calculate_match_confidence self fuel (PList l1) (PList l2) = Done zero.
Proof.
  intro H. rewrite existsb_app in H.
  unfold _calculate_match_confidence.
  destruct (negb (Py.truthy (PList l1)) || negb (Py.truthy (PList l2))); [reflexivity|].
  cbn [elements bind].
  apply orb_prop in H. destruct H as [H | H].
  - now rewrite (mapM_point_of_lacks l1 H).
  - pose proof (mapM_point_of_not_hang l1) as N.
    destruct (mapM point_of l1) as [p1 | |]; cbn [bind]; try reflexivity; try congruence.
    now rewrite (mapM_point_of_lacks l2 H).
Qed.

(** A probe whose second element has no [y], against a well-formed
    point. *)
Lemma missing_coordinate_scores_zero_witness :
  _calculate_match_confidence __init__ 1
    (PList [Minutia.to_py minutia_10_10; PDict [("x"%string, PInt 10)]])
    (PList [Minutia.to_py minutia_10_10]) = Done zero.
Proof.
  apply (missing_coordinate_scores_zero __init__ 1
           [Minutia.to_py minutia_10_10; PDict [("x"%string, PInt 10)]]
           [Minutia.to_py minutia_10_10]).
  vm_compute. reflexivity.
Defined.

(** The confidence depends on the coordinates and the orientations
    only: two pairs of lists with the same rows, whatever the types of
    their minutiae, have the same outcome. *)
Theorem confidence_ignores_type (self : t) (fuel : nat) (A A' B B' : list Minutia.t) :
  map row A = map row A' ->
  map row B = map row B' ->
  _calculate_match_confidence self fuel (to_py A) (to_py B)
  = _calculate_match_confidence self fuel (to_py A') (to_py B').
Proof.
  intros EA EB. unfold _calculate_match_confidence, to_py.
  assert (TA : Py.truthy (PList (map Minutia.to_py A))
               = Py.truthy (PList (map Minutia.to_py A'))).
  { destruct A, A'; try discriminate; reflexivity. }
  assert (TB : Py.truthy (PList (map Minutia.to_py B))
               = Py.truthy (PList (map Minutia.to_py B'))).
  { destruct B, B'; try discriminate; reflexivity. }
  rewrite TA, TB. cbn [elements bind].
  rewrite (mapM_point_of_rows A A' EA), (mapM_point_of_rows B B' EB).
  rewrite !orientations_of_to_py_list.
  assert (OA : map (fun m => snd (row m)) A = map (fun m => snd (row m)) A').
  { rewrite <- !(map_map row snd). now rewrite EA. }
  assert (OB : map (fun m => snd (row m)) B = map (fun m => snd (row m)) B').
  { rewrite <- !(map_map row snd). now rewrite EB. }
  rewrite OA, OB.
  assert (LA : List.length (map Minutia.to_py A) = List.length (map Minutia.to_py A')).
  { rewrite !length_map, <- (length_map row A), EA. apply length_map. }
  assert (LB : List.length (map Minutia.to_py B) = List.length (map Minutia.to_py B')).
  { rewrite !length_map, <- (length_map row B), EB. apply length_map. }
  rewrite LA, LB. reflexivity.
Qed.

(** The same two points, once as bifurcations, once as ridge endings. *)
Lemma confidence_ignores_type_witness :
  let a := {| Minutia.x := 10; Minutia.y := 10; Minutia.orientation := zero;
              Minutia.type := Minutia.ridge_ending |} in
  _calculate_match_confidence __init__ 1 (to_py [minutia_10_10]) (to_py [minutia_13_14])
  = _calculate_match_confidence __init__ 1 (to_py [a]) (to_py [minutia_13_14]).
Proof.
  intro a.
  apply (confidence_ignores_type __init__ 1 [minutia_10_10] [a]
           [minutia_13_14] [minutia_13_14]); reflexivity.
Defined.

(** Moving both lists by the same offset changes nothing: as long as
    the coordinates stay in the [int64] array, the outcome is the
    same, for every configuration and iteration budget. *)
Theorem confidence_translation_invariant (self : t) (fuel : nat) (dx dy : Z)
    (A B : list Minutia.t) :
  forallb coordinates_ok A = true ->
  forallb coordinates_ok B = true ->
  forallb coordinates_ok (map (translate dx dy) A) = true ->
  forallb coordinates_ok (map (translate dx dy) B) = true ->
  _calculate_match_confidence self fuel
    (to_py (map (translate dx dy) A)) (to_py (map (translate dx dy) B))
  = _calculate_match_confidence self fuel (to_py A) (to_py B).
Proof.
  intros VA VB VA' VB'.
  destruct A as [| a A'] eqn:EA; [reflexivity|].
  destruct B as [| b B'] eqn:EB.
  { cbn [map]. now rewrite !calculate_match_confidence_empty_r. }
  rewrite <- EA, <- EB in *.
  assert (NA : A <> []) by (subst; discriminate).
  assert (NB : B <> []) by (subst; discriminate).
  rewrite !calculate_match_confidence_coords; try assumption;
    try (subst; discriminate).
  rewrite !row_translate, scan_points_moved, !length_map. reflexivity.
Qed.

(** Two lists moved by (1000, -5). *)
Lemma confidence_translation_invariant_witness :
  _calculate_match_confidence __init__ 1
    (to_py (map (translate 1000 (-5)) [minutia_10_10; minutia_100_100]))
    (to_py (map (translate 1000 (-5)) [minutia_13_14]))
  = _calculate_match_confidence __init__ 1
      (to_py [minutia_10_10; minutia_100_100]) (to_py [minutia_13_14]).
Proof.
  apply (confidence_translation_invariant __init__ 1 1000 (-5)
           [minutia_10_10; minutia_100_100] [minutia_13_14]); reflexivity.
Defined.

End GeometryProperties.

(* ===================================================================== *)
(** * Verification of two templates *)
(* ===================================================================== *)

Section VerifyFacts.

Import Float64 FingerprintMatcher FloatOrder FloatShape Search Wellformed Plain MatcherApi.

Local Open Scope nat_scope.

(** The minutiae that [verify_match] reads from a decoded template. *)
Lemma get_minutiae_decoded (ver q shape ms count created : pyval) :
  Py.get [ ("version"%string, ver); ("quality"%string, q); ("image_shape"%string, shape);
           ("minutiae"%string, ms); ("minutiae_count"%string, count);
           ("created_at"%string, created) ] "minutiae" (PList []) = ms.
Proof. reflexivity. Qed.

Lemma verify_match_enrolled_report (float_repr : float -> string)
    (processor : FingerprintProcessor.t) (self : t) (fuel : nat) (e1 e2 : Enrollment.t) :
  plain_string (FingerprintProcessor.template_version processor) = true ->
  Enrollment.wellformed float_repr e1 = true ->
  Enrollment.wellformed float_repr e2 = true ->
  verify_match self fuel
    (PStr (Enrollment.template float_repr processor e1))
    (PStr (Enrollment.template float_repr processor e2))
  = try_except
      (confidence <- _calculate_match_confidence self fuel
                       (to_py (Enrollment.points e1)) (to_py (Enrollment.points e2)) ;;
       Done (PDict [ ("success"%string, PBool true);
                     ("match"%string, PBool (geb confidence (match_threshold self)));
                     ("confidence"%string, PFloat confidence);
                     ("threshold"%string, PFloat (match_threshold self)) ]))
      (verify_failure "Verification failed").
Proof.
  intros Hv W1 W2. unfold verify_match.
  rewrite (decode_enrolled float_repr processor Hv e1 W1).
  rewrite (decode_enrolled float_repr processor Hv e2 W2).
  cbn [Py.truthy negb orb].
  rewrite !get_minutiae_decoded.
  rewrite (minutiae_truthy float_repr e1 W1), (minutiae_truthy float_repr e2 W2).
  reflexivity.
Qed.

End VerifyFacts.

Section VerifyProperties.

Import Float64 FingerprintMatcher FloatOrder FloatShape Search Wellformed Plain MatcherApi
       Examples.

Local Open Scope nat_scope.

(** [verify_match] never raises.  Its report is one of the three
    failure reports, which say [match: False] and [confidence: 0.0], or
    the success report: both templates decode to records, the
    confidence is that of their minutiae, and [match] says whether it
    is at or above the threshold. *)
Theorem verify_match_report (self : t) (fuel : nat) (template1 template2 : pyval) :
  verify_match self fuel template1 template2 <> Raised /\
  forall r,
    verify_match self fuel template1 template2 = Done r ->
    (r = verify_failure "Failed to decode templates" \/
     r = verify_failure "No minutiae found in templates" \/
     r = verify_failure "Verification failed") \/
    exists d1 d2 c,
      _decode_template template1 = Some (PDict d1) /\
      _decode_template template2 = Some (PDict d2) /\
      _calculate_match_confidence self fuel
        (Py.get d1 "minutiae" (PList [])) (Py.get d2 "minutiae" (PList [])) = Done c /\
      r = PDict [ ("success"%string, PBool true);
                  ("match"%string, PBool (geb c (match_threshold self)));
                  ("confidence"%string, PFloat c);
                  ("threshold"%string, PFloat (match_threshold self)) ].
Proof.
  unfold verify_match.
  destruct (_decode_template template1) as [data1 |];
    [| split; [discriminate | intros r E; injection E as <-; auto]].
  destruct (_decode_template template2) as [data2 |];
    [| split; [discriminate | intros r E; injection E as <-; auto]].
  destruct (negb (Py.truthy data1) || negb (Py.truthy data2));
    [split; [discriminate | intros r E; injection E as <-; auto]|].
  destruct data1 as [ | | | | | | |d1];
    try (split; [discriminate | intros r E; injection E as <-; auto 6]).
  destruct data2 as [ | | | | | | |d2];
    try (split; [discriminate | intros r E; injection E as <-; auto 6]).
  destruct (negb (Py.truthy (Py.get d1 "minutiae" (PList [])))
            || negb (Py.truthy (Py.get d2 "minutiae" (PList []))));
    [split; [discriminate | intros r E; injection E as <-; auto 6]|].
  destruct (_calculate_match_confidence self fuel _ _) as [c | |] eqn:Ec;
    cbn [bind try_except].
  - split; [discriminate|]. intros r E. injection E as <-.
    right. exists d1, d2, c. auto.
  - split; [discriminate | intros r E; injection E as <-; auto 6].
  - split; discriminate.
Qed.

(** Two templates that [_generate_template] wrote for minutiae of the
    data model: [verify_match] reports success, with a confidence [c]
    between 0 and 1 that is the confidence of the two lists of
    minutiae, and a match exactly when [c] is at or above the
    threshold; [get_similarity_score] returns [c]. *)
Theorem verify_match_enrolled (float_repr : float -> string)
    (processor : FingerprintProcessor.t) (self : t) (fuel : nat) (e1 e2 : Enrollment.t) :
  plain_string (FingerprintProcessor.template_version processor) = true ->
  Enrollment.wellformed float_repr e1 = true ->
  Enrollment.wellformed float_repr e2 = true ->
  (Z.of_nat (List.length (Enrollment.points e1)) < 2 ^ 63)%Z ->
  1 <= fuel ->
  exists c,
    _calculate_match_confidence self fuel
      (to_py (Enrollment.points e1)) (to_py (Enrollment.points e2)) = Done c /\
    leb zero c = true /\ leb c one = true /\
    verify_match self fuel
      (PStr (Enrollment.template float_repr processor e1))
      (PStr (Enrollment.template float_repr processor e2))
    = Done (PDict [ ("success"%string, PBool true);
                    ("match"%string, PBool (geb c (match_threshold self)));
                    ("confidence"%string, PFloat c);
                    ("threshold"%string, PFloat (match_threshold self)) ]) /\
    get_similarity_score self fuel
      (PStr (Enrollment.template float_repr processor e1))
      (PStr (Enrollment.template float_repr processor e2))
    = Done (PFloat c).
Proof.
  intros Hv W1 W2 L Hf. destruct fuel as [| f]; [lia|].
  destruct (wellformed_inv float_repr e1 W1) as (_ & N1 & V1 & _).
  destruct (wellformed_inv float_repr e2 W2) as (_ & N2 & V2 & _).
  destruct (match_confidence_range self f _ _ N1 N2 V1 V2 L) as (c & Ec & C0 & C1).
  exists c. split; [exact Ec|]. split; [exact C0|]. split; [exact C1|].
  unfold get_similarity_score.
  rewrite (verify_match_enrolled_report float_repr processor self (S f) e1 e2 Hv W1 W2).
  rewrite Ec. split; reflexivity.
Qed.

(** A finger of two minutiae against a finger of one. *)
Lemma verify_match_enrolled_witness :
  let e1 := {| Enrollment.student := "s1"; Enrollment.points := [minutia_10_10; minutia_100_100];
               Enrollment.quality := f0_7; Enrollment.height := 300;
               Enrollment.width := 256 |} in
  let e2 := {| Enrollment.student := "s2"; Enrollment.points := [minutia_13_14];
               Enrollment.quality := f0_6; Enrollment.height := 300;
               Enrollment.width := 256 |} in
  exists c,
    leb zero c = true /\ leb c one = true /\
    get_similarity_score __init__ 1
      (PStr (Enrollment.template exact_repr FingerprintProcessor.__init__ e1))
      (PStr (Enrollment.template exact_repr FingerprintProcessor.__init__ e2))
    = Done (PFloat c).
Proof.
  intros e1 e2.
  destruct (verify_match_enrolled exact_repr FingerprintProcessor.__init__ __init__ 1 e1 e2)
    as (c & _ & C0 & C1 & _ & G).
  - reflexivity.
  - vm_compute. reflexivity.
  - vm_compute. reflexivity.
  - vm_compute. reflexivity.
  - lia.
  - exists c. repeat split; assumption.
Defined.

(** The template of a finger against itself, under the default
    thresholds: the similarity score is exactly 1.0 and [verify_match]
    reports a match. *)
Theorem get_similarity_score_self (float_repr : float -> string)
    (processor : FingerprintProcessor.t) (fuel : nat) (e : Enrollment.t) :
  plain_string (FingerprintProcessor.template_version processor) = true ->
  Enrollment.wellformed float_repr e = true ->
  (Z.of_nat (List.length (Enrollment.points e)) < 2 ^ 53)%Z ->
  1 <= fuel ->
  get_similarity_score __init__ fuel
    (PStr (Enrollment.template float_repr processor e))
    (PStr (Enrollment.template float_repr processor e))
  = Done (PFloat one) /\
  verify_match __init__ fuel
    (PStr (Enrollment.template float_repr processor e))
    (PStr (Enrollment.template float_repr processor e))
  = Done (PDict [ ("success"%string, PBool true);
                  ("match"%string, PBool true);
                  ("confidence"%string, PFloat one);
                  ("threshold"%string, PFloat f0_7) ]).
Proof.
  intros Hv W L Hf. destruct fuel as [| f]; [lia|].
  destruct (wellformed_inv float_repr e W) as (_ & N & V & _).
  unfold get_similarity_score.
  rewrite (verify_match_enrolled_report float_repr processor __init__ (S f) e e Hv W W).
  rewrite (match_confidence_self f _ N V L). split; reflexivity.
Qed.

(** A finger of three minutiae. *)
Lemma get_similarity_score_self_witness :
  let e := {| Enrollment.student := "s1";
              Enrollment.points := [minutia_10_10; minutia_13_14; minutia_100_100];
              Enrollment.quality := f0_7; Enrollment.height := 300;
              Enrollment.width := 256 |} in
  get_similarity_score __init__ 1
    (PStr (Enrollment.template exact_repr FingerprintProcessor.__init__ e))
    (PStr (Enrollment.template exact_repr FingerprintProcessor.__init__ e))
  = Done (PFloat one).
Proof.
  intro e.
  apply (get_similarity_score_self exact_repr FingerprintProcessor.__init__ 1 e).
  - reflexivity.
  - vm_compute. reflexivity.
  - vm_compute. reflexivity.
  - lia.
Defined.


End VerifyProperties.

(* ===================================================================== *)
(** * Angles and measurements *)
(* ===================================================================== *)

Section MeasureFacts.

Import Float64 FingerprintMatcher FloatOrder FloatShape Search.

Local Open Scope nat_scope.

Variable self : t.
Variable fuel : nat.

Lemma nan_score_not_below (d od bs : float) :
  is_nan od = true -> ltb (combined d od) bs = false.
Proof.
  destruct od; try discriminate. intros _. unfold combined.
  change (mul S754_nan f20) with S754_nan. now destruct d.
Qed.

Lemma scan_candidates_measures (rows2 : list (point * float)) :
  forall i p1 o1 used j bm bs res,
    (forall m, bm = Some m ->
       nonneg (distance_of m) = true /\ nonneg (orientation_diff_of m) = true) ->
    scan_candidates self fuel i p1 o1 used j rows2 bm bs = Done res ->
    forall m, res = Some m ->
      nonneg (distance_of m) = true /\ nonneg (orientation_diff_of m) = true.
Proof.
  induction rows2 as [| [p2 o2] rest IH]; intros i p1 o1 used j bm bs res Hbm.
  - cbn [scan_candidates]. intros E. injection E as <-. exact Hbm.
  - rewrite scan_candidates_cons.
    destruct (mem j used); [now apply IH|].
    destruct (pairing self fuel (p1, o1) (p2, o2)) as [[[d od] |] | |] eqn:P;
      cbn [bind]; try discriminate; [| now apply IH].
    destruct (ltb (combined d od) bs) eqn:L; [| now apply IH].
    apply IH. intros m E. injection E as <-.
    cbn [distance_of orientation_diff_of fst snd].
    destruct (pairing_some self fuel _ _ _ _ P) as (-> & _ & (a & _ & ->) & _).
    split; [apply norm_nonneg|]. apply abs_nonneg.
    destruct (is_nan a) eqn:N; [| reflexivity].
    rewrite nan_score_not_below in L; [discriminate|].
    now destruct a.
Qed.

Lemma scan_points_measures (rows2 rows1 : list (point * float)) :
  forall i matches used out,
    (forall m, In m matches ->
       nonneg (distance_of m) = true /\ nonneg (orientation_diff_of m) = true) ->
    scan_points self fuel i rows1 rows2 matches used = Done out ->
    forall m, In m out ->
      nonneg (distance_of m) = true /\ nonneg (orientation_diff_of m) = true.
Proof.
  induction rows1 as [| [p1 o1] rest IH]; intros i matches used out Hm.
  - cbn [scan_points]. intros E. injection E as <-. exact Hm.
  - cbn [scan_points].
    destruct (scan_candidates self fuel i p1 o1 used 0 rows2 None infinity)
      as [res | |] eqn:E; cbn [bind]; try discriminate.
    pose proof (scan_candidates_measures rows2 i p1 o1 used 0 None infinity res
                  ltac:(discriminate) E) as G.
    destruct res as [m0 |]; apply IH; [| exact Hm].
    intros m Hin. apply in_app_or in Hin. destruct Hin as [Hin | [<- | []]];
      [now apply Hm | now apply G].
Qed.

End MeasureFacts.

Section MeasureProperties.

Import Float64 FingerprintMatcher FloatOrder FloatShape Search.

Local Open Scope nat_scope.

(** [_normalize_angle] returns an angle between [-pi] and [pi] as it
    is, for every iteration budget.  An angle of magnitude at most 8 is
    brought between [-pi] and [pi] by at most one pass of one loop: the
    result is the angle itself, the angle minus [2 * pi] or the angle
    plus [2 * pi].  The difference of two angles between [-pi] and [pi]
    is such an angle. *)
Theorem normalize_angle_range :
  (forall fuel x, in_half_turn x = true -> _normalize_angle fuel x = Done x) /\
  (forall f d, within8 d = true ->
     exists r, _normalize_angle (S f) d = Done r /\ in_half_turn r = true /\
               (r = d \/ r = sub d two_pi \/ r = add d two_pi)) /\
  (forall f a b, angle_ok a = true -> angle_ok b = true ->
     exists r, _normalize_angle (S f) (sub a b) = Done r /\ in_half_turn r = true).
Proof.
  assert (Stop1 : forall k r, in_half_turn r = true -> while_above_pi k r = Done r).
  { intros k r Hr. apply in_half_turn_inv in Hr. destruct Hr as [_ Hr].
    apply leb_not_ltb in Hr. destruct k; cbn [while_above_pi]; unfold gtb; now rewrite Hr. }
  assert (Stop2 : forall k r, in_half_turn r = true -> while_below_minus_pi k r = Done r).
  { intros k r Hr. apply in_half_turn_inv in Hr. destruct Hr as [Hr _].
    apply leb_not_ltb in Hr. destruct k; cbn [while_below_minus_pi]; now rewrite Hr. }
  split; [| split].
  - intros k x Hx. unfold _normalize_angle. rewrite Stop1 by assumption.
    cbn [bind]. now apply Stop2.
  - intros f d W. unfold _normalize_angle.
    destruct (gtb d pi) eqn:G.
    + pose proof (sub_two_pi_in_half_turn d W G) as Hr.
      exists (sub d two_pi). split; [| auto].
      cbn [while_above_pi]. rewrite G. rewrite Stop1 by assumption.
      cbn [bind]. now apply Stop2.
    + cbn [while_above_pi]. rewrite G. cbn [bind].
      destruct (ltb d (SFopp pi)) eqn:L.
      * pose proof (add_two_pi_in_half_turn d W L) as Hr.
        exists (add d two_pi). split; [| auto].
        cbn [while_below_minus_pi]. rewrite L. now apply Stop2.
      * exists d. split; [cbn [while_below_minus_pi]; now rewrite L|].
        split; [| now left].
        unfold in_half_turn. apply andb_true_intro. split.
        -- apply not_ltb_leb; [reflexivity | now apply within8_not_nan | assumption].
        -- apply not_ltb_leb; [now apply within8_not_nan | reflexivity | assumption].
  - intros f a b Ha Hb. now apply angle_difference_done.
Qed.

(** In every list of correspondences that the search returns, for any
    points, orientations, configuration and iteration budget, the
    distance and the orientation difference of each correspondence are
    not negative and not NaN. *)
Theorem correspondence_measures (self : t) (fuel : nat) (points1 points2 : list point)
    (orientations1 orientations2 : list float) (matches : list correspondence) :
  _find_minutiae_correspondences self fuel points1 points2 orientations1 orientations2
    = Done matches ->
  forall m, In m matches ->
    nonneg (distance_of m) = true /\ nonneg (orientation_diff_of m) = true /\
    leb zero (distance_of m) = true /\ leb zero (orientation_diff_of m) = true.
Proof.
  unfold _find_minutiae_correspondences. intros H m Hm.
  destruct (scan_points_measures self fuel _ _ 0 [] [] matches ltac:(intros ? []) H m Hm)
    as [D O].
  repeat split; try assumption; now apply nonneg_leb_zero.
Qed.

(** Two points against three candidates: the second correspondence. *)
Lemma correspondence_measures_witness :
  leb zero (distance_of (1, 0, S754_zero false, S754_finite false 7205759403792793 (-55)))
  = true /\
  leb zero
    (orientation_diff_of (1, 0, S754_zero false, S754_finite false 7205759403792793 (-55)))
  = true.
Proof.
  destruct (correspondence_measures __init__ 2 [(0, 0); (3, 4)]%Z
              [(3, 4); (0, 0); (30, 40)]%Z [zero; f0_3] [f0_1; zero; zero]
              [(0, 1, S754_zero false, S754_zero false);
               (1, 0, S754_zero false, S754_finite false 7205759403792793 (-55))]
              ltac:(vm_compute; reflexivity)
              (1, 0, S754_zero false, S754_finite false 7205759403792793 (-55))
              ltac:(right; left; reflexivity)) as (_ & _ & D & O).
  split; assumption.
Defined.

End MeasureProperties.

(* ===================================================================== *)
(** * Quality verification *)
(* ===================================================================== *)

Section QualityFacts.

Import Float64 FingerprintProcessor FloatOrder FloatShape Plain.

(** [x >= y] on two floats. *)
Lemma ge_float (x y : float) : PyNum.ge (PFloat x) (PFloat y) = Done (geb x y).
Proof.
  unfold PyNum.ge, PyNum.compare, geb, leb, SFleb. rewrite !compare_key.
  destruct (key x) as [a |], (key y) as [b |]; try reflexivity.
  rewrite (lex_antisym a b). now destruct (lex a b).
Qed.

(** [n >= m] on two ints. *)
Lemma ge_int (n m : Z) : PyNum.ge (PInt n) (PInt m) = Done (m <=? n).
Proof.
  unfold PyNum.ge, PyNum.compare.
  destruct (Z.compare_spec n m); destruct (Z.leb_spec m n); try reflexivity; lia.
Qed.

End QualityFacts.

Section QualityProperties.

Import Float64 FingerprintProcessor FloatOrder FloatShape Plain Examples.

(** On a template that [_generate_template] wrote for the minutiae
    [ms] with the quality [q], [verify_quality] returns [q] and
    [len(ms)], and the template is valid exactly when [q] is at or above
    the quality threshold and there are at least 10 minutiae. *)
Theorem verify_quality_generated (float_repr : float -> string) (self : t)
    (ms : list Minutia.t) (q : float) (h w : Z) :
  plain_string (template_version self) = true ->
  forallb (repr_round_trips float_repr) (q :: map Minutia.orientation ms) = true ->
  verify_quality self
    (PStr (_generate_template float_repr self (map Minutia.to_py ms) q [h; w]))
  = PDict [ ("is_valid"%string,
             PBool (geb q (min_quality_threshold self)
                    && (10 <=? Z.of_nat (List.length ms))));
            ("quality"%string, PFloat q);
            ("minutiae_count"%string, PInt (Z.of_nat (List.length ms))) ].
Proof.
  intros Hv Hr. unfold verify_quality.
  rewrite (decode_generate float_repr self ms q h w Hv Hr).
  cbn [Py.truthy negb].
  change (Py.get _ "quality" (PFloat zero)) with (PFloat q).
  change (Py.get _ "minutiae_count" (PInt 0)) with (PInt (Z.of_nat (List.length ms))).
  rewrite ge_float, ge_int. cbn [bind].
  destruct (geb q (min_quality_threshold self)); reflexivity.
Qed.

(** One minutia at quality 0.7: not valid, for want of minutiae. *)
Lemma verify_quality_generated_witness :
  verify_quality __init__
    (PStr (_generate_template exact_repr __init__ (map Minutia.to_py [minutia_13_14])
             f0_7 [300; 256]))
  = PDict [ ("is_valid"%string, PBool false);
            ("quality"%string, PFloat f0_7);
            ("minutiae_count"%string, PInt 1) ].
Proof.
  apply (verify_quality_generated exact_repr __init__ [minutia_13_14] f0_7 300 256).
  - reflexivity.
  - vm_compute. reflexivity.
Defined.

(** [verify_quality] always returns a report with a boolean
    [is_valid].  The report says valid only when the template decodes
    to a record whose stored quality is a number at or above the
    threshold and whose stored count is a number of at least 10; with a
    positive threshold, a record without [quality] or without
    [minutiae_count] is never valid. *)
Theorem verify_quality_report (self : t) (template : pyval) :
  exists r b,
    verify_quality self template = PDict r /\
    Py.lookup "is_valid" r = Some (PBool b) /\
    (b = true ->
     exists d,
       _decode_template template = Some (PDict d) /\
       PyNum.ge (Py.get d "quality" (PFloat zero)) (PFloat (min_quality_threshold self))
       = Done true /\
       PyNum.ge (Py.get d "minutiae_count" (PInt 0)) (PInt 10) = Done true /\
       Py.lookup "quality" r = Some (Py.get d "quality" (PFloat zero)) /\
       (ltb zero (min_quality_threshold self) = true ->
        Py.lookup "quality" d <> None /\ Py.lookup "minutiae_count" d <> None)).
Proof.
  unfold verify_quality.
  destruct (_decode_template template) as [data |];
    [| eexists; exists false; repeat split; discriminate].
  destruct (negb (Py.truthy data)); [eexists; exists false; repeat split; discriminate|].
  destruct data as [ | | | | | | |d]; try (eexists; exists false; repeat split; discriminate).
  destruct (PyNum.ge (Py.get d "quality" (PFloat zero)) _) as [c1 | |] eqn:E1; cbn [bind];
    try (eexists; exists false; repeat split; discriminate).
  destruct c1.
  - destruct (PyNum.ge (Py.get d "minutiae_count" (PInt 0)) (PInt 10)) as [c2 | |] eqn:E2;
      cbn [bind]; try (eexists; exists false; repeat split; discriminate).
    eexists. exists c2. split; [reflexivity|]. split; [reflexivity|].
    intros ->. exists d. repeat split; try assumption.
    + intro N. unfold Py.get in E1. rewrite N in E1. rewrite ge_float in E1.
      injection E1 as E1. unfold geb in E1. apply leb_not_ltb in E1. congruence.
    + intro N. unfold Py.get in E2. rewrite N in E2. rewrite ge_int in E2. discriminate.
  - cbn [bind]. eexists. exists false. repeat split; discriminate.
Qed.

End QualityProperties.

(* ===================================================================== *)
(** * The image pipeline *)
(* ===================================================================== *)

Section PipelineFacts.

Import Float64 FingerprintProcessor Pipeline.

Local Open Scope nat_scope.

Lemma collect_complete (contours : list contour) :
  (forall c, In c contours -> long c = true -> corners c <> None) ->
  forall minutiae,
    collect contours minutiae = (minutiae ++ long_corners contours, true).
Proof.
  induction contours as [| c rest IH]; intros H minutiae.
  - cbn. now rewrite app_nil_r.
  - cbn [collect long_corners flat_map].
    pose proof (H c (or_introl eq_refl)) as Hc.
    destruct (long c).
    + destruct (corners c) as [points |]; [| now specialize (Hc eq_refl)].
      rewrite IH by (intros; apply H; [now right | assumption]).
      now rewrite <- app_assoc.
    + rewrite IH by (intros; apply H; [now right | assumption]). reflexivity.
Qed.

Lemma collect_interrupted (before : list contour) (c : contour) (after : list contour) :
  (forall c', In c' before -> long c' = true -> corners c' <> None) ->
  long c = true -> corners c = None ->
  forall minutiae,
    collect (before ++ c :: after) minutiae = (minutiae ++ long_corners before, false).
Proof.
  intros Hb Hl Hc. induction before as [| b rest IH]; intro minutiae.
  - cbn [app collect long_corners flat_map]. rewrite Hl, Hc. now rewrite app_nil_r.
  - cbn [app collect long_corners flat_map].
    pose proof (Hb b (or_introl eq_refl)) as Hb0.
    destruct (long b).
    + destruct (corners b) as [points |]; [| now specialize (Hb0 eq_refl)].
      rewrite IH by (intros; apply Hb; [now right | assumption]).
      now rewrite <- app_assoc.
    + rewrite IH by (intros; apply Hb; [now right | assumption]). reflexivity.
Qed.

Lemma collect_types (contours : list contour) :
  forall minutiae,
    Forall (fun m => Minutia.type m = Minutia.bifurcation) minutiae ->
    Forall (fun m => Minutia.type m = Minutia.bifurcation) (fst (collect contours minutiae)).
Proof.
  induction contours as [| c rest IH]; intros minutiae H; [exact H|].
  cbn [collect]. destruct (long c); [| now apply IH].
  destruct (corners c) as [points |]; [| exact H].
  apply IH. apply Forall_app. split; [exact H|].
  apply Forall_forall. intros m Hm. apply in_map_iff in Hm.
  now destruct Hm as (p & <- & _).
Qed.

Lemma firstn_Forall {A} (P : A -> Prop) (n : nat) (l : list A) :
  Forall P l -> Forall P (firstn n l).
Proof.
  revert l. induction n as [| n IH]; intros l H; [constructor|].
  destruct H as [| x l Hx Hl]; [constructor|].
  cbn [firstn]. constructor; [assumption | now apply IH].
Qed.

End PipelineFacts.

Section PipelineProperties.

Import Float64 FingerprintProcessor Pipeline Plain Examples.

Local Open Scope nat_scope.

(** [_extract_minutiae] never raises and every minutia it returns is
    typed [bifurcation].  When no OpenCV call raises, it returns the
    first 50 corners of the contours of more than 10 points.  When the
    approximation of a contour raises, it returns the corners collected
    before that contour, all of them: the cut to 50 is not made.  When a
    call before the loop raises, it returns the empty list. *)
Theorem extract_minutiae_report (image : Type)
    (find_contours : image -> outcome (list contour)) (im : image) :
  _extract_minutiae image find_contours im <> Raised /\
  (forall minutiae,
     _extract_minutiae image find_contours im = Done minutiae ->
     Forall (fun m => Minutia.type m = Minutia.bifurcation) minutiae) /\
  (forall contours,
     find_contours im = Done contours ->
     (forall c, In c contours -> long c = true -> corners c <> None) ->
     _extract_minutiae image find_contours im = Done (firstn 50 (long_corners contours)) /\
     List.length (firstn 50 (long_corners contours)) <= 50) /\
  (forall before c after,
     find_contours im = Done (before ++ c :: after) ->
     (forall c', In c' before -> long c' = true -> corners c' <> None) ->
     long c = true -> corners c = None ->
     _extract_minutiae image find_contours im = Done (long_corners before)) /\
  (find_contours im = Raised -> _extract_minutiae image find_contours im = Done []).
Proof.
  unfold _extract_minutiae. repeat split.
  - destruct (find_contours im) as [cs | |]; try discriminate.
    destruct (collect cs []); discriminate.
  - intros minutiae.
    destruct (find_contours im) as [cs | |]; try discriminate.
    + pose proof (collect_types cs [] (Forall_nil _)) as T.
      destruct (collect cs []) as [ms completed]. cbn [fst] in T.
      intros E.
      replace minutiae with (if completed then firstn 50 ms else ms) by congruence.
      destruct completed; [now apply firstn_Forall | exact T].
    + intros E. injection E as <-. constructor.
  - rewrite H. now rewrite (collect_complete contours H0 []).
  - apply firstn_le_length.
  - intros before c after E Hb Hl Hc. rewrite E.
    now rewrite (collect_interrupted before c after Hb Hl Hc []).
  - intros ->. reflexivity.
Qed.

End PipelineProperties.

Section ProcessProperties.

Import Float64 FingerprintProcessor Pipeline Plain.

Local Open Scope nat_scope.

Variable image : Type.
Variable imdecode : string -> outcome (option image).
Variable _enhance_fingerprint : image -> outcome image.
Variable shape : image -> Z * Z.
Variable statistics : image -> option image_stats.
Variable find_contours : image -> outcome (list contour).
Variable float_repr : float -> string.

Local Abbreviation process_fingerprint :=
  (process_fingerprint image imdecode _enhance_fingerprint shape statistics
     find_contours float_repr).
Local Abbreviation _extract_minutiae := (_extract_minutiae image find_contours).
Local Abbreviation quality_of_image := (quality_of_image image statistics).

(** A success of [process_fingerprint]: the image data is base64 text
    of an image, the minutiae extracted from the enhanced image are not
    empty, their number is the count of the report, the quality of the
    report is the computed one and is not below the threshold, and the
    template is the one written for these minutiae and this quality.
    When [float.__repr__] writes the floats of the template as numerals
    that read back, the template decodes to these minutiae, and
    [verify_quality] on it returns the quality and the count of the
    report and is valid exactly when the quality is at or above the
    threshold and there are at least 10 minutiae. *)
Theorem process_fingerprint_processed (self : t) (image_data : pyval)
    (template : string) (quality : float) (minutiae_count : Z) :
  plain_string (template_version self) = true ->
  process_fingerprint self image_data = Done (Processed template quality minutiae_count) ->
  exists s image_bytes im enhanced_image minutiae,
    image_data = PStr s /\
    Base64.b64decode s = Some image_bytes /\
    imdecode image_bytes = Done (Some im) /\
    _enhance_fingerprint im = Done enhanced_image /\
    _extract_minutiae enhanced_image = Done minutiae /\
    minutiae <> [] /\
    minutiae_count = Z.of_nat (List.length minutiae) /\
    quality = quality_of_image enhanced_image minutiae /\
    ltb quality (min_quality_threshold self) = false /\
    template = _generate_template float_repr self (map Minutia.to_py minutiae) quality
                 [fst (shape enhanced_image); snd (shape enhanced_image)] /\
    (forallb (repr_round_trips float_repr)
       (quality :: map Minutia.orientation minutiae) = true ->
     (exists d,
        _decode_template (PStr template) = Some (PDict d) /\
        Py.lookup "minutiae" d = Some (PList (map Minutia.to_py minutiae)) /\
        Py.lookup "quality" d = Some (PFloat quality)) /\
     verify_quality self (PStr template)
     = PDict [ ("is_valid"%string,
                PBool (geb quality (min_quality_threshold self)
                       && (10 <=? minutiae_count)%Z));
               ("quality"%string, PFloat quality);
               ("minutiae_count"%string, PInt minutiae_count) ]).
Proof.
  intros Hv. unfold Pipeline.process_fingerprint.
  destruct image_data as [ | | | | s | | | ]; try discriminate.
  destruct (Base64.b64decode s) as [image_bytes |] eqn:Eb; [| discriminate].
  destruct (imdecode image_bytes) as [[im |] | |] eqn:Ei; cbn [bind try_except];
    try discriminate.
  destruct (_enhance_fingerprint im) as [enhanced_image | |] eqn:Ee; cbn [bind try_except];
    try discriminate.
  destruct (_extract_minutiae enhanced_image) as [minutiae | |] eqn:Em;
    cbn [bind try_except]; try discriminate.
  destruct minutiae as [| m0 rest] eqn:El; [discriminate|]. rewrite <- El in *.
  destruct (ltb (quality_of_image enhanced_image minutiae) (min_quality_threshold self))
    eqn:Eq; [discriminate|].
  intros E. injection E as <- <- <-.
  exists s, image_bytes, im, enhanced_image, minutiae.
  repeat split; try assumption; try reflexivity.
  - subst minutiae. discriminate.
  - eexists. split; [apply (decode_generate float_repr self); assumption|].
    split; reflexivity.
  - now apply verify_quality_generated.
Qed.

(** [process_fingerprint] never raises.  It fails with the low-quality
    message only for a quality below the threshold, and with the
    message of the handler on every image data that is not a string or
    is not base64 text: the image is not touched. *)
Theorem process_fingerprint_failures (self : t) (image_data : pyval) :
  process_fingerprint self image_data <> Raised /\
  (forall quality,
     process_fingerprint self image_data = Done (Failed (quality_too_low quality)) ->
     ltb quality (min_quality_threshold self) = true) /\
  ((forall s, image_data = PStr s -> Base64.b64decode s = None) ->
   process_fingerprint self image_data = Done (Failed processing_failed)).
Proof.
  unfold Pipeline.process_fingerprint. repeat split.
  - destruct image_data as [ | | | | s | | | ]; try discriminate.
    destruct (Base64.b64decode s) as [image_bytes |]; [| discriminate].
    destruct (imdecode image_bytes) as [[im |] | |]; cbn [bind try_except]; try discriminate.
    destruct (_enhance_fingerprint im) as [enhanced_image | |]; cbn [bind try_except];
      try discriminate.
    destruct (_extract_minutiae enhanced_image) as [minutiae | |]; cbn [bind try_except];
      try discriminate.
    destruct minutiae; [discriminate|].
    destruct (ltb _ _); discriminate.
  - intros quality.
    destruct image_data as [ | | | | s | | | ]; try discriminate.
    destruct (Base64.b64decode s) as [image_bytes |]; [| discriminate].
    destruct (imdecode image_bytes) as [[im |] | |]; cbn [bind try_except]; try discriminate.
    destruct (_enhance_fingerprint im) as [enhanced_image | |]; cbn [bind try_except];
      try discriminate.
    destruct (_extract_minutiae enhanced_image) as [minutiae | |]; cbn [bind try_except];
      try discriminate.
    destruct minutiae as [| m0 rest]; [discriminate|].
    destruct (ltb _ _) eqn:E; [| discriminate].
    intros H. injection H as <-. exact E.
  - intros H. destruct image_data as [ | | | | s | | | ]; try reflexivity.
    now rewrite (H s eq_refl).
Qed.

End ProcessProperties.

Section ProcessExamples.

Import Float64 FingerprintProcessor Pipeline Plain Examples.

(** A sharp image of 1000 pixels with one contour of 12 points and
    two corners; the image data is the base64 text of three bytes. *)
Lemma process_fingerprint_processed_witness :
  let stats := {| std := f255; laplacian_var := f1000; edge_pixels := 1000; size := 1000 |} in
  let c := {| contour_length := 12;
              corners := Some [(10, 10, zero); (13, 14, f0_3)]%Z |} in
  exists template quality,
    process_fingerprint nat (fun _ => Done (Some O)) (fun im => Done im)
      (fun _ => (300, 256)%Z) (fun _ => Some stats) (fun _ => Done [c]) exact_repr
      __init__ (PStr "QUJD")
    = Done (Processed template quality 2) /\
    ltb quality (min_quality_threshold __init__) = false /\
    verify_quality __init__ (PStr template)
    = PDict [ ("is_valid"%string, PBool false);
              ("quality"%string, PFloat quality);
              ("minutiae_count"%string, PInt 2) ].
Proof.
  intros stats c.
  destruct (process_fingerprint nat (fun _ => Done (Some O)) (fun im => Done im)
              (fun _ => (300, 256)%Z) (fun _ => Some stats) (fun _ => Done [c]) exact_repr
              __init__ (PStr "QUJD")) as [[e | template quality n] | |] eqn:E;
    try (vm_compute in E; discriminate E).
  assert (n = 2%Z) by (vm_compute in E; congruence). subst n.
  destruct (process_fingerprint_processed nat _ _ _ _ _ exact_repr __init__ _ _ _ _
              eq_refl E)
    as (s & b & im & en & ms & _ & _ & _ & _ & Em & _ & _ & Eq & L & _ & V).
  exists template, quality. split; [reflexivity|]. split; [exact L|].
  assert (ms = [corner_minutia (10, 10, zero); corner_minutia (13, 14, f0_3)]%Z)
    by (vm_compute in Em; injection Em as <-; reflexivity).
  subst ms.
  destruct V as [_ V].
  - rewrite Eq. vm_compute. reflexivity.
  - rewrite V. rewrite andb_false_r. reflexivity.
Defined.

(** Image data with incomplete padding. *)
Lemma process_fingerprint_failures_witness :
  process_fingerprint nat (fun _ => Done (Some O)) (fun im => Done im)
    (fun _ => (300, 256)%Z) (fun _ => None) (fun _ => Done []) exact_repr
    __init__ (PStr template_bad_padding)
  = Done (Failed processing_failed).
Proof.
  apply (process_fingerprint_failures nat).
  intros s E. injection E as <-. vm_compute. reflexivity.
Defined.

End ProcessExamples.
(* ===================================================================== *)
(** * Characters outside the base64 alphabet *)
(* ===================================================================== *)

Section PaddingFacts.

Import Base64.

Local Open Scope N_scope.

(** A character that the decoder passes over: ASCII, outside the
    alphabet and not the pad. *)
Lemma a2b_base64_ignored (c : ascii) (s2 : string) :
  Ascii.eqb c "="%char = false -> table_a2b c = None ->
  forall s1 quad_pos leftchar pads,
    a2b_base64 (s1 ++ String c s2) quad_pos leftchar pads
    = a2b_base64 (s1 ++ s2) quad_pos leftchar pads.
Proof.
  intros Hp Ht. induction s1 as [| a s1 IH]; intros quad_pos leftchar pads.
  - cbn [append a2b_base64]. now rewrite Hp, Ht.
  - cbn [append a2b_base64].
    destruct (Ascii.eqb a "="%char).
    + destruct ((2 <=? quad_pos) && (4 <=? quad_pos + (pads + 1))); [reflexivity | apply IH].
    + destruct (table_a2b a) as [v |]; [| apply IH].
      destruct (quad_pos =? 0); [apply IH|].
      destruct (quad_pos =? 1); [rewrite IH; reflexivity |].
      destruct (quad_pos =? 2); now rewrite IH.
Qed.

Lemma is_ascii_ignored (c : ascii) (s2 : string) :
  (code c <? 128) = true ->
  forall s1, is_ascii (s1 ++ String c s2) = is_ascii (s1 ++ s2).
Proof.
  intros Hc. induction s1 as [| a s1 IH].
  - cbn [append is_ascii]. now rewrite Hc.
  - cbn [append is_ascii]. now rewrite IH.
Qed.

End PaddingFacts.

Section PaddingProperties.

Import Base64 Examples.

(** A template with an ASCII character outside the base64 alphabet
    (a line break, a space) inserted anywhere decodes as the template
    without it, in the processor and in the matcher: such characters are
    passed over. *)
Theorem decode_template_ignores_foreign_characters (c : ascii) (s1 s2 : string) :
  (code c <? 128)%N = true ->
  Ascii.eqb c "="%char = false ->
  table_a2b c = None ->
  FingerprintProcessor._decode_template (PStr (s1 ++ String c s2))
  = FingerprintProcessor._decode_template (PStr (s1 ++ s2)) /\
  FingerprintMatcher._decode_template (PStr (s1 ++ String c s2))
  = FingerprintMatcher._decode_template (PStr (s1 ++ s2)).
Proof.
  intros Ha Hp Ht.
  assert (E : b64decode (s1 ++ String c s2) = b64decode (s1 ++ s2)).
  { unfold b64decode. rewrite (is_ascii_ignored c s2 Ha s1).
    now rewrite (a2b_base64_ignored c s2 Hp Ht s1). }
  unfold FingerprintProcessor._decode_template, FingerprintMatcher._decode_template.
  now rewrite E.
Qed.

(** A line feed after the eighth character of the template of the JSON
    document [{"version":"9.9"}]. *)
Lemma decode_template_ignores_foreign_characters_witness :
  FingerprintProcessor._decode_template
    (PStr ("eyJ2ZXJz" ++ String "010"%char "aW9uIjoiOS45In0="))
  = FingerprintProcessor._decode_template (PStr ("eyJ2ZXJz" ++ "aW9uIjoiOS45In0=")).
Proof.
  apply (decode_template_ignores_foreign_characters "010"%char
           "eyJ2ZXJz" "aW9uIjoiOS45In0="); reflexivity.
Defined.

End PaddingProperties.
(* ===================================================================== *)
(** * The two measurements of a pair are symmetric *)
(* ===================================================================== *)

Section SymmetryFacts.

Import Float64 FingerprintMatcher FloatOrder FloatShape Search.

(** The sign of the rounded number is the sign given. *)
Lemma binary_round_aux_opp (s : bool) (m e : Z) (l : location) :
  SFopp (binary_round_aux prec emax s m e l) = binary_round_aux prec emax (negb s) m e l.
Proof.
  unfold binary_round_aux.
  destruct (shr_fexp prec emax m e l) as [mrs e1].
  destruct (shr_fexp prec emax _ e1 loc_Exact) as [mrs2 e2].
  destruct (shr_m mrs2); [reflexivity | | reflexivity].
  destruct (e2 <=? emax - prec); reflexivity.
Qed.

Lemma binary_round_opp (s : bool) (m : positive) (e : Z) :
  SFopp (binary_round prec emax s m e) = binary_round prec emax (negb s) m e.
Proof.
  unfold binary_round. destruct (shl_align m e _) as [mz ez].
  apply binary_round_aux_opp.
Qed.

Lemma abs_opp (x : float) : abs (SFopp x) = abs x.
Proof. destruct x; reflexivity. Qed.

(** Rounding the opposite number gives the same magnitude. *)
Lemma abs_normalize_opp (K e : Z) :
  abs (binary_normalize prec emax (- K) e false) = abs (binary_normalize prec emax K e false).
Proof.
  destruct K as [| p | p]; [reflexivity | |]; cbn [Z.opp binary_normalize].
  - rewrite <- (abs_opp (binary_round prec emax false p e)). now rewrite binary_round_opp.
  - rewrite <- (abs_opp (binary_round prec emax true p e)). now rewrite binary_round_opp.
Qed.

Lemma mul_opp_self (x : float) : mul (SFopp x) (SFopp x) = mul x x.
Proof. destruct x as [s | s | | s m e]; try reflexivity; destruct s; reflexivity. Qed.

Lemma of_Z_opp (n : Z) : of_Z (- n) = SFopp (of_Z n) \/ n = 0.
Proof.
  destruct n as [| p | p]; [now right | left | left]; unfold of_Z;
    cbn [Z.opp binary_normalize]; now rewrite binary_round_opp.
Qed.

Lemma square_opp (n : Z) : mul (of_Z (- n)) (of_Z (- n)) = mul (of_Z n) (of_Z n).
Proof.
  destruct (of_Z_opp n) as [-> | ->]; [apply mul_opp_self | reflexivity].
Qed.

(** An [int64] difference taken the other way round is the opposite
    number, or the same when it is the least [int64]. *)
Lemma wrap_int64_swap (a b : Z) :
  wrap_int64 (b - a) = - wrap_int64 (a - b) \/ wrap_int64 (b - a) = wrap_int64 (a - b).
Proof.
  unfold wrap_int64. change (2 ^ 63) with 9223372036854775808.
  change (2 ^ 64) with 18446744073709551616.
  pose proof (Z.div_mod (a - b + 9223372036854775808) 18446744073709551616 ltac:(lia)) as E.
  pose proof (Z.mod_pos_bound (a - b + 9223372036854775808) 18446744073709551616 ltac:(lia)) as B.
  set (q := (a - b + 9223372036854775808) / 18446744073709551616) in *.
  set (r := (a - b + 9223372036854775808) mod 18446744073709551616) in *.
  destruct (Z.eq_dec r 0) as [R | R].
  - right. rewrite R.
    rewrite <- (Z.mod_unique (b - a + 9223372036854775808) 18446744073709551616 (1 - q) 0);
      [reflexivity | left; lia | lia].
  - left.
    rewrite <- (Z.mod_unique (b - a + 9223372036854775808) 18446744073709551616 (- q)
               (18446744073709551616 - r)); [lia | left; lia | lia].
Qed.

Lemma norm_swap (p q : point) : norm (point_sub p q) = norm (point_sub q p).
Proof.
  unfold norm, point_sub. cbn [fst snd].
  assert (S : forall a b, mul (of_Z (wrap_int64 (a - b))) (of_Z (wrap_int64 (a - b)))
                          = mul (of_Z (wrap_int64 (b - a))) (of_Z (wrap_int64 (b - a)))).
  { intros a b. destruct (wrap_int64_swap a b) as [-> | ->];
      [now rewrite square_opp | reflexivity]. }
  now rewrite (S (fst p) (fst q)), (S (snd p) (snd q)).
Qed.

(** The order of the opposites is the opposite order. *)
Lemma ltb_opp (x y : float) : ltb (SFopp x) (SFopp y) = ltb y x.
Proof.
  unfold ltb, SFltb.
  destruct x as [[|] | [|] | | [|] m1 e1], y as [[|] | [|] | | [|] m2 e2];
    try reflexivity; cbn [SFopp negb].
  all: rewrite compare_finite_pos, compare_finite_neg;
    rewrite (Z.compare_antisym e1 e2), (Z.compare_antisym (Z.pos m1) (Z.pos m2));
    destruct (e1 ?= e2); cbn [CompOpp]; try reflexivity;
    destruct (Z.pos m1 ?= Z.pos m2); reflexivity.
Qed.

Lemma within8_opp (d : float) : within8 (SFopp d) = within8 d.
Proof. destruct d; reflexivity. Qed.

(** What [_normalize_angle] returns on an angle of magnitude at most 8. *)
Lemma normalize_angle_within8 (f : nat) (d : float) :
  within8 d = true ->
  _normalize_angle (S f) d
  = Done (if gtb d pi then sub d two_pi else if ltb d (SFopp pi) then add d two_pi else d).
Proof.
  intro W. unfold _normalize_angle.
  assert (Stop1 : forall k r, in_half_turn r = true -> while_above_pi k r = Done r).
  { intros k r Hr. apply in_half_turn_inv in Hr. destruct Hr as [_ Hr].
    apply leb_not_ltb in Hr. destruct k; cbn [while_above_pi]; unfold gtb; now rewrite Hr. }
  assert (Stop2 : forall k r, in_half_turn r = true -> while_below_minus_pi k r = Done r).
  { intros k r Hr. apply in_half_turn_inv in Hr. destruct Hr as [Hr _].
    apply leb_not_ltb in Hr. destruct k; cbn [while_below_minus_pi]; now rewrite Hr. }
  destruct (gtb d pi) eqn:G.
  - pose proof (sub_two_pi_in_half_turn d W G) as Hr.
    cbn [while_above_pi]. rewrite G. rewrite Stop1 by assumption.
    cbn [bind]. now apply Stop2.
  - cbn [while_above_pi]. rewrite G. cbn [bind].
    destruct (ltb d (SFopp pi)) eqn:L.
    + pose proof (add_two_pi_in_half_turn d W L) as Hr.
      cbn [while_below_minus_pi]. rewrite L. now apply Stop2.
    + cbn [while_below_minus_pi]. now rewrite L.
Qed.

(** A sum or a difference, and the same with the first operand
    negated and the operation exchanged. *)
Lemma abs_add_opp (x y : float) :
  is_finite x = true -> is_finite y = true ->
  abs (add (SFopp x) y) = abs (sub x y) /\ abs (sub (SFopp x) y) = abs (add x y).
Proof.
  destruct x as [sx | sx | | sx mx ex]; try discriminate;
    destruct y as [sy | sy | | sy my ey]; try discriminate; intros _ _.
  - destruct sx, sy; split; reflexivity.
  - split; reflexivity.
  - split; cbn; reflexivity.
  - unfold add, sub, SFadd, SFsub. cbn [SFopp].
    set (a := Z.pos (fst (shl_align mx ex (Z.min ex ey)))).
    set (b := Z.pos (fst (shl_align my ey (Z.min ex ey)))).
    split.
    + rewrite <- abs_normalize_opp. f_equal. f_equal.
      destruct sx, sy; cbn [negb cond_Zopp]; lia.
    + rewrite <- abs_normalize_opp. f_equal. f_equal.
      destruct sx, sy; cbn [negb cond_Zopp]; lia.
Qed.

Lemma within8_finite_value (d : float) : within8 d = true -> is_finite d = true.
Proof. destruct d; cbn; congruence. Qed.

(** The magnitude of the normalised angle does not depend on the sign
    of the angle. *)
Lemma normalize_angle_opp (f : nat) (d : float) :
  within8 d = true ->
  exists r r', _normalize_angle (S f) d = Done r /\
               _normalize_angle (S f) (SFopp d) = Done r' /\ abs r' = abs r.
Proof.
  intro W.
  rewrite (normalize_angle_within8 f d W).
  rewrite (normalize_angle_within8 f (SFopp d)) by now rewrite within8_opp.
  do 2 eexists. split; [reflexivity|]. split; [reflexivity|].
  assert (G' : gtb (SFopp d) pi = ltb d (SFopp pi)).
  { unfold gtb. change pi with (SFopp (SFopp pi)) at 1. apply ltb_opp. }
  assert (L' : ltb (SFopp d) (SFopp pi) = gtb d pi) by (unfold gtb; apply ltb_opp).
  rewrite G', L'.
  pose proof (within8_finite_value d W) as Fd.
  assert (F2 : is_finite two_pi = true) by reflexivity.
  destruct (abs_add_opp d two_pi Fd F2) as [A1 A2].
  destruct (gtb d pi) eqn:G, (ltb d (SFopp pi)) eqn:L.
  - exfalso. unfold gtb in G.
    assert (P : ltb (SFopp pi) pi = true) by reflexivity.
    pose proof (ltb_trans _ _ _ L (ltb_trans _ _ _ P G)) as C.
    rewrite ltb_irrefl in C. discriminate.
  - exact A1.
  - exact A2.
  - apply abs_opp.
Qed.

(** A difference of two finite values taken the other way round. *)
Lemma sub_swap (a b : float) :
  is_finite a = true -> is_finite b = true ->
  sub b a = SFopp (sub a b) \/
  (exists s s', sub a b = S754_zero s /\ sub b a = S754_zero s').
Proof.
  destruct a as [sa | sa | | sa ma ea]; try discriminate;
    destruct b as [sb | sb | | sb mb eb]; try discriminate; intros _ _.
  - right. destruct sa, sb; do 2 eexists; split; reflexivity.
  - left. cbn. now rewrite negb_involutive.
  - left. reflexivity.
  - unfold sub, SFsub. rewrite (Z.min_comm eb ea).
    set (x := cond_Zopp sa (Z.pos (fst (shl_align ma ea (Z.min ea eb))))).
    set (y := cond_Zopp sb (Z.pos (fst (shl_align mb eb (Z.min ea eb))))).
    replace (y - x) with (- (x - y)) by lia.
    destruct (x - y) as [| p | p].
    + right. exists false, false. split; reflexivity.
    + left. cbn [Z.opp binary_normalize]. now rewrite binary_round_opp.
    + left. cbn [Z.opp binary_normalize]. now rewrite binary_round_opp.
Qed.

Lemma angle_ok_is_finite (x : float) : angle_ok x = true -> is_finite x = true.
Proof. intro H. apply within8_finite_value. now apply angle_ok_within8. Qed.

Lemma angle_difference_swap (f : nat) (a b : float) :
  angle_ok a = true -> angle_ok b = true ->
  exists r r', _normalize_angle (S f) (sub a b) = Done r /\
               _normalize_angle (S f) (sub b a) = Done r' /\ abs r' = abs r.
Proof.
  intros Ha Hb.
  destruct (sub_swap a b (angle_ok_is_finite a Ha) (angle_ok_is_finite b Hb))
    as [E | (s & s' & E1 & E2)].
  - rewrite E. apply normalize_angle_opp. now apply sub_within8.
  - rewrite E1, E2. exists (S754_zero s), (S754_zero s').
    rewrite !normalize_angle_within8 by reflexivity.
    destruct s, s'; repeat split; reflexivity.
Qed.

End SymmetryFacts.

Section SymmetryProperties.

Import Float64 FingerprintMatcher FloatOrder FloatShape Search.

(** The two measurements that the search takes of a pair of minutiae do
    not depend on which of the two comes from the probe: the distance
    [np.linalg.norm(p1 - p2)] is the same both ways for any two rows of
    [int64] coordinates, and for orientations between [-pi] and [pi]
    the normalised difference has the same magnitude both ways, so that
    the pair passes or fails the two thresholds both ways, with the same
    measurements. *)
Theorem pair_measurements_symmetric (self : t) (f : nat) (r1 r2 : point * float) :
  angle_ok (snd r1) = true -> angle_ok (snd r2) = true ->
  norm (point_sub (fst r1) (fst r2)) = norm (point_sub (fst r2) (fst r1)) /\
  (exists a a', _normalize_angle (S f) (sub (snd r1) (snd r2)) = Done a /\
                _normalize_angle (S f) (sub (snd r2) (snd r1)) = Done a' /\
                abs a = abs a') /\
  pairing self (S f) r1 r2 = pairing self (S f) r2 r1.
Proof.
  intros H1 H2.
  destruct (angle_difference_swap f _ _ H1 H2) as (a & a' & Ea & Ea' & Eabs).
  split; [apply norm_swap|]. split.
  - exists a, a'. repeat split; try assumption. now symmetry.
  - unfold pairing. rewrite (norm_swap (fst r2) (fst r1)).
    rewrite Ea, Ea'. cbn [bind]. now rewrite Eabs.
Qed.

(** Two minutiae at [(10, 10)] and [(13, 14)] with orientations [3]
    and [-3]: the difference [6] loses a full turn one way, the
    difference [-6] gains one the other way, and the pair passes both
    thresholds both ways. *)
Lemma pair_measurements_symmetric_witness :
  pairing __init__ 1 ((10, 10), of_Z 3) ((13, 14), of_Z (-3))
  = pairing __init__ 1 ((13, 14), of_Z (-3)) ((10, 10), of_Z 3) /\
  exists d od, pairing __init__ 1 ((10, 10), of_Z 3) ((13, 14), of_Z (-3))
               = Done (Some (d, od)).
Proof.
  split.
  - apply (pair_measurements_symmetric __init__ 0 ((10, 10), of_Z 3) ((13, 14), of_Z (-3)));
      vm_compute; reflexivity.
  - vm_compute. do 2 eexists. reflexivity.
Defined.

End SymmetryProperties.
(* ===================================================================== *)
(** * Feature extraction *)
(* ===================================================================== *)

Section FeatureFacts.

Import Float64 FingerprintProcessor FloatOrder FloatShape Features.

Lemma len_nonneg (v : pyval) (n : Z) : len v = Done n -> 0 <= n.
Proof. destruct v; cbn [len]; intro E; try discriminate E; injection E as <-; lia. Qed.

Lemma int_truediv_nonneg (n k : Z) : 0 <= n -> 0 < k -> nonneg (int_truediv n k) = true.
Proof.
  intros Hn Hk. destruct n as [| p | p]; [| | lia]; destruct k as [| q | q]; try lia.
  - reflexivity.
  - cbn [int_truediv]. now apply div_nonneg.
Qed.

Lemma above_one (f : float) :
  gtb f one = true -> f = S754_infinity false \/ positive_finite f = true.
Proof.
  destruct f as [[|] | [|] | | [|] m e]; intro H; try discriminate H;
    [now left | now right].
Qed.

Lemma of_Z_nonneg (n : Z) : 0 <= n -> nonneg (of_Z n) = true.
Proof. intro H. unfold of_Z. now apply binary_normalize_nonneg. Qed.

(** The quotient of a count by [max(1, a * b)] is not negative. *)
Lemma ratio_nonneg (a b : pyval) (n : Z) (area : Z + float) (ratio : float) :
  0 <= n -> max_1_product a b = Done area -> true_divide n area = Done ratio ->
  nonneg ratio = true.
Proof.
  intros Hn Ha Hr.
  assert (F : forall p, max_1_float p = area -> nonneg ratio = true).
  { intros p E. unfold max_1_float in E. destruct (gtb p one) eqn:G.
    - subst area. cbn [true_divide] in Hr. unfold float_of_int in Hr.
      destruct (is_finite (of_Z n)) eqn:Fn; [| discriminate Hr]. cbn [bind] in Hr.
      destruct (eqb p zero); [discriminate Hr|]. injection Hr as <-.
      pose proof (of_Z_nonneg n Hn) as N.
      destruct (above_one p G) as [-> | P]; [| now apply div_nonneg].
      destruct (of_Z n) as [s | [|] | | [|] m e]; try discriminate; reflexivity.
    - subst area. cbn [true_divide] in Hr. change (1 =? 0) with false in Hr.
      cbv beta iota zeta in Hr.
      destruct (is_finite (int_truediv n 1)); [| discriminate Hr]. injection Hr as <-.
      apply int_truediv_nonneg; lia. }
  unfold max_1_product in Ha.
  destruct (number a) as [[x | x] |], (number b) as [[y | y] |]; try discriminate Ha.
  - injection Ha as <-. cbn [true_divide] in Hr.
    destruct (Z.ltb_spec 1 (x * y)) as [L | L].
    + destruct (Z.eqb_spec (x * y) 0); [lia|].
      destruct (is_finite (int_truediv n (x * y))); [| discriminate Hr]. injection Hr as <-.
      apply int_truediv_nonneg; lia.
    + change (1 =? 0) with false in Hr. cbv beta iota zeta in Hr.
      destruct (is_finite (int_truediv n 1)); [| discriminate Hr]. injection Hr as <-.
      apply int_truediv_nonneg; lia.
  - destruct (float_of_int x) as [fx | |]; try discriminate Ha. cbn [bind] in Ha.
    injection Ha as Ha. now apply (F _ Ha).
  - destruct (float_of_int y) as [fy | |]; try discriminate Ha. cbn [bind] in Ha.
    injection Ha as Ha. now apply (F _ Ha).
  - injection Ha as Ha. now apply (F _ Ha).
Qed.

(** ** Quotients that are finite *)

Lemma Zdigits2_bound (m k : Z) : 0 <= m -> 0 <= k -> m < 2 ^ k -> Zdigits2 m <= k.
Proof.
  intros Hm Hk H. destruct m as [| p | p]; [cbn; lia | | lia].
  change (Zdigits2 (Z.pos p)) with (dig p). now apply dig_le.
Qed.

Lemma Zdigits2_upper (m : Z) : 0 <= m -> m < 2 ^ Zdigits2 m.
Proof.
  intros Hm. destruct m as [| p | p]; [cbn; lia | | lia].
  change (Zdigits2 (Z.pos p)) with (dig p). apply dig_bounds.
Qed.

Lemma Zdigits2_nonneg (m : Z) : 0 <= Zdigits2 m.
Proof. destruct m as [| p | p]; cbn; lia. Qed.

(** What [shr_fexp] does to the mantissa and to the exponent. *)
Lemma shr_fexp_spec (m e : Z) (l : location) :
  0 <= m ->
  shr_m (fst (shr_fexp prec emax m e l))
  = m / 2 ^ Z.max 0 (fexp prec emax (Zdigits2 m + e) - e) /\
  snd (shr_fexp prec emax m e l) = e + Z.max 0 (fexp prec emax (Zdigits2 m + e) - e).
Proof.
  intro Hm. unfold shr_fexp, shr.
  assert (R : exists r s, shr_record_of_loc m l = Build_shr_record m r s).
  { destruct l as [| []]; cbn; eauto. }
  destruct R as (r & s & ->).
  destruct (fexp prec emax (Zdigits2 m + e) - e) as [| n | n]; cbn [fst snd shr_m].
  - change (Z.max 0 0) with 0. rewrite Z.div_1_r. lia.
  - rewrite iter_pos_nat, shr_iter_m by assumption. rewrite positive_nat_Z.
    rewrite Z.max_r by lia. split; reflexivity.
  - rewrite Z.max_l by lia. change (2 ^ 0) with 1. rewrite Z.div_1_r. lia.
Qed.

(** A number below [2 ^ B], with [B] well within the range, rounds
    to a finite value. *)
Lemma binary_round_aux_finite (s : bool) (m e : Z) (l : location) (B : Z) :
  0 <= m -> e <= B -> e <= 970 -> B <= 1023 -> m < 2 ^ (B - e) ->
  is_finite (binary_round_aux prec emax s m e l) = true.
Proof.
  intros Hm HeB He HB Hv. unfold binary_round_aux.
  pose proof (shr_fexp_spec m e l Hm) as [M1 E1].
  pose proof (shr_fexp_nonneg m e l Hm) as N1.
  destruct (shr_fexp prec emax m e l) as [mrs' e']. cbn [fst snd] in M1, E1, N1.
  pose proof (round_nearest_even_bounds (shr_m mrs') (loc_of_shr_record mrs')) as R.
  set (m1 := round_nearest_even (shr_m mrs') (loc_of_shr_record mrs')) in *.
  assert (Hm1 : 0 <= m1) by lia.
  pose proof (shr_fexp_spec m1 e' loc_Exact Hm1) as [M2 E2].
  pose proof (shr_fexp_nonneg m1 e' loc_Exact Hm1) as N2.
  destruct (shr_fexp prec emax m1 e' loc_Exact) as [mrs'' e'']. cbn [fst snd] in M2, E2, N2.
  destruct (shr_m mrs'') as [| p | p]; [reflexivity | | lia].
  assert (F : e'' <= 971); [| destruct (Z.leb_spec e'' (emax - prec)); [reflexivity|];
                               change (emax - prec) with 971 in *; lia].
  pose proof (Zdigits2_bound m (B - e) Hm ltac:(lia) Hv) as D.
  pose proof (Zdigits2_nonneg m) as D0.
  rewrite fexp_eq in M1, E1.
  set (n := Z.max 0 (Z.max (Zdigits2 m + e - 53) (-1074) - e)) in *.
  assert (Hn : 0 <= n) by lia.
  assert (Hn' : Zdigits2 m - 53 <= n) by lia.
  assert (S1 : shr_m mrs' < 2 ^ 53).
  { rewrite M1. apply Z.div_lt_upper_bound; [apply Z.pow_pos_nonneg; lia|].
    rewrite <- Z.pow_add_r by lia.
    pose proof (Zdigits2_upper m Hm) as U.
    assert (2 ^ Zdigits2 m <= 2 ^ (n + 53)) by (apply Z.pow_le_mono_r; lia). lia. }
  assert (D1 : Zdigits2 m1 <= 54).
  { apply Zdigits2_bound; [lia | lia |]. change (2 ^ 54) with (2 * 2 ^ 53). lia. }
  pose proof (Zdigits2_nonneg m1) as D10.
  rewrite fexp_eq in E2. lia.
Qed.

(** The quotient of two ints, the first below [2 ^ 63], is finite. *)
Lemma int_truediv_finite (n k : Z) :
  0 <= n -> n < 2 ^ 63 -> 0 < k -> is_finite (int_truediv n k) = true.
Proof.
  intros Hn Hb Hk. destruct n as [| p | p]; [| | lia]; destruct k as [| q | q]; try lia;
    [reflexivity|].
  cbn [int_truediv]. unfold div, SFdiv, SFdiv_core_binary.
  change (Zdigits2 (Z.pos p)) with (dig p). change (Zdigits2 (Z.pos q)) with (dig q).
  rewrite !Z.add_0_r. change (0 - 0) with 0.
  set (e' := Z.min (fexp prec emax (dig p - dig q)) 0).
  assert (He' : e' <= 0) by (unfold e'; lia).
  set (m' := match 0 - e' with 0 => Z.pos p | Z.pos _ => Z.shiftl (Z.pos p) (0 - e')
                             | Z.neg _ => 0 end).
  assert (Hm' : m' = Z.pos p * 2 ^ (- e')).
  { unfold m'. destruct (0 - e') as [| s | s] eqn:E; [| | lia].
    - replace (- e') with 0 by lia. lia.
    - rewrite Z.shiftl_mul_pow2 by lia. f_equal. f_equal. lia. }
  rewrite div_eucl_eq.
  assert (P : 0 < 2 ^ (- e')) by (apply Z.pow_pos_nonneg; lia).
  apply (binary_round_aux_finite _ _ _ _ 63); try lia.
  - apply Z.div_pos; lia.
  - replace (63 - e') with (63 + - e') by lia. rewrite Z.pow_add_r by lia.
    apply Z.div_lt_upper_bound; [lia|]. rewrite Hm'. nia.
Qed.

Lemma float_of_int_count (n : Z) : 0 <= n -> n < 2 ^ 63 -> float_of_int n = Done (of_Z n).
Proof.
  intros Hn Hb. unfold float_of_int. destruct (Z.eq_dec n 0) as [-> | N]; [reflexivity|].
  pose proof (of_Z_positive_finite n ltac:(lia) Hb) as P.
  destruct (of_Z n) as [s | s | | [|] m e]; try discriminate P. reflexivity.
Qed.

End FeatureFacts.

Section FeatureProperties.

Import Float64 FingerprintProcessor FloatOrder FloatShape Plain Features Examples.

Local Open Scope string_scope.

(** The orientations that the comprehension collects from the minutiae
    of the data model. *)
Lemma orientations_collected (ms : list Minutia.t) :
  mapM orientation_of (map Minutia.to_py ms)
  = Done (map (fun m => PFloat (Minutia.orientation m)) ms).
Proof.
  induction ms as [| m ms IH]; [reflexivity|].
  cbn [map mapM]. rewrite IH. reflexivity.
Qed.

(** On a template that [_generate_template] wrote for fewer than
    [2 ^ 63] minutiae [ms], the quality [q] and an image of [h] rows and
    [w] columns, and when [np.mean] returns, [extract_features] succeeds
    with the count [len(ms)], the quality [q], the width [w], the height
    [h], the processor's version, the density
    [len(ms) / max(1, h * w) * 10000] and the mean of the orientations
    of [ms] in their order (the int 0 for no minutiae). *)
Theorem extract_features_generated (np_mean : list pyval -> option float)
    (float_repr : float -> string) (self : t) (ms : list Minutia.t) (q : float) (h w : Z) (mean : float) :
  plain_string (template_version self) = true ->
  forallb (repr_round_trips float_repr) (q :: map Minutia.orientation ms) = true ->
  Z.of_nat (List.length ms) < 2 ^ 63 ->
  (ms <> [] -> np_mean (map (fun m => PFloat (Minutia.orientation m)) ms) = Some mean) ->
  extract_features np_mean
    (PStr (_generate_template float_repr self (map Minutia.to_py ms) q [h; w]))
  = PDict
      [ ("success", PBool true);
        ("features",
         PDict [ ("minutiae_count", PInt (Z.of_nat (List.length ms)));
                 ("quality", PFloat q);
                 ("image_width", PInt w);
                 ("image_height", PInt h);
                 ("minutiae_density",
                  PFloat (mul (int_truediv (Z.of_nat (List.length ms)) (Z.max 1 (h * w)))
                            f10000));
                 ("average_orientation",
                  match ms with [] => PInt 0 | _ => PFloat mean end);
                 ("version", PStr (template_version self)) ]) ].
Proof.
  intros Hv Hr Hl Hm. unfold extract_features.
  rewrite (decode_generate float_repr self ms q h w Hv Hr).
  cbn [Py.truthy negb].
  change (Py.get _ "minutiae" (PList [])) with (PList (map Minutia.to_py ms)).
  change (Py.get _ "image_shape" (PList [PInt 0; PInt 0])) with (PList [PInt h; PInt w]).
  change (Py.get _ "image_shape" (PList [PInt 1; PInt 1])) with (PList [PInt h; PInt w]).
  change (Py.get _ "quality" (PFloat zero)) with (PFloat q).
  change (Py.get _ "version" (PStr "unknown")) with (PStr (template_version self)).
  cbn [len item nth_error bind max_1_product number]. rewrite length_map.
  replace (if (1 <? h * w)%Z then (h * w)%Z else 1%Z) with (Z.max 1 (h * w))
    by (destruct (Z.ltb_spec 1 (h * w)); lia).
  cbn [true_divide].
  destruct (Z.eqb_spec (Z.max 1 (h * w)) 0) as [E | _]; [lia|].
  rewrite int_truediv_finite by lia.
  unfold average_orientation.
  destruct ms as [| m ms']; [reflexivity|].
  cbn [Py.truthy map elements bind].
  change (Minutia.to_py m :: map Minutia.to_py ms') with (map Minutia.to_py (m :: ms')).
  rewrite orientations_collected. cbn [bind].
  rewrite Hm by discriminate. reflexivity.
Qed.

(** One minutia at quality 0.7 in an image of 300 rows and 256
    columns, with [np.mean] of one float. *)
Lemma extract_features_generated_witness :
  Py.lookup "features"
    match extract_features mean_of_one
            (PStr (_generate_template exact_repr __init__ (map Minutia.to_py [minutia_13_14])
                     f0_7 [300; 256])) with
    | PDict r => r
    | _ => []
    end
  = Some (PDict [ ("minutiae_count", PInt 1);
                  ("quality", PFloat f0_7);
                  ("image_width", PInt 256);
                  ("image_height", PInt 300);
                  ("minutiae_density", PFloat (mul (int_truediv 1 76800) f10000));
                  ("average_orientation", PFloat (Minutia.orientation minutia_13_14));
                  ("version", PStr "1.0") ]).
Proof.
  rewrite (extract_features_generated mean_of_one exact_repr __init__ [minutia_13_14] f0_7
             300 256 (Minutia.orientation minutia_13_14)).
  - reflexivity.
  - reflexivity.
  - vm_compute. reflexivity.
  - vm_compute. reflexivity.
  - intros _. reflexivity.
Defined.

End FeatureProperties.

Section FeatureReport.

Import Float64 FingerprintProcessor FloatOrder FloatShape Features.

Local Open Scope string_scope.

(** [extract_features] always returns a report.  A template that does
    not decode, or decodes to an empty value, is reported as an invalid
    format.  A report of success comes from a template that decodes to
    a record; its count is the length of the stored minutiae, its
    density is a float that is neither negative nor NaN (the divisor is
    at least 1), and its average orientation is the int 0 when the
    stored minutiae are empty.  A record without [image_shape] has the
    width 0, the height 0 and the density [count / 1 * 10000]. *)
Theorem extract_features_report (np_mean : list pyval -> option float) (template : pyval) :
  (match _decode_template template with
   | None => True
   | Some data => Py.truthy data = false
   end ->
   extract_features np_mean template = failed_result "Invalid template format") /\
  ((exists msg, extract_features np_mean template = failed_result msg) \/
   (exists d count width height density average,
      _decode_template template = Some (PDict d) /\
      extract_features np_mean template
      = PDict
          [ ("success", PBool true);
            ("features",
             PDict [ ("minutiae_count", PInt count);
                     ("quality", Py.get d "quality" (PFloat zero));
                     ("image_width", width);
                     ("image_height", height);
                     ("minutiae_density", PFloat density);
                     ("average_orientation", average);
                     ("version", Py.get d "version" (PStr "unknown")) ]) ] /\
      len (Py.get d "minutiae" (PList [])) = Done count /\
      (0 <= count)%Z /\
      nonneg density = true /\
      (Py.truthy (Py.get d "minutiae" (PList [])) = false -> average = PInt 0) /\
      (Py.lookup "image_shape" d = None ->
       width = PInt 0 /\ height = PInt 0 /\
       density = mul (int_truediv count 1) f10000))).
Proof.
  unfold extract_features. split.
  - destruct (_decode_template template) as [data |]; [| reflexivity].
    intros ->. reflexivity.
  - destruct (_decode_template template) as [data |]; [| left; eexists; reflexivity].
    destruct (negb (Py.truthy data)); [left; eexists; reflexivity|].
    destruct data as [ | | | | | | | d]; try (left; eexists; reflexivity).
    destruct (len (Py.get d "minutiae" (PList []))) as [count | |] eqn:El; cbn [bind];
      try (left; eexists; reflexivity).
    destruct (item (Py.get d "image_shape" (PList [PInt 0; PInt 0])) 1)
      as [width | |] eqn:Ew; cbn [bind]; try (left; eexists; reflexivity).
    destruct (item (Py.get d "image_shape" (PList [PInt 0; PInt 0])) 0)
      as [height | |] eqn:Eh; cbn [bind]; try (left; eexists; reflexivity).
    destruct (item (Py.get d "image_shape" (PList [PInt 1; PInt 1])) 0)
      as [rows | |] eqn:Er; cbn [bind]; try (left; eexists; reflexivity).
    destruct (item (Py.get d "image_shape" (PList [PInt 1; PInt 1])) 1)
      as [columns | |] eqn:Ec; cbn [bind]; try (left; eexists; reflexivity).
    destruct (max_1_product rows columns) as [area | |] eqn:Ea; cbn [bind];
      try (left; eexists; reflexivity).
    destruct (true_divide count area) as [ratio | |] eqn:Et; cbn [bind];
      try (left; eexists; reflexivity).
    destruct (average_orientation np_mean (Py.get d "minutiae" (PList [])))
      as [average | |] eqn:Eo; cbn [bind]; try (left; eexists; reflexivity).
    right. exists d, count, width, height, (mul ratio f10000), average.
    pose proof (len_nonneg _ _ El) as Hc.
    split; [reflexivity|]. split; [reflexivity|]. split; [exact El|].
    split; [assumption|]. split; [| split].
    + apply mul_nonneg_r; [| reflexivity]. exact (ratio_nonneg _ _ _ _ _ Hc Ea Et).
    + intro T. unfold average_orientation in Eo. rewrite T in Eo. now injection Eo as <-.
    + intro N. unfold Py.get in Ew, Eh, Er, Ec. rewrite N in Ew, Eh, Er, Ec.
      cbn in Ew, Eh, Er, Ec.
      injection Ew as <-. injection Eh as <-. injection Er as <-. injection Ec as <-.
      cbn in Ea. injection Ea as <-. cbn [true_divide] in Et.
      change (1 =? 0)%Z with false in Et. cbv beta iota zeta in Et.
      destruct (is_finite (int_truediv count 1)); [| discriminate Et].
      injection Et as <-. repeat split.
Qed.

End FeatureReport.
